(** * FR-Mobile: power / time / battery coordination core

    A shallow embedding of the parts of
    [src/hardware/power_manager.cpp] and [src/data/rtc_time_manager.cpp]
    that decide when the device sleeps, how it reacts to the battery
    level, in which order it switches its power rails and how it keeps
    track of clock synchronisation.

    Conventions.
    - Fixed-width integers are [Z] with the wrap-around written out
      ([uint8], [uint16], [uint32], [uint64], [int32]).
    - C++ [float] is IEEE binary32, modelled by the standard library's
      [spec_float] with precision 24 and maximal exponent 128.
    - Member functions are computations in a small state-and-trace monad
      over the object's members.  The trace records the calls that reach
      the platform (rail switches, delays, sleeps, bus transfers); log
      messages are not modelled.
    - [power_manager.cpp] is embedded as it is compiled without
      [ESP32_PLATFORM] (the development build, in which the platform sleep
      primitive returns).  The bus of [rtc_time_manager.cpp] is embedded
      with the outcome of every transfer supplied by the environment, which
      covers both builds. *)

From Stdlib Require Import ZArith List String Ascii Bool Lia.
From Stdlib Require Import Floats.SpecFloat.
Import ListNotations.

Open Scope string_scope.
Open Scope Z_scope.
Open Scope list_scope.

(** ** Machine integers *)

Definition uint8 (z : Z) : Z := z mod 2 ^ 8.
Definition uint16 (z : Z) : Z := z mod 2 ^ 16.
Definition uint32 (z : Z) : Z := z mod 2 ^ 32.
Definition uint64 (z : Z) : Z := z mod 2 ^ 64.

(** Conversion to a 32-bit two's complement [int]. *)
Definition int32 (z : Z) : Z := (z + 2 ^ 31) mod 2 ^ 32 - 2 ^ 31.

(** ** IEEE binary32 *)

Definition float : Type := spec_float.

Module Float32.

Definition prec : Z := 24.
Definition emax : Z := 128.

(** [static_cast<float>(n)] for an integer [n] (round to nearest even). *)
Definition of_Z (n : Z) : float := binary_normalize prec emax n 0 false.

Definition leb (x y : float) : bool := SFleb x y.
Definition ltb (x y : float) : bool := SFltb x y.
Definition eqb (x y : float) : bool := SFeqb x y.
Definition div (x y : float) : float := SFdiv prec emax x y.
Definition mul (x y : float) : float := SFmul prec emax x y.

Definition is_nan (x : float) : bool :=
  match x with S754_nan => true | _ => false end.

(** The place of a number on the extended real line, as a triple compared
    lexicographically: class (infinities, sign), then exponent, then
    mantissa.  [None] for NaN, which compares with nothing. *)
Definition rank (x : float) : option (Z * Z * Z) :=
  match x with
  | S754_nan => None
  | S754_infinity true => Some (-2, 0, 0)
  | S754_infinity false => Some (2, 0, 0)
  | S754_zero _ => Some (0, 0, 0)
  | S754_finite true m e => Some (-1, - e, - Zpos m)
  | S754_finite false m e => Some (1, e, Zpos m)
  end.

Definition lex (a b : Z * Z * Z) : comparison :=
  let '(a1, a2, a3) := a in
  let '(b1, b2, b3) := b in
  match a1 ?= b1 with
  | Eq => match a2 ?= b2 with Eq => a3 ?= b3 | c => c end
  | c => c
  end.

End Float32.

(** ** PowerManager (src/hardware/power_manager.cpp) *)

Module PowerManager.

Inductive ResetReason :=
| POWER_ON | EXTERNAL | SOFTWARE | PANIC | INTERRUPT_WDT | TASK_WDT
| OTHER_WDT | DEEP_SLEEP | BROWNOUT | SDIO | UNKNOWN_RESET.

Inductive WakeupCause :=
| UNDEFINED | ALL | EXT0 | EXT1 | TIMER | TOUCHPAD | ULP | GPIO | UART
| UNKNOWN_WAKEUP.

Record PowerStats := mkPowerStats {
  totalSleepTime : Z;
  totalActiveTime : Z;
  sleepCycles : Z;
  wakeupEvents : Z;
  averageSleepDuration : float;
  dutyCycle : float;
  lastWakeupCause : string;
  lastResetReason : string;
  bootTime : Z
}.

Record PeripheralConfig := mkPeripheralConfig {
  wifi : bool;
  bluetooth : bool;
  cellular : bool;
  sdcard : bool;
  sensors : bool;
  external5V : bool;
  rtc : bool;
  watchdog : bool
}.

Record PowerConfig := mkPowerConfig {
  maxSleepDuration : Z;
  minSleepDuration : Z;
  lowBatteryThreshold : float;
  criticalBatteryThreshold : float;
  emergencyShutdownEnabled : bool;
  watchdogTimeoutMs : Z;
  wakeupPin : Z;
  wakeupPinLevel : bool
}.

(** Default member initialisers of the three structs. *)

Definition PowerStats_default : PowerStats :=
  mkPowerStats 0 0 0 0 (S754_zero false) (S754_zero false) "" "" 0.

Definition PeripheralConfig_default : PeripheralConfig :=
  mkPeripheralConfig false false false false false false true true.

Definition PowerConfig_default : PowerConfig :=
  mkPowerConfig 3600000000 1000000 (Float32.of_Z 15) (Float32.of_Z 5)
    true 300000 (-1) false.

(** Class constants. *)

Definition DEFAULT_WATCHDOG_TIMEOUT : Z := 300000.
Definition MIN_SLEEP_DURATION : Z := 1000000.
Definition MAX_SLEEP_DURATION : Z := 3600000000.
Definition DEFAULT_LOW_BATTERY : float := Float32.of_Z 15.
Definition DEFAULT_CRITICAL_BATTERY : float := Float32.of_Z 5.
Definition EMERGENCY_SLEEP_DURATION : Z := 3600000000.
Definition WAKEUP_TIMER : Z := 1.

(** The data members of the class. *)

Record PowerManager := mkPowerManager {
  powerPin_ : Z;
  initialized_ : bool;
  peripheralConfig_ : PeripheralConfig;
  powerConfig_ : PowerConfig;
  powerStats_ : PowerStats;
  emergencyMode_ : bool;
  bootTime_ : Z;
  lastSleepTime_ : Z;
  lastWakeTime_ : Z;
  accumulatedSleepTime_ : Z;
  accumulatedActiveTime_ : Z;
  lastError_ : string;
  watchdogHandle_ : bool;   (* non-null? *)
  powerHandle_ : bool       (* non-null? *)
}.

(** What reaches the platform. *)

Inductive event :=
| Ev5VSupply (enabled : bool)
| EvDelayMs (ms : Z)
| EvPeripheralPower (peripheral : string) (enabled : bool)
| EvWatchdogInit (timeoutMs : Z)
| EvWatchdogReset
| EvGPIOForSleep
| EvTimerWakeup (us : Z)
| EvDeepSleep (us : Z)
| EvLightSleep (us : Z).

(** The object together with the number of readings of
    [std::chrono::steady_clock::now()] taken so far. *)

Record World := mkWorld {
  this : PowerManager;
  clockReads : nat
}.

Definition M (A : Type) : Type := World -> A * World * list event.

Definition ret {A} (a : A) : M A := fun w => (a, w, []).

Definition bind {A B} (m : M A) (k : A -> M B) : M B :=
  fun w =>
    let '(a, w1, t1) := m w in
    let '(b, w2, t2) := k a w1 in
    (b, w2, t1 ++ t2).

Declare Scope pm_scope.
Delimit Scope pm_scope with pm.

Notation "x <- m ;; k" := (bind m (fun x => k))
  (at level 61, m at next level, right associativity) : pm_scope.
Notation "m ;; k" := (bind m (fun _ => k))
  (at level 61, right associativity) : pm_scope.

Open Scope pm_scope.

Definition get {A} (f : PowerManager -> A) : M A :=
  fun w => (f (this w), w, []).

Definition modify (f : PowerManager -> PowerManager) : M unit :=
  fun w => (tt, mkWorld (f (this w)) (clockReads w), []).

Definition emit (e : event) : M unit := fun w => (tt, w, [e]).

Definition when (b : bool) (m : M unit) : M unit := if b then m else ret tt.

Definition result {A} (x : A * World * list event) : A := fst (fst x).
Definition world {A} (x : A * World * list event) : World := snd (fst x).
Definition object {A} (x : A * World * list event) : PowerManager :=
  this (world x).
Definition events {A} (x : A * World * list event) : list event := snd x.

(** Assignments to members. *)

Definition set_initialized (b : bool) (s : PowerManager) : PowerManager :=
  mkPowerManager (powerPin_ s) b (peripheralConfig_ s) (powerConfig_ s)
    (powerStats_ s) (emergencyMode_ s) (bootTime_ s) (lastSleepTime_ s)
    (lastWakeTime_ s) (accumulatedSleepTime_ s) (accumulatedActiveTime_ s)
    (lastError_ s) (watchdogHandle_ s) (powerHandle_ s).

Definition set_peripheralConfig (c : PeripheralConfig) (s : PowerManager)
  : PowerManager :=
  mkPowerManager (powerPin_ s) (initialized_ s) c (powerConfig_ s)
    (powerStats_ s) (emergencyMode_ s) (bootTime_ s) (lastSleepTime_ s)
    (lastWakeTime_ s) (accumulatedSleepTime_ s) (accumulatedActiveTime_ s)
    (lastError_ s) (watchdogHandle_ s) (powerHandle_ s).

Definition set_powerConfig (c : PowerConfig) (s : PowerManager)
  : PowerManager :=
  mkPowerManager (powerPin_ s) (initialized_ s) (peripheralConfig_ s) c
    (powerStats_ s) (emergencyMode_ s) (bootTime_ s) (lastSleepTime_ s)
    (lastWakeTime_ s) (accumulatedSleepTime_ s) (accumulatedActiveTime_ s)
    (lastError_ s) (watchdogHandle_ s) (powerHandle_ s).

Definition set_powerStats (c : PowerStats) (s : PowerManager)
  : PowerManager :=
  mkPowerManager (powerPin_ s) (initialized_ s) (peripheralConfig_ s)
    (powerConfig_ s) c (emergencyMode_ s) (bootTime_ s) (lastSleepTime_ s)
    (lastWakeTime_ s) (accumulatedSleepTime_ s) (accumulatedActiveTime_ s)
    (lastError_ s) (watchdogHandle_ s) (powerHandle_ s).

Definition set_emergencyMode (b : bool) (s : PowerManager) : PowerManager :=
  mkPowerManager (powerPin_ s) (initialized_ s) (peripheralConfig_ s)
    (powerConfig_ s) (powerStats_ s) b (bootTime_ s) (lastSleepTime_ s)
    (lastWakeTime_ s) (accumulatedSleepTime_ s) (accumulatedActiveTime_ s)
    (lastError_ s) (watchdogHandle_ s) (powerHandle_ s).

Definition set_lastSleepTime (t : Z) (s : PowerManager) : PowerManager :=
  mkPowerManager (powerPin_ s) (initialized_ s) (peripheralConfig_ s)
    (powerConfig_ s) (powerStats_ s) (emergencyMode_ s) (bootTime_ s) t
    (lastWakeTime_ s) (accumulatedSleepTime_ s) (accumulatedActiveTime_ s)
    (lastError_ s) (watchdogHandle_ s) (powerHandle_ s).

Definition set_lastWakeTime (t : Z) (s : PowerManager) : PowerManager :=
  mkPowerManager (powerPin_ s) (initialized_ s) (peripheralConfig_ s)
    (powerConfig_ s) (powerStats_ s) (emergencyMode_ s) (bootTime_ s)
    (lastSleepTime_ s) t (accumulatedSleepTime_ s) (accumulatedActiveTime_ s)
    (lastError_ s) (watchdogHandle_ s) (powerHandle_ s).

Definition set_accumulatedSleepTime (t : Z) (s : PowerManager)
  : PowerManager :=
  mkPowerManager (powerPin_ s) (initialized_ s) (peripheralConfig_ s)
    (powerConfig_ s) (powerStats_ s) (emergencyMode_ s) (bootTime_ s)
    (lastSleepTime_ s) (lastWakeTime_ s) t (accumulatedActiveTime_ s)
    (lastError_ s) (watchdogHandle_ s) (powerHandle_ s).

Definition set_accumulatedActiveTime (t : Z) (s : PowerManager)
  : PowerManager :=
  mkPowerManager (powerPin_ s) (initialized_ s) (peripheralConfig_ s)
    (powerConfig_ s) (powerStats_ s) (emergencyMode_ s) (bootTime_ s)
    (lastSleepTime_ s) (lastWakeTime_ s) (accumulatedSleepTime_ s) t
    (lastError_ s) (watchdogHandle_ s) (powerHandle_ s).

Definition set_watchdogHandle (b : bool) (s : PowerManager) : PowerManager :=
  mkPowerManager (powerPin_ s) (initialized_ s) (peripheralConfig_ s)
    (powerConfig_ s) (powerStats_ s) (emergencyMode_ s) (bootTime_ s)
    (lastSleepTime_ s) (lastWakeTime_ s) (accumulatedSleepTime_ s)
    (accumulatedActiveTime_ s) (lastError_ s) b (powerHandle_ s).

(** Assignments to the fields of the member structs. *)

Definition with_wifi (b : bool) (c : PeripheralConfig) : PeripheralConfig :=
  mkPeripheralConfig b (bluetooth c) (cellular c) (sdcard c) (sensors c)
    (external5V c) (rtc c) (watchdog c).
Definition with_bluetooth (b : bool) (c : PeripheralConfig)
  : PeripheralConfig :=
  mkPeripheralConfig (wifi c) b (cellular c) (sdcard c) (sensors c)
    (external5V c) (rtc c) (watchdog c).
Definition with_cellular (b : bool) (c : PeripheralConfig)
  : PeripheralConfig :=
  mkPeripheralConfig (wifi c) (bluetooth c) b (sdcard c) (sensors c)
    (external5V c) (rtc c) (watchdog c).
Definition with_sdcard (b : bool) (c : PeripheralConfig) : PeripheralConfig :=
  mkPeripheralConfig (wifi c) (bluetooth c) (cellular c) b (sensors c)
    (external5V c) (rtc c) (watchdog c).
Definition with_sensors (b : bool) (c : PeripheralConfig)
  : PeripheralConfig :=
  mkPeripheralConfig (wifi c) (bluetooth c) (cellular c) (sdcard c) b
    (external5V c) (rtc c) (watchdog c).
Definition with_external5V (b : bool) (c : PeripheralConfig)
  : PeripheralConfig :=
  mkPeripheralConfig (wifi c) (bluetooth c) (cellular c) (sdcard c)
    (sensors c) b (rtc c) (watchdog c).
Definition with_rtc (b : bool) (c : PeripheralConfig) : PeripheralConfig :=
  mkPeripheralConfig (wifi c) (bluetooth c) (cellular c) (sdcard c)
    (sensors c) (external5V c) b (watchdog c).
Definition with_watchdog (b : bool) (c : PeripheralConfig)
  : PeripheralConfig :=
  mkPeripheralConfig (wifi c) (bluetooth c) (cellular c) (sdcard c)
    (sensors c) (external5V c) (rtc c) b.

Definition with_watchdogTimeoutMs (t : Z) (c : PowerConfig) : PowerConfig :=
  mkPowerConfig (maxSleepDuration c) (minSleepDuration c)
    (lowBatteryThreshold c) (criticalBatteryThreshold c)
    (emergencyShutdownEnabled c) t (wakeupPin c) (wakeupPinLevel c).

Definition with_sleepCycles (n : Z) (p : PowerStats) : PowerStats :=
  mkPowerStats (totalSleepTime p) (totalActiveTime p) n (wakeupEvents p)
    (averageSleepDuration p) (dutyCycle p) (lastWakeupCause p)
    (lastResetReason p) (bootTime p).
Definition with_wakeupEvents (n : Z) (p : PowerStats) : PowerStats :=
  mkPowerStats (totalSleepTime p) (totalActiveTime p) (sleepCycles p) n
    (averageSleepDuration p) (dutyCycle p) (lastWakeupCause p)
    (lastResetReason p) (bootTime p).
Definition with_dutyCycle (d : float) (p : PowerStats) : PowerStats :=
  mkPowerStats (totalSleepTime p) (totalActiveTime p) (sleepCycles p)
    (wakeupEvents p) (averageSleepDuration p) d (lastWakeupCause p)
    (lastResetReason p) (bootTime p).
Definition with_lastWakeupCause (c : string) (p : PowerStats) : PowerStats :=
  mkPowerStats (totalSleepTime p) (totalActiveTime p) (sleepCycles p)
    (wakeupEvents p) (averageSleepDuration p) (dutyCycle p) c
    (lastResetReason p) (bootTime p).
Definition with_lastResetReason (c : string) (p : PowerStats) : PowerStats :=
  mkPowerStats (totalSleepTime p) (totalActiveTime p) (sleepCycles p)
    (wakeupEvents p) (averageSleepDuration p) (dutyCycle p)
    (lastWakeupCause p) c (bootTime p).
Definition with_bootTime (t : Z) (p : PowerStats) : PowerStats :=
  mkPowerStats (totalSleepTime p) (totalActiveTime p) (sleepCycles p)
    (wakeupEvents p) (averageSleepDuration p) (dutyCycle p)
    (lastWakeupCause p) (lastResetReason p) t.

Definition resetReasonToString (reason : ResetReason) : string :=
  match reason with
  | POWER_ON => "Power-on reset"
  | EXTERNAL => "External reset pin"
  | SOFTWARE => "Software reset"
  | PANIC => "System panic"
  | INTERRUPT_WDT => "Interrupt watchdog"
  | TASK_WDT => "Task watchdog"
  | OTHER_WDT => "Other watchdog"
  | DEEP_SLEEP => "Wake from deep sleep"
  | BROWNOUT => "Brownout reset"
  | SDIO => "SDIO reset"
  | UNKNOWN_RESET => "Unknown reset"
  end.

Definition wakeupCauseToString (cause : WakeupCause) : string :=
  match cause with
  | UNDEFINED => "Undefined/first boot"
  | ALL => "All wakeup sources"
  | EXT0 => "External signal (EXT0)"
  | EXT1 => "External signal (EXT1)"
  | TIMER => "Timer wakeup"
  | TOUCHPAD => "Touchpad wakeup"
  | ULP => "ULP program"
  | GPIO => "GPIO wakeup"
  | UART => "UART wakeup"
  | UNKNOWN_WAKEUP => "Unknown wakeup"
  end.

Section Operations.

(** Successive values of [std::chrono::steady_clock::now()], in
    microseconds since the clock's epoch. *)
Variable steady_clock_now : nat -> Z.

Definition now : M Z :=
  fun w =>
    (steady_clock_now (clockReads w),
     mkWorld (this w) (S (clockReads w)), []).

(** [PowerManager::PowerManager(int powerPin)] *)
Definition constructor (powerPin : Z) : World :=
  let bootTime := steady_clock_now 0 in
  mkWorld
    (mkPowerManager powerPin false PeripheralConfig_default
       (mkPowerConfig MAX_SLEEP_DURATION MIN_SLEEP_DURATION
          DEFAULT_LOW_BATTERY DEFAULT_CRITICAL_BATTERY true
          DEFAULT_WATCHDOG_TIMEOUT (wakeupPin PowerConfig_default)
          (wakeupPinLevel PowerConfig_default))
       PowerStats_default false bootTime 0 bootTime 0 0 "" false false)
    1.

(** [void PowerManager::set5VSupply(bool enabled)] *)
Definition set5VSupply (enabled : bool) : M unit :=
  emit (Ev5VSupply enabled) ;;
  modify (fun s =>
    set_peripheralConfig (with_external5V enabled (peripheralConfig_ s)) s).

(** [bool PowerManager::is5VSupplyEnabled() const] *)
Definition is5VSupplyEnabled : M bool :=
  get (fun s => external5V (peripheralConfig_ s)).

(** [bool PowerManager::controlPeripheralPower(peripheral, enabled)],
    without [ESP32_PLATFORM]: the update of the configuration after the
    [#endif] and [return true].  With [ESP32_PLATFORM] the cases wifi,
    bluetooth and cellular return before that update. *)
Definition controlPeripheralPower (peripheral : string) (enabled : bool)
  : M bool :=
  emit (EvPeripheralPower peripheral enabled) ;;
  modify (fun s =>
    let c := peripheralConfig_ s in
    if String.eqb peripheral "wifi" then
      set_peripheralConfig (with_wifi enabled c) s
    else if String.eqb peripheral "bluetooth" then
      set_peripheralConfig (with_bluetooth enabled c) s
    else if String.eqb peripheral "cellular" then
      set_peripheralConfig (with_cellular enabled c) s
    else if String.eqb peripheral "sdcard" then
      set_peripheralConfig (with_sdcard enabled c) s
    else if String.eqb peripheral "sensors" then
      set_peripheralConfig (with_sensors enabled c) s
    else s) ;;
  ret true.

(** A call whose [bool] result the caller drops. *)
Definition call (m : M bool) : M unit := _ <- m ;; ret tt.

(** [void PowerManager::enablePeripherals()] *)
Definition enablePeripherals : M unit :=
  init <- get initialized_ ;;
  if negb init then ret tt
  else
    set5VSupply true ;;
    emit (EvDelayMs 1000) ;;
    b <- get (fun s => wifi (peripheralConfig_ s)) ;;
    when b (call (controlPeripheralPower "wifi" true)) ;;
    b <- get (fun s => bluetooth (peripheralConfig_ s)) ;;
    when b (call (controlPeripheralPower "bluetooth" true)) ;;
    b <- get (fun s => cellular (peripheralConfig_ s)) ;;
    when b (call (controlPeripheralPower "cellular" true)) ;;
    b <- get (fun s => sdcard (peripheralConfig_ s)) ;;
    when b (call (controlPeripheralPower "sdcard" true)) ;;
    b <- get (fun s => sensors (peripheralConfig_ s)) ;;
    when b (call (controlPeripheralPower "sensors" true)).

(** [void PowerManager::disablePeripherals()] *)
Definition disablePeripherals : M unit :=
  init <- get initialized_ ;;
  if negb init then ret tt
  else
    b <- get (fun s => sensors (peripheralConfig_ s)) ;;
    when b (call (controlPeripheralPower "sensors" false)) ;;
    b <- get (fun s => sdcard (peripheralConfig_ s)) ;;
    when b (call (controlPeripheralPower "sdcard" false)) ;;
    b <- get (fun s => cellular (peripheralConfig_ s)) ;;
    when b (call (controlPeripheralPower "cellular" false)) ;;
    b <- get (fun s => bluetooth (peripheralConfig_ s)) ;;
    when b (call (controlPeripheralPower "bluetooth" false)) ;;
    b <- get (fun s => wifi (peripheralConfig_ s)) ;;
    when b (call (controlPeripheralPower "wifi" false)) ;;
    set5VSupply false.

(** [void PowerManager::configurePeripherals(const PeripheralConfig &)] *)
Definition configurePeripherals (config : PeripheralConfig) : M unit :=
  cur <- get peripheralConfig_ ;;
  when (negb (Bool.eqb (wifi config) (wifi cur)))
    (call (controlPeripheralPower "wifi" (wifi config))) ;;
  cur <- get peripheralConfig_ ;;
  when (negb (Bool.eqb (bluetooth config) (bluetooth cur)))
    (call (controlPeripheralPower "bluetooth" (bluetooth config))) ;;
  cur <- get peripheralConfig_ ;;
  when (negb (Bool.eqb (cellular config) (cellular cur)))
    (call (controlPeripheralPower "cellular" (cellular config))) ;;
  cur <- get peripheralConfig_ ;;
  when (negb (Bool.eqb (sdcard config) (sdcard cur)))
    (call (controlPeripheralPower "sdcard" (sdcard config))) ;;
  cur <- get peripheralConfig_ ;;
  when (negb (Bool.eqb (sensors config) (sensors cur)))
    (call (controlPeripheralPower "sensors" (sensors config))) ;;
  cur <- get peripheralConfig_ ;;
  when (negb (Bool.eqb (external5V config) (external5V cur)))
    (set5VSupply (external5V config)) ;;
  modify (set_peripheralConfig config).

(** [uint64_t PowerManager::validateSleepDuration(uint64_t sleepTimeUs)] *)
Definition validateSleepDuration (sleepTimeUs : Z) : M Z :=
  cfg <- get powerConfig_ ;;
  if sleepTimeUs <? minSleepDuration cfg then ret (minSleepDuration cfg)
  else if sleepTimeUs >? maxSleepDuration cfg then
    ret (maxSleepDuration cfg)
  else ret sleepTimeUs.

(** [void PowerManager::resetWatchdog()]; [platformResetWatchdog] is the
    platform call. *)
Definition resetWatchdog : M unit :=
  h <- get watchdogHandle_ ;;
  t <- get (fun s => watchdogTimeoutMs (powerConfig_ s)) ;;
  when (h && (t >? 0)) (emit EvWatchdogReset).

(** [bool PowerManager::disableWatchdog()], the [#else] branch: the handle
    is cleared and the result is [true].  With [ESP32_PLATFORM] the
    platform is asked to stop the watchdog and may refuse. *)
Definition disableWatchdog : M bool :=
  modify (set_watchdogHandle false) ;; ret true.

(** [bool PowerManager::platformInitializeWatchdog(uint32_t timeoutMs)],
    the [#else] branch: the handle is set and the result is [true].  With
    [ESP32_PLATFORM] the platform may fail to start the watchdog. *)
Definition platformInitializeWatchdog (timeoutMs : Z) : M bool :=
  emit (EvWatchdogInit timeoutMs) ;;
  modify (set_watchdogHandle true) ;; ret true.

(** [bool PowerManager::configureWatchdog(uint32_t timeoutMs)] *)
Definition configureWatchdog (timeoutMs : Z) : M bool :=
  modify (fun s =>
    set_powerConfig (with_watchdogTimeoutMs timeoutMs (powerConfig_ s)) s) ;;
  if timeoutMs =? 0 then disableWatchdog
  else platformInitializeWatchdog timeoutMs.

(** The constant [100.0f]. *)
Definition hundred : float := S754_finite false 13107200 (-17).

(** [void PowerManager::updateDutyCycle()] *)
Definition updateDutyCycle : M unit :=
  active <- get accumulatedActiveTime_ ;;
  asleep <- get accumulatedSleepTime_ ;;
  let totalTime := uint64 (active + asleep) in
  when (totalTime >? 0)
    (modify (fun s =>
       set_powerStats
         (with_dutyCycle
            (Float32.mul
               (Float32.div (Float32.of_Z active) (Float32.of_Z totalTime))
               hundred)
            (powerStats_ s)) s)).

(** [void PowerManager::updatePowerStats(operation, duration)] *)
Definition updatePowerStats (operation : string) (duration : Z) : M unit :=
  if String.eqb operation "sleep_entry" then ret tt
  else if String.eqb operation "wakeup" then
    modify (fun s =>
      set_powerStats
        (with_wakeupEvents (uint32 (wakeupEvents (powerStats_ s) + 1))
           (powerStats_ s)) s) ;;
    updateDutyCycle
  else ret tt.

(** [void PowerManager::prepareSleep(bool deepSleep)] *)
Definition prepareSleep (deepSleep : bool) : M unit :=
  resetWatchdog ;;
  when deepSleep (emit EvGPIOForSleep) ;;
  updatePowerStats "sleep_entry" 0.

(** [WakeupCause PowerManager::getWakeupCause()] *)
Definition getWakeupCause : M WakeupCause := ret TIMER.

(** [ResetReason PowerManager::getResetReason()] *)
Definition getResetReason : M ResetReason := ret POWER_ON.

(** [void PowerManager::restoreFromSleep(bool fromDeepSleep)] *)
Definition restoreFromSleep (fromDeepSleep : bool) : M unit :=
  t <- get (fun s => watchdogTimeoutMs (powerConfig_ s)) ;;
  when (t >? 0) resetWatchdog ;;
  (if fromDeepSleep then
     cause <- getWakeupCause ;;
     modify (fun s =>
       set_powerStats
         (with_lastWakeupCause (wakeupCauseToString cause) (powerStats_ s))
         s)
   else ret tt) ;;
  updatePowerStats "wakeup" 0.

(** [void PowerManager::configureWakeup(uint64_t timeUs)] *)
Definition configureWakeup (timeUs : Z) : M unit := emit (EvTimerWakeup timeUs).

(** [void PowerManager::platformEnterDeepSleep(uint64_t sleepTimeUs)] *)
Definition platformEnterDeepSleep (sleepTimeUs : Z) : M unit :=
  emit (EvDeepSleep sleepTimeUs).

(** [bool PowerManager::platformEnterLightSleep(uint64_t sleepTimeUs)], the
    [#else] branch: the result is [true].  With [ESP32_PLATFORM] the result
    tells whether the sleep ended by its timer. *)
Definition platformEnterLightSleep (sleepTimeUs : Z) : M bool :=
  emit (EvLightSleep sleepTimeUs) ;; ret true.

(** [void PowerManager::enterDeepSleep(uint64_t sleepTimeUs,
                                       uint32_t wakeupSources)] *)
Definition enterDeepSleep (sleepTimeUs : Z) (wakeupSources : Z) : M unit :=
  init <- get initialized_ ;;
  if negb init then ret tt
  else
    sleepTimeUs <- validateSleepDuration sleepTimeUs ;;
    t <- now ;;
    modify (set_lastSleepTime t) ;;
    lastWake <- get lastWakeTime_ ;;
    let activeDuration := t - lastWake in
    modify (fun s =>
      set_accumulatedActiveTime
        (uint64 (accumulatedActiveTime_ s + activeDuration)) s) ;;
    modify (fun s =>
      set_powerStats
        (with_sleepCycles (uint32 (sleepCycles (powerStats_ s) + 1))
           (powerStats_ s)) s) ;;
    prepareSleep true ;;
    when (negb (Z.land wakeupSources WAKEUP_TIMER =? 0))
      (configureWakeup sleepTimeUs) ;;
    platformEnterDeepSleep sleepTimeUs ;;
    t <- now ;;
    modify (set_lastWakeTime t) ;;
    modify (fun s =>
      set_accumulatedSleepTime
        (uint64 (accumulatedSleepTime_ s + sleepTimeUs)) s) ;;
    modify (fun s =>
      set_powerStats
        (with_wakeupEvents (uint32 (wakeupEvents (powerStats_ s) + 1))
           (powerStats_ s)) s) ;;
    restoreFromSleep true ;;
    updateDutyCycle.

(** [void PowerManager::enterSleep(uint64_t sleepTimeUs)] *)
Definition enterSleep (sleepTimeUs : Z) : M unit :=
  enterDeepSleep sleepTimeUs WAKEUP_TIMER.

(** [bool PowerManager::enterLightSleep(uint64_t sleepTimeUs)] *)
Definition enterLightSleep (sleepTimeUs : Z) : M bool :=
  init <- get initialized_ ;;
  if negb init then ret false
  else
    sleepTimeUs <- validateSleepDuration sleepTimeUs ;;
    t <- now ;;
    modify (set_lastSleepTime t) ;;
    lastWake <- get lastWakeTime_ ;;
    let activeDuration := t - lastWake in
    modify (fun s =>
      set_accumulatedActiveTime
        (uint64 (accumulatedActiveTime_ s + activeDuration)) s) ;;
    prepareSleep false ;;
    normalWakeup <- platformEnterLightSleep sleepTimeUs ;;
    t' <- now ;;
    modify (set_lastWakeTime t') ;;
    let actualSleepTime := t' - t in
    modify (fun s =>
      set_accumulatedSleepTime
        (uint64 (accumulatedSleepTime_ s + actualSleepTime)) s) ;;
    restoreFromSleep false ;;
    updateDutyCycle ;;
    ret normalWakeup.

(** [void PowerManager::logCriticalPowerEvent(event, data)] *)
Definition logCriticalPowerEvent (what data : string) : M unit :=
  emit (EvDelayMs 10).

(** [void PowerManager::enterEmergencyMode(const std::string &reason)] *)
Definition enterEmergencyMode (reason : string) : M unit :=
  already <- get emergencyMode_ ;;
  if already then ret tt
  else
    modify (set_emergencyMode true) ;;
    logCriticalPowerEvent "Emergency mode activated" reason ;;
    let emergencyConfig :=
      with_watchdog true (with_rtc true (with_sensors false
        (with_sdcard false (with_cellular false (with_bluetooth false
          (with_wifi false (with_external5V false
            PeripheralConfig_default))))))) in
    configurePeripherals emergencyConfig ;;
    enterDeepSleep EMERGENCY_SLEEP_DURATION WAKEUP_TIMER.

(** [bool PowerManager::checkBatteryLevel(float batteryPercent)].  The
    inner computation yields [Some r] where the source executes
    [return r] inside the conditional and [None] where control reaches
    the final [return true]. *)
Definition checkBatteryLevel (batteryPercent : float) : M bool :=
  cfg <- get powerConfig_ ;;
  early <-
    (if Float32.leb batteryPercent (criticalBatteryThreshold cfg) then
       if emergencyShutdownEnabled cfg then
         enterEmergencyMode "Critical battery level" ;;
         ret (Some false)
       else ret None
     else if Float32.leb batteryPercent (lowBatteryThreshold cfg) then
       cur <- get peripheralConfig_ ;;
       let lowPowerConfig := with_bluetooth false (with_wifi false cur) in
       configurePeripherals lowPowerConfig ;;
       ret None
     else ret None) ;;
  match early with
  | Some r => ret r
  | None => ret true
  end.

(** [bool PowerManager::initialize()]; [epochSeconds] is the reading of
    [std::chrono::system_clock::now()] it stores as boot time.  Without
    [ESP32_PLATFORM] [platformInitialize] returns [true], no pin is
    configured and the reset reason is power-on, so the two early returns
    with [false] are not taken. *)
Definition initialize (epochSeconds : Z) : M bool :=
  init <- get initialized_ ;;
  if init then ret true
  else
    resetReason <- getResetReason ;;
    modify (fun s =>
      set_powerStats
        (with_lastResetReason (resetReasonToString resetReason)
           (powerStats_ s)) s) ;;
    (match resetReason with
     | DEEP_SLEEP =>
         wakeupCause <- getWakeupCause ;;
         modify (fun s =>
           set_powerStats
             (with_wakeupEvents (uint32 (wakeupEvents (powerStats_ s) + 1))
                (with_lastWakeupCause (wakeupCauseToString wakeupCause)
                   (powerStats_ s))) s)
     | _ => ret tt
     end) ;;
    t <- get (fun s => watchdogTimeoutMs (powerConfig_ s)) ;;
    when (t >? 0) (call (configureWatchdog t)) ;;
    modify (fun s =>
      set_powerStats (with_bootTime epochSeconds (powerStats_ s)) s) ;;
    modify (set_initialized true) ;;
    ret true.

(** *** Further member functions *)

Definition with_totalSleepTime (t : Z) (p : PowerStats) : PowerStats :=
  mkPowerStats t (totalActiveTime p) (sleepCycles p) (wakeupEvents p)
    (averageSleepDuration p) (dutyCycle p) (lastWakeupCause p)
    (lastResetReason p) (bootTime p).
Definition with_totalActiveTime (t : Z) (p : PowerStats) : PowerStats :=
  mkPowerStats (totalSleepTime p) t (sleepCycles p) (wakeupEvents p)
    (averageSleepDuration p) (dutyCycle p) (lastWakeupCause p)
    (lastResetReason p) (bootTime p).
Definition with_averageSleepDuration (a : float) (p : PowerStats)
  : PowerStats :=
  mkPowerStats (totalSleepTime p) (totalActiveTime p) (sleepCycles p)
    (wakeupEvents p) a (dutyCycle p) (lastWakeupCause p)
    (lastResetReason p) (bootTime p).

(** The largest [uint64_t], [0xFFFFFFFFFFFFFFFFULL]. *)
Definition UINT64_MAX : Z := 18446744073709551615.

(** [void PowerManager::configureGPIOHolds()]: outside the ESP32 build it
    only logs. *)
Definition configureGPIOHolds : M unit := ret tt.

(** [void PowerManager::executeEmergencyShutdown(reason)] *)
Definition executeEmergencyShutdown (reason : string) : M unit :=
  disablePeripherals ;;
  logCriticalPowerEvent "Emergency shutdown executed" reason ;;
  emit (EvDelayMs 100) ;;
  platformEnterDeepSleep UINT64_MAX.

(** [void PowerManager::shutdown(bool emergency)] *)
Definition shutdown (emergency : bool) : M unit :=
  if emergency then executeEmergencyShutdown "Emergency shutdown requested"
  else
    disablePeripherals ;;
    configureGPIOHolds ;;
    enterDeepSleep UINT64_MAX 0.

(** [bool PowerManager::enableWatchdog()] *)
Definition enableWatchdog : M bool :=
  t <- get (fun s => watchdogTimeoutMs (powerConfig_ s)) ;;
  if t =? 0 then ret false else platformInitializeWatchdog t.

(** [void PowerManager::platformGetMemoryInfo(freeHeap, minFreeHeap)]:
    the simulated values. *)
Definition platformGetMemoryInfo : Z * Z := (100000, 80000).

(** [uint32_t PowerManager::getFreeHeap()] *)
Definition getFreeHeap : M Z := ret (fst platformGetMemoryInfo).

(** [uint32_t PowerManager::getMinFreeHeap()] *)
Definition getMinFreeHeap : M Z := ret (snd platformGetMemoryInfo).

(** [bool PowerManager::isCellularNetworkAvailable()] *)
Definition isCellularNetworkAvailable : M bool :=
  get (fun s => cellular (peripheralConfig_ s)).

(** [bool PowerManager::performHealthCheck()] *)
Definition performHealthCheck : M bool :=
  let healthy := true in
  freeHeap <- getFreeHeap ;;
  let healthy := if freeHeap <? 10000 then false else healthy in
  expected5V <- get (fun s => external5V (peripheralConfig_ s)) ;;
  actual5V <- is5VSupplyEnabled ;;
  let healthy :=
    if negb (Bool.eqb expected5V actual5V) then false else healthy in
  emergency <- get emergencyMode_ ;;
  let healthy := if emergency then false else healthy in
  ret healthy.

(** The constant [1000000.0f]. *)
Definition million : float := Float32.of_Z 1000000.

(** [PowerStats PowerManager::getPowerStats() const] *)
Definition getPowerStats : M PowerStats :=
  stats <- get powerStats_ ;;
  _ <- now ;;
  active <- get accumulatedActiveTime_ ;;
  asleep <- get accumulatedSleepTime_ ;;
  let stats := with_totalActiveTime active stats in
  let stats := with_totalSleepTime asleep stats in
  let stats :=
    if sleepCycles stats >? 0 then
      with_averageSleepDuration
        (Float32.div
           (Float32.div (Float32.of_Z (totalSleepTime stats))
              (Float32.of_Z (sleepCycles stats)))
           million)
        stats
    else stats in
  let totalTime := uint64 (totalActiveTime stats + totalSleepTime stats) in
  let stats :=
    if totalTime >? 0 then
      with_dutyCycle
        (Float32.mul
           (Float32.div (Float32.of_Z (totalActiveTime stats))
              (Float32.of_Z totalTime))
           hundred)
        stats
    else stats in
  ret stats.

(** [uint64_t PowerManager::getUptimeMs()]; [duration_cast] truncates. *)
Definition getUptimeMs : M Z :=
  t <- now ;;
  boot <- get bootTime_ ;;
  ret (uint64 (Z.quot (t - boot) 1000)).

End Operations.

(** Projections of a trace. *)

(** The durations handed to the platform's deep-sleep primitive. *)
Definition deepSleeps (t : list event) : list Z :=
  flat_map (fun e => match e with EvDeepSleep us => [us] | _ => [] end) t.

(** The durations handed to the platform's light-sleep primitive. *)
Definition lightSleeps (t : list event) : list Z :=
  flat_map (fun e => match e with EvLightSleep us => [us] | _ => [] end) t.

(** The rails switched, in order: ["5V"] for the supply, the peripheral's
    name otherwise. *)
Definition rails (t : list event) : list string :=
  flat_map (fun e =>
    match e with
    | Ev5VSupply _ => ["5V"]
    | EvPeripheralPower p _ => [p]
    | _ => []
    end) t.

(** The peripherals of [enablePeripherals], in its order, with the flag of
    [PeripheralConfig] that guards each. *)
Definition downstream : list (string * (PeripheralConfig -> bool)) :=
  [("wifi", wifi); ("bluetooth", bluetooth); ("cellular", cellular);
   ("sdcard", sdcard); ("sensors", sensors)].

(** The names of the peripherals whose flag is set in [c]. *)
Definition configured (c : PeripheralConfig) : list string :=
  map fst (filter (fun p => snd p c) downstream).

(** The configuration the constructor sets up, and which no member
    function of the source changes: the critical threshold lies below the
    low one, the minimal sleep duration does not exceed the maximal one. *)
Definition thresholdsOrdered (c : PowerConfig) : Prop :=
  Float32.ltb (criticalBatteryThreshold c) (lowBatteryThreshold c) = true.

Definition durationsOrdered (c : PowerConfig) : Prop :=
  minSleepDuration c <= maxSleepDuration c.

Section Outcomes.

Variable steady_clock_now : nat -> Z.

(** The three outcomes of [checkBatteryLevel p] run in [w], as the spec
    words them.  Emergency: [enterEmergencyMode] is invoked, the object
    is in emergency mode and the result is [false]. *)
Definition entersEmergency (p : float) (w : World) : Prop :=
  let r := checkBatteryLevel steady_clock_now p w in
  let e := enterEmergencyMode steady_clock_now "Critical battery level" w in
  result r = false /\ world r = world e /\ events r = events e /\
  emergencyMode_ (object r) = true.

(** Shedding: WiFi and Bluetooth are disabled through
    [configurePeripherals], whose only platform calls switch off those of
    the two that were on; nothing else in the peripheral configuration
    changes, emergency mode is not entered, nothing sleeps, and the result
    is [true]. *)
Definition shedsRadios (p : float) (w : World) : Prop :=
  let r := checkBatteryLevel steady_clock_now p w in
  let cur := peripheralConfig_ (this w) in
  let shed := with_bluetooth false (with_wifi false cur) in
  result r = true /\
  world r = world (configurePeripherals shed w) /\
  peripheralConfig_ (object r) = shed /\
  events r =
    (if wifi cur then [EvPeripheralPower "wifi" false] else [])
    ++ (if bluetooth cur then [EvPeripheralPower "bluetooth" false] else [])
  /\ emergencyMode_ (object r) = emergencyMode_ (this w).

(** Nothing happens: the result is [true], the object is untouched and
    nothing reaches the platform. *)
Definition continues (p : float) (w : World) : Prop :=
  checkBatteryLevel steady_clock_now p w = (true, w, []).

End Outcomes.

(** The limits of the configuration that the two orderings are about. *)
Definition limits (s : PowerManager) : Z * Z * float * float :=
  (minSleepDuration (powerConfig_ s), maxSleepDuration (powerConfig_ s),
   criticalBatteryThreshold (powerConfig_ s),
   lowBatteryThreshold (powerConfig_ s)).

Section Sequences.

Variable steady_clock_now : nat -> Z.

(** The public operations, to speak of what a caller may do in any
    order. *)
Inductive operation :=
| Initialize (epochSeconds : Z)
| EnablePeripherals
| DisablePeripherals
| ConfigurePeripherals (config : PeripheralConfig)
| Set5VSupply (enabled : bool)
| EnterSleep (sleepTimeUs : Z)
| EnterDeepSleep (sleepTimeUs wakeupSources : Z)
| EnterLightSleep (sleepTimeUs : Z)
| CheckBatteryLevel (batteryPercent : float)
| EnterEmergencyMode (reason : string)
| Shutdown (emergency : bool)
| ConfigureWatchdog (timeoutMs : Z)
| EnableWatchdog
| DisableWatchdog
| ResetWatchdog
| PerformHealthCheck
| GetPowerStats.

Definition perform (op : operation) : M unit :=
  match op with
  | Initialize epochSeconds => call (initialize epochSeconds)
  | EnablePeripherals => enablePeripherals
  | DisablePeripherals => disablePeripherals
  | ConfigurePeripherals config => configurePeripherals config
  | Set5VSupply enabled => set5VSupply enabled
  | EnterSleep us => enterSleep steady_clock_now us
  | EnterDeepSleep us sources => enterDeepSleep steady_clock_now us sources
  | EnterLightSleep us => call (enterLightSleep steady_clock_now us)
  | CheckBatteryLevel p => call (checkBatteryLevel steady_clock_now p)
  | EnterEmergencyMode reason => enterEmergencyMode steady_clock_now reason
  | Shutdown emergency => shutdown steady_clock_now emergency
  | ConfigureWatchdog timeoutMs => call (configureWatchdog timeoutMs)
  | EnableWatchdog => call enableWatchdog
  | DisableWatchdog => call disableWatchdog
  | ResetWatchdog => resetWatchdog
  | PerformHealthCheck => call performHealthCheck
  | GetPowerStats => _ <- getPowerStats steady_clock_now ;; ret tt
  end.

Fixpoint performAll (ops : list operation) : M unit :=
  match ops with
  | [] => ret tt
  | op :: ops' => perform op ;; performAll ops'
  end.

(** Is the operation a call of [configurePeripherals]? *)
Definition isConfigurePeripherals (op : operation) : bool :=
  match op with
  | ConfigurePeripherals _ => true
  | _ => false
  end.

End Sequences.

(** What [validateSleepDuration] makes of a request under configuration
    [c]. *)
Definition clamped (c : PowerConfig) (d : Z) : Z :=
  if d <? minSleepDuration c then minSleepDuration c
  else if d >? maxSleepDuration c then maxSleepDuration c
  else d.

(** The durations handed to [configureWakeup]. *)
Definition timerWakeups (t : list event) : list Z :=
  flat_map (fun e => match e with EvTimerWakeup us => [us] | _ => [] end) t.

(** Is the watchdog armed: initialised with a non-zero timeout? *)
Definition armed (s : PowerManager) : bool :=
  watchdogHandle_ s && (watchdogTimeoutMs (powerConfig_ s) >? 0).

(** The peripheral configuration of emergency mode: everything off but
    the clock and the watchdog. *)
Definition emergencyConfig : PeripheralConfig :=
  mkPeripheralConfig false false false false false false true true.

(** The platform calls by which [configurePeripherals] takes the rails
    from the configuration [cur] to [c]: one for each flag that differs,
    the 5V supply last. *)
Definition switched (cur c : PeripheralConfig) : list event :=
  flat_map (fun p =>
    if Bool.eqb (snd p c) (snd p cur) then []
    else [EvPeripheralPower (fst p) (snd p c)]) downstream
  ++ (if Bool.eqb (external5V c) (external5V cur) then []
      else [Ev5VSupply (external5V c)]).

(** Every downstream peripheral marked in [a] is marked in [b]. *)
Definition within (a b : PeripheralConfig) : bool :=
  forallb (fun p => implb (snd p a) (snd p b)) downstream.

(** A computation that marks no downstream peripheral that was not
    marked. *)
Definition shrinks {A} (m : M A) : Prop :=
  forall w,
    within (peripheralConfig_ (this (world (m w))))
      (peripheralConfig_ (this w)) = true.

(** What [updateDutyCycle] does to the object. *)
Definition refreshDuty (s : PowerManager) : PowerManager :=
  let totalTime :=
    uint64 (accumulatedActiveTime_ s + accumulatedSleepTime_ s) in
  if totalTime >? 0 then
    set_powerStats
      (with_dutyCycle
         (Float32.mul
            (Float32.div (Float32.of_Z (accumulatedActiveTime_ s))
               (Float32.of_Z totalTime))
            hundred)
         (powerStats_ s)) s
  else s.

(** What the bookkeeping of a wakeup ([updatePowerStats("wakeup", 0)])
    does to the object. *)
Definition countWakeup (s : PowerManager) : PowerManager :=
  refreshDuty
    (set_powerStats
       (with_wakeupEvents (uint32 (wakeupEvents (powerStats_ s) + 1))
          (powerStats_ s)) s).

(** The object after a deep sleep that lasted [v], entered at the clock
    reading [t1] and left at [t2]: the assignments of [enterDeepSleep] in
    their order. *)
Definition afterDeepSleep (v t1 t2 : Z) (s : PowerManager) : PowerManager :=
  let s := set_lastSleepTime t1 s in
  let s :=
    set_accumulatedActiveTime
      (uint64 (accumulatedActiveTime_ s + (t1 - lastWakeTime_ s))) s in
  let s :=
    set_powerStats
      (with_sleepCycles (uint32 (sleepCycles (powerStats_ s) + 1))
         (powerStats_ s)) s in
  let s := set_lastWakeTime t2 s in
  let s :=
    set_accumulatedSleepTime (uint64 (accumulatedSleepTime_ s + v)) s in
  let s :=
    set_powerStats
      (with_wakeupEvents (uint32 (wakeupEvents (powerStats_ s) + 1))
         (powerStats_ s)) s in
  let s :=
    countWakeup
      (set_powerStats
         (with_lastWakeupCause (wakeupCauseToString TIMER) (powerStats_ s))
         s) in
  refreshDuty s.

(** The same for a light sleep, whose length is measured. *)
Definition afterLightSleep (t1 t2 : Z) (s : PowerManager) : PowerManager :=
  let s := set_lastSleepTime t1 s in
  let s :=
    set_accumulatedActiveTime
      (uint64 (accumulatedActiveTime_ s + (t1 - lastWakeTime_ s))) s in
  let s := set_lastWakeTime t2 s in
  let s :=
    set_accumulatedSleepTime
      (uint64 (accumulatedSleepTime_ s + (t2 - t1))) s in
  refreshDuty (countWakeup s).

(** A computation that never leaves emergency mode. *)
Definition keepsEmergency {A} (m : M A) : Prop :=
  forall w, emergencyMode_ (this w) = true ->
            emergencyMode_ (this (world (m w))) = true.

(** A computation that leaves the value of [f] on the object as it is. *)
Definition preserves {A B} (f : PowerManager -> B) (m : M A) : Prop :=
  forall w, f (this (world (m w))) = f (this w).

(** A computation that never calls the platform's deep-sleep primitive. *)
Definition noDeepSleep {A} (m : M A) : Prop :=
  forall w, deepSleeps (events (m w)) = [].

End PowerManager.

(** ** Strings, digits and the fixed-shape regular expressions *)

Module Text.

Definition isDigit (c : ascii) : bool :=
  let n := Z.of_N (N_of_ascii c) in (48 <=? n) && (n <=? 57).

Definition digitValue (c : ascii) : Z := Z.of_N (N_of_ascii c) - 48.

Definition digitChar (d : Z) : ascii := ascii_of_N (Z.to_N (48 + d)).

(** [std::stoi] on a string of decimal digits: the value of the leading
    digits.  It is only applied to groups captured by [\d{n}]. *)
Fixpoint stoi_from (acc : Z) (s : string) : Z :=
  match s with
  | String c s' =>
      if isDigit c then stoi_from (acc * 10 + digitValue c) s' else acc
  | EmptyString => acc
  end.

Definition stoi (s : string) : Z := stoi_from 0 s.

(** The regular expressions of the source all have one shape: a sequence
    of literal characters, [\d{n}] and capturing [(\d{n})]. *)
Inductive token :=
| Capture (n : nat)      (* (\d{n}) *)
| Digits (n : nat)       (* \d{n}   *)
| Lit (c : ascii).

(** [n] digits at the head of [s]: the digits and what follows them. *)
Fixpoint takeDigits (n : nat) (s : string) : option (string * string) :=
  match n with
  | O => Some (EmptyString, s)
  | S n' =>
      match s with
      | String c s' =>
          if isDigit c then
            match takeDigits n' s' with
            | Some (d, rest) => Some (String c d, rest)
            | None => None
            end
          else None
      | EmptyString => None
      end
  end.

(** [std::regex_match]: the whole of [s] must match; the result lists the
    captured groups, [match[1]] first. *)
Fixpoint regex_match (r : list token) (s : string) : option (list string) :=
  match r with
  | [] => match s with EmptyString => Some [] | _ => None end
  | Capture n :: r' =>
      match takeDigits n s with
      | Some (d, rest) => option_map (cons d) (regex_match r' rest)
      | None => None
      end
  | Digits n :: r' =>
      match takeDigits n s with
      | Some (_, rest) => regex_match r' rest
      | None => None
      end
  | Lit c :: r' =>
      match s with
      | String c' s' =>
          if Ascii.eqb c c' then regex_match r' s' else None
      | EmptyString => None
      end
  end.

(** Decimal digits of a non-negative integer, as [operator<<] prints it. *)
Fixpoint decimal_from (fuel : nat) (n : Z) (acc : string) : string :=
  match fuel with
  | O => acc
  | S fuel' =>
      let acc' := String (digitChar (n mod 10)) acc in
      if n / 10 =? 0 then acc' else decimal_from fuel' (n / 10) acc'
  end.

Definition decimal (n : Z) : string := decimal_from 20 n EmptyString.

Fixpoint zeros (n : nat) : string :=
  match n with
  | O => EmptyString
  | S n' => String "0"%char (zeros n')
  end.

(** [std::setfill('0') << std::setw(w) << n] *)
Definition setw0 (w : nat) (n : Z) : string :=
  let d := decimal n in
  String.append (zeros (w - String.length d)) d.

End Text.

(** ** RTCTimeManager (src/data/rtc_time_manager.cpp) *)

Module RTCTimeManager.

Import Text.

Definition DS1307_REG_SECONDS : Z := 0.
Definition DS1307_RAM_START : Z := 8.

(** The declaration of [RTCDateTime] is not part of the sources at hand;
    its fields are the ones the code assigns, each a [uint8_t] as the
    return type of [bcdToDec] and the casts in [getCurrentDateTime]
    show. *)
Record RTCDateTime := mkRTCDateTime {
  seconds : Z;
  minutes : Z;
  hours : Z;
  dayOfWeek : Z;
  date : Z;
  month : Z;
  year : Z
}.

(** Modelled from the spec: the [SleepSchedule] struct used by
    [rtc_time_manager.cpp] (fields [nightStartHour], [nightEndHour],
    [nightSleepMinutes], [daySleepMinutes], [enabled]) is not declared in
    the sources at hand.  The spec gives night-start hour, night-end hour,
    enabled flag and night/day sleep durations; the hours are [int], the
    minutes [uint32_t] as the local [sleepMinutes] of
    [getNightSleepDuration]. *)
Record SleepSchedule := mkSleepSchedule {
  nightStartHour : Z;
  nightEndHour : Z;
  nightSleepMinutes : Z;
  daySleepMinutes : Z;
  enabled : bool
}.

(** Modelled from the spec: the declarations of the members
    [syncAttempts_], [successfulSyncs_] and [totalDriftSeconds_] are not
    part of the sources at hand.  The spec gives a 2-byte sync-attempt
    counter, a 2-byte successful-sync counter and 4-byte signed accumulated
    drift seconds, so the counters are [uint16_t] and the drift is
    [int32_t]. *)
Record RTCTimeManager := mkRTCTimeManager {
  initialized_ : bool;
  hasValidTime_ : bool;
  i2cInitialized_ : bool;
  lastSyncTime_ : Z;
  syncAttempts_ : Z;
  successfulSyncs_ : Z;
  totalDriftSeconds_ : Z;
  sleepSchedule_ : SleepSchedule;
  lastError_ : string
}.

(** The members hold values of their types. *)
Definition inRange (s : RTCTimeManager) : Prop :=
  0 <= syncAttempts_ s < 2 ^ 16 /\
  0 <= successfulSyncs_ s < 2 ^ 16 /\
  - 2 ^ 31 <= totalDriftSeconds_ s < 2 ^ 31.

(** Transfers on the I2C bus. *)
Inductive event :=
| I2CRead (startReg : Z) (count : Z)
| I2CWrite (startReg : Z) (data : list Z).

(** [RTCTimeManager::RTCTimeManager(...)] *)
Definition constructor : RTCTimeManager :=
  mkRTCTimeManager false false false 0 0 0 0
    (mkSleepSchedule 22 6 30 5 true) "".

(** [uint8_t RTCTimeManager::bcdToDec(uint8_t bcd)] *)
Definition bcdToDec (bcd : Z) : Z :=
  uint8 (Z.shiftr bcd 4 * 10 + Z.land bcd 15).

(** [uint8_t RTCTimeManager::decToBcd(uint8_t dec)] *)
Definition decToBcd (dec : Z) : Z :=
  uint8 (Z.lor (Z.shiftl (dec / 10) 4) (dec mod 10)).

(** The [i]-th byte of a buffer filled by a read; a response shorter than
    the buffer leaves zeros. *)
Definition byte (data : list Z) (i : nat) : Z := uint8 (nth i data 0).

(** [bool RTCTimeManager::readRegisters(startReg, data, count)];
    [response] is what the device answers: the bytes, or [None] when the
    transfer fails. *)
Definition readRegisters (response : option (list Z)) (startReg count : Z)
  : option (list Z) * list event :=
  (response, [I2CRead startReg count]).

(** [bool RTCTimeManager::writeRegisters(startReg, data, count)];
    [ack] tells whether the transfer succeeds. *)
Definition writeRegisters (ack : bool) (startReg : Z) (data : list Z)
  : bool * list event :=
  (ack, [I2CWrite startReg data]).

(** [bool RTCTimeManager::readEEPROM(address, data, length)] *)
Definition readEEPROM (response : option (list Z)) (address length : Z)
  : option (list Z) * list event :=
  if address + length >? 56 then (None, [])
  else readRegisters response (uint8 (DS1307_RAM_START + address)) length.

(** [bool RTCTimeManager::writeEEPROM(address, data, length)] *)
Definition writeEEPROM (ack : bool) (address : Z) (data : list Z)
  : bool * list event :=
  if address + Z.of_nat (List.length data) >? 56 then (false, [])
  else writeRegisters ack (uint8 (DS1307_RAM_START + address)) data.

(** [bool RTCTimeManager::readDateTime(RTCDateTime &dateTime)] *)
Definition readDateTime (response : option (list Z))
  : option RTCDateTime * list event :=
  let '(r, ev) := readRegisters response DS1307_REG_SECONDS 7 in
  match r with
  | None => (None, ev)
  | Some data =>
      (Some (mkRTCDateTime
               (bcdToDec (Z.land (byte data 0) 127))
               (bcdToDec (byte data 1))
               (bcdToDec (Z.land (byte data 2) 63))
               (bcdToDec (byte data 3))
               (bcdToDec (byte data 4))
               (bcdToDec (byte data 5))
               (bcdToDec (byte data 6))), ev)
  end.

(** [bool RTCTimeManager::writeDateTime(const RTCDateTime &dateTime)] *)
Definition writeDateTime (ack : bool) (dateTime : RTCDateTime)
  : bool * list event :=
  writeRegisters ack DS1307_REG_SECONDS
    [decToBcd (seconds dateTime); decToBcd (minutes dateTime);
     decToBcd (hours dateTime); decToBcd (dayOfWeek dateTime);
     decToBcd (date dateTime); decToBcd (month dateTime);
     decToBcd (year dateTime)].

(** [uint8_t RTCTimeManager::calculateDayOfWeek(int year, int month,
    int day)]; [/] and [%] of C++ truncate towards zero. *)
Definition calculateDayOfWeek (year month day : Z) : Z :=
  let '(month, year) :=
    if month <? 3 then (month + 12, year - 1) else (month, year) in
  let k := Z.rem year 100 in
  let j := Z.quot year 100 in
  let h :=
    Z.rem (day + Z.quot (13 * (month + 1)) 5 + k + Z.quot k 4 + Z.quot j 4
           - 2 * j) 7 in
  uint8 (Z.rem (h + 5) 7 + 1).

Definition isoRegex : list token :=
  [Capture 4; Lit "-"; Capture 2; Lit "-"; Capture 2; Lit "T";
   Capture 2; Lit ":"; Capture 2; Lit ":"; Capture 2].

Definition altRegex : list token :=
  [Capture 4; Lit "-"; Capture 2; Lit "-"; Capture 2; Lit " ";
   Capture 2; Lit ":"; Capture 2; Lit ":"; Capture 2].

Definition timeRegex : list token :=
  [Digits 4; Lit "-"; Digits 2; Lit "-"; Digits 2; Lit "T";
   Capture 2; Lit ":"; Capture 2; Lit ":"; Capture 2].

(** The body shared by the two branches of [parseTimeString]: the fields
    from the six captured groups. *)
Definition dateTimeOfGroups (g : list string) : RTCDateTime :=
  let group i := nth i g EmptyString in
  let year := stoi (group 0%nat) in
  let month := uint8 (stoi (group 1%nat)) in
  let date := uint8 (stoi (group 2%nat)) in
  mkRTCDateTime
    (uint8 (stoi (group 5%nat)))
    (uint8 (stoi (group 4%nat)))
    (uint8 (stoi (group 3%nat)))
    (calculateDayOfWeek year month date)
    date
    month
    (uint8 (year - 2000)).

(** [bool RTCTimeManager::parseTimeString(timeStr, dateTime)] *)
Definition parseTimeString (timeStr : string) : option RTCDateTime :=
  match regex_match isoRegex timeStr with
  | Some g => Some (dateTimeOfGroups g)
  | None =>
      match regex_match altRegex timeStr with
      | Some g => Some (dateTimeOfGroups g)
      | None => None
      end
  end.

(** [int RTCTimeManager::calculateDrift(rtcTime, actualTime)] *)
Definition calculateDrift (rtcTime actualTime : RTCDateTime) : Z :=
  let rtcSeconds :=
    int32 (seconds rtcTime + minutes rtcTime * 60 + hours rtcTime * 3600
           + date rtcTime * 86400) in
  let actualSeconds :=
    int32 (seconds actualTime + minutes actualTime * 60
           + hours actualTime * 3600 + date actualTime * 86400) in
  int32 (actualSeconds - rtcSeconds).

(** The 12 bytes [savePersistedData] prepares in its local [data]. *)
Definition persistedRecord (s : RTCTimeManager) : list Z :=
  [165; 90;
   Z.land (Z.shiftr (syncAttempts_ s) 8) 255;
   Z.land (syncAttempts_ s) 255;
   Z.land (Z.shiftr (successfulSyncs_ s) 8) 255;
   Z.land (successfulSyncs_ s) 255;
   Z.land (Z.shiftr (totalDriftSeconds_ s) 24) 255;
   Z.land (Z.shiftr (totalDriftSeconds_ s) 16) 255;
   Z.land (Z.shiftr (totalDriftSeconds_ s) 8) 255;
   Z.land (totalDriftSeconds_ s) 255;
   0; 0].

(** [void RTCTimeManager::savePersistedData()]; a failed write is only
    logged. *)
Definition savePersistedData (ack : bool) (s : RTCTimeManager)
  : list event :=
  snd (writeEEPROM ack 0 (persistedRecord s)).

Definition set_stats (attempts successes drift : Z) (s : RTCTimeManager)
  : RTCTimeManager :=
  mkRTCTimeManager (initialized_ s) (hasValidTime_ s) (i2cInitialized_ s)
    (lastSyncTime_ s) attempts successes drift (sleepSchedule_ s)
    (lastError_ s).

Definition set_totalDriftSeconds (drift : Z) (s : RTCTimeManager)
  : RTCTimeManager :=
  set_stats (syncAttempts_ s) (successfulSyncs_ s) drift s.

Definition set_lastSyncTime (t : Z) (s : RTCTimeManager) : RTCTimeManager :=
  mkRTCTimeManager (initialized_ s) (hasValidTime_ s) (i2cInitialized_ s)
    t (syncAttempts_ s) (successfulSyncs_ s) (totalDriftSeconds_ s)
    (sleepSchedule_ s) (lastError_ s).

Definition set_hasValidTime (b : bool) (s : RTCTimeManager)
  : RTCTimeManager :=
  mkRTCTimeManager (initialized_ s) b (i2cInitialized_ s)
    (lastSyncTime_ s) (syncAttempts_ s) (successfulSyncs_ s)
    (totalDriftSeconds_ s) (sleepSchedule_ s) (lastError_ s).

(** [void RTCTimeManager::setSleepSchedule(const SleepSchedule &)] *)
Definition setSleepSchedule (schedule : SleepSchedule) (s : RTCTimeManager)
  : RTCTimeManager :=
  mkRTCTimeManager (initialized_ s) (hasValidTime_ s) (i2cInitialized_ s)
    (lastSyncTime_ s) (syncAttempts_ s) (successfulSyncs_ s)
    (totalDriftSeconds_ s) schedule (lastError_ s).

(** [void RTCTimeManager::loadPersistedData()] *)
Definition loadPersistedData (response : option (list Z))
  (s : RTCTimeManager) : RTCTimeManager * list event :=
  let '(r, ev) := readEEPROM response 0 12 in
  match r with
  | Some data =>
      if (byte data 0 =? 165) && (byte data 1 =? 90) then
        (set_stats
           (uint16 (Z.lor (Z.shiftl (byte data 2) 8) (byte data 3)))
           (uint16 (Z.lor (Z.shiftl (byte data 4) 8) (byte data 5)))
           (int32
              (Z.lor
                 (Z.lor
                    (Z.lor (Z.shiftl (byte data 6) 24)
                       (Z.shiftl (byte data 7) 16))
                    (Z.shiftl (byte data 8) 8))
                 (byte data 9)))
           s, ev)
      else (s, ev)
  | None => (s, ev)
  end.

(** What the environment supplies to one call of [setTimeFromNetwork]. *)
Record SyncEnv := mkSyncEnv {
  timeRegisters : option (list Z);  (* answer to the read of the clock *)
  timeWriteAck : bool;              (* is the write of the clock acked? *)
  ramWriteAck : bool;               (* is the write of the RAM acked? *)
  systemTime : Z                    (* std::time(nullptr) *)
}.

(** [bool RTCTimeManager::setTimeFromNetwork(const std::string &)] *)
Definition setTimeFromNetwork (env : SyncEnv) (networkTime : string)
  (s : RTCTimeManager) : bool * RTCTimeManager * list event :=
  if negb (initialized_ s) then (false, s, [])
  else
    match parseTimeString networkTime with
    | None => (false, s, [])
    | Some newTime =>
        let '(currentTime, ev1) :=
          if hasValidTime_ s then readDateTime (timeRegisters env)
          else (None, []) in
        let '(written, ev2) := writeDateTime (timeWriteAck env) newTime in
        if negb written then (false, s, ev1 ++ ev2)
        else
          let s1 :=
            match currentTime with
            | Some currentTime =>
                let driftSeconds := calculateDrift currentTime newTime in
                set_totalDriftSeconds
                  (int32 (totalDriftSeconds_ s + Z.abs driftSeconds)) s
            | None => s
            end in
          let s2 := set_lastSyncTime (systemTime env) s1 in
          let s3 :=
            set_stats (uint16 (syncAttempts_ s2 + 1))
              (uint16 (successfulSyncs_ s2 + 1)) (totalDriftSeconds_ s2) s2 in
          let s4 := set_hasValidTime true s3 in
          let ev3 := savePersistedData (ramWriteAck env) s4 in
          (true, s4, ev1 ++ ev2 ++ ev3)
    end.

(** A sequence of calls of [setTimeFromNetwork], each with what the
    environment supplies to it. *)
Fixpoint run (calls : list (SyncEnv * string)) (s : RTCTimeManager)
  : RTCTimeManager :=
  match calls with
  | [] => s
  | (env, networkTime) :: calls' =>
      run calls' (snd (fst (setTimeFromNetwork env networkTime s)))
  end.

(** The text [getCurrentDateTime] builds from a reading. *)
Definition formatDateTime (dateTime : RTCDateTime) : string :=
  String.concat ""
    [setw0 4 (2000 + year dateTime); "-";
     setw0 2 (month dateTime); "-";
     setw0 2 (date dateTime); "T";
     setw0 2 (hours dateTime); ":";
     setw0 2 (minutes dateTime); ":";
     setw0 2 (seconds dateTime)].

(** [std::string RTCTimeManager::getCurrentDateTime()] *)
Definition getCurrentDateTime (response : option (list Z))
  (s : RTCTimeManager) : string * list event :=
  if negb (initialized_ s) then (EmptyString, [])
  else
    match readDateTime response with
    | (None, ev) => (EmptyString, ev)
    | (Some dateTime, ev) => (formatDateTime dateTime, ev)
    end.

(** [uint64_t RTCTimeManager::getNightSleepDuration(currentTime)] *)
Definition getNightSleepDuration (currentTime : string) (s : RTCTimeManager)
  : Z :=
  let schedule := sleepSchedule_ s in
  if negb (enabled schedule) then
    uint64 (daySleepMinutes schedule * 60 * 1000000)
  else
    match regex_match timeRegex currentTime with
    | None => uint64 (daySleepMinutes schedule * 60 * 1000000)
    | Some g =>
        let currentHour := stoi (nth 0 g EmptyString) in
        let isNight :=
          if nightStartHour schedule >? nightEndHour schedule then
            (currentHour >=? nightStartHour schedule)
            || (currentHour <? nightEndHour schedule)
          else
            (currentHour >=? nightStartHour schedule)
            && (currentHour <? nightEndHour schedule) in
        let sleepMinutes :=
          if isNight then nightSleepMinutes schedule
          else daySleepMinutes schedule in
        uint64 (sleepMinutes * 60 * 1000000)
    end.

(** *** The spec's side of the properties *)

(** The hour [getNightSleepDuration] reads from its argument: the first
    group captured by [timeRegex], through [std::stoi]. *)
Definition hourOf (currentTime : string) : option Z :=
  option_map (fun g => stoi (nth 0 g EmptyString))
    (regex_match timeRegex currentTime).

(** [n] bytes, most significant first, of the two's complement
    representation of [x]. *)
Fixpoint bigEndian (n : nat) (x : Z) : list Z :=
  match n with
  | O => []
  | S n' => (x / 2 ^ (8 * Z.of_nat n')) mod 256 :: bigEndian n' x
  end.

(** The fields of a reading hold values of their type. *)
Definition fieldsInRange (t : RTCDateTime) : Prop :=
  0 <= seconds t < 256 /\ 0 <= minutes t < 256 /\ 0 <= hours t < 256 /\
  0 <= date t < 256.

(** The wrap-aware membership test, in the spec's words: when nightStart >
    nightEnd, night holds when hour >= nightStart or hour < nightEnd;
    otherwise night holds when nightStart <= hour < nightEnd. *)
Definition isNightSpec (nightStart nightEnd hour : Z) : Prop :=
  (nightStart > nightEnd -> hour >= nightStart \/ hour < nightEnd) /\
  (~ nightStart > nightEnd -> nightStart <= hour < nightEnd).

(** The configured durations, in microseconds. *)
Definition nightDuration (schedule : SleepSchedule) : Z :=
  uint64 (nightSleepMinutes schedule * 60 * 1000000).
Definition dayDuration (schedule : SleepSchedule) : Z :=
  uint64 (daySleepMinutes schedule * 60 * 1000000).

(** The simplified linear count of seconds of a reading, in the spec's
    words: seconds + minutes*60 + hours*3600 + day-of-month*86400. *)
Definition linearSeconds (t : RTCDateTime) : Z :=
  seconds t + minutes t * 60 + hours t * 3600 + date t * 86400.

(** The sum of a list of integers. *)
Definition sumZ (l : list Z) : Z := fold_right Z.add 0 l.

(** The drift one call accumulates: [abs] of the difference between the
    new authoritative time and the hardware time read before it. *)
Definition absDrift (call : SyncEnv * string) : Z :=
  match parseTimeString (snd call),
        fst (readDateTime (timeRegisters (fst call))) with
  | Some newTime, Some currentTime =>
      Z.abs (linearSeconds newTime - linearSeconds currentTime)
  | _, _ => 0
  end.

(** A call that succeeds with a prior hardware time readable. *)
Definition syncsWithReading (call : SyncEnv * string) : Prop :=
  parseTimeString (snd call) <> None /\
  timeRegisters (fst call) <> None /\
  timeWriteAck (fst call) = true.

(** *** Further member functions *)

Definition DS1307_REG_CONTROL : Z := 7.
Definition DS1307_RAM_END : Z := 63.

(** [Config::Timing::POWER_STABILIZATION_MS] of [main.h]. *)
Definition POWER_STABILIZATION_MS : Z := 1000.

(** [bool RTCTimeManager::isValidTime(const std::string &timeStr)] *)
Definition isValidTime (timeStr : string) : bool :=
  match regex_match isoRegex timeStr with
  | None => false
  | Some g =>
      let group i := nth i g EmptyString in
      let year := stoi (group 0%nat) in
      let month := stoi (group 1%nat) in
      let day := stoi (group 2%nat) in
      let hour := stoi (group 3%nat) in
      let minute := stoi (group 4%nat) in
      let second := stoi (group 5%nat) in
      if (year <? 2000) || (year >? 2099) then false
      else if (month <? 1) || (month >? 12) then false
      else if (day <? 1) || (day >? 31) then false
      else if (hour <? 0) || (hour >? 23) then false
      else if (minute <? 0) || (minute >? 59) then false
      else if (second <? 0) || (second >? 59) then false
      else if (year =? 2000) && (month =? 1) && (day =? 1) then false
      else true
  end.

(** [bool RTCTimeManager::readRegister(uint8_t reg, uint8_t &value)];
    [response] is the byte the device answers, or [None] when the transfer
    fails. *)
Definition readRegister (response : option Z) (reg : Z)
  : option Z * list event :=
  (option_map uint8 response, [I2CRead reg 1]).

(** [bool RTCTimeManager::writeRegister(uint8_t reg, uint8_t value)] *)
Definition writeRegister (ack : bool) (reg value : Z) : bool * list event :=
  (ack, [I2CWrite reg [value]]).

Definition set_initialized (b : bool) (s : RTCTimeManager) : RTCTimeManager :=
  mkRTCTimeManager b (hasValidTime_ s) (i2cInitialized_ s)
    (lastSyncTime_ s) (syncAttempts_ s) (successfulSyncs_ s)
    (totalDriftSeconds_ s) (sleepSchedule_ s) (lastError_ s).

Definition set_i2cInitialized (b : bool) (s : RTCTimeManager)
  : RTCTimeManager :=
  mkRTCTimeManager (initialized_ s) (hasValidTime_ s) b
    (lastSyncTime_ s) (syncAttempts_ s) (successfulSyncs_ s)
    (totalDriftSeconds_ s) (sleepSchedule_ s) (lastError_ s).

Definition set_lastError (e : string) (s : RTCTimeManager) : RTCTimeManager :=
  mkRTCTimeManager (initialized_ s) (hasValidTime_ s) (i2cInitialized_ s)
    (lastSyncTime_ s) (syncAttempts_ s) (successfulSyncs_ s)
    (totalDriftSeconds_ s) (sleepSchedule_ s) e.

(** What the environment supplies to one call of [initialize]. *)
Record InitEnv := mkInitEnv {
  supplyEnabled : option bool;       (* [powerManager_], if not null, and
                                        what [is5VSupplyEnabled()] answers *)
  i2cInstalled : bool;               (* does [initializeI2C] succeed? *)
  devicePresent : bool;              (* what [isConnected] answers *)
  secondsRegister : option Z;        (* answer to the read of register 0 *)
  oscillatorAck : bool;              (* is the write that clears CH acked? *)
  controlAck : bool;                 (* is the write of register 7 acked? *)
  clockRegisters : option (list Z);  (* answer to a read of the clock *)
  ramRegisters : option (list Z)     (* answer to the read of the RAM *)
}.

(** What [initialize] does outside the object: calls of the power manager,
    waiting, probing the device address, transfers on the bus. *)
Inductive step :=
| Supply5V (enabled : bool)
| Delay (ms : Z)
| Probe
| Bus (e : event).

(** [bool RTCTimeManager::initialize()] *)
Definition initialize (env : InitEnv) (s : RTCTimeManager)
  : bool * RTCTimeManager * list step :=
  if initialized_ s then (true, s, [])
  else
    let ev0 :=
      match supplyEnabled env with
      | Some false => [Supply5V true; Delay POWER_STABILIZATION_MS]
      | _ => []
      end in
    if negb (i2cInstalled env) then
      (false, set_lastError "Failed to initialize I2C interface" s, ev0)
    else
      let s := set_i2cInitialized true s in
      let ev1 := ev0 ++ [Probe] in
      if negb (devicePresent env) then
        (false, set_lastError "DS1307 RTC not detected on I2C bus" s, ev1)
      else
        let '(seconds, ev) :=
          readRegister (secondsRegister env) DS1307_REG_SECONDS in
        let ev2 := ev1 ++ map Bus ev in
        match seconds with
        | None =>
            (false, set_lastError "Failed to read RTC seconds register" s,
             ev2)
        | Some seconds =>
            let '(started, ev) :=
              if negb (Z.land seconds 128 =? 0) then
                writeRegister (oscillatorAck env) DS1307_REG_SECONDS
                  (Z.land seconds 127)
              else (true, []) in
            let ev3 := ev2 ++ map Bus ev in
            if negb started then
              (false, set_lastError "Failed to start RTC oscillator" s, ev3)
            else
              let '(_, ev) :=
                writeRegister (controlAck env) DS1307_REG_CONTROL 0 in
              let ev4 := ev3 ++ map Bus ev in
              let '(currentTime, ev) :=
                getCurrentDateTime (clockRegisters env) s in
              let ev5 := ev4 ++ map Bus ev in
              let s :=
                if negb (String.eqb currentTime EmptyString) then
                  set_hasValidTime (isValidTime currentTime) s
                else s in
              let '(s, ev) := loadPersistedData (ramRegisters env) s in
              (true, set_initialized true s, ev5 ++ map Bus ev)
        end.

(** [void RTCTimeManager::cleanup()] *)
Definition cleanup (ack : bool) (s : RTCTimeManager)
  : RTCTimeManager * list event :=
  let ev := savePersistedData ack s in
  let s := set_i2cInitialized false s in
  (set_hasValidTime false (set_initialized false s), ev).

(** *** The calendar, to compare [calculateDayOfWeek] with *)

(** The integers [lo], [lo + 1], ..., [lo + n - 1]. *)
Definition upFrom (lo : Z) (n : nat) : list Z :=
  map (fun i => lo + Z.of_nat i) (seq 0 n).

Definition isLeapYear (y : Z) : bool :=
  ((y mod 4 =? 0) && negb (y mod 100 =? 0)) || (y mod 400 =? 0).

(** The number of leap years among the years 1 to [y - 1]. *)
Definition leapsBefore (y : Z) : Z :=
  (y - 1) / 4 - (y - 1) / 100 + (y - 1) / 400.

Definition daysInMonth (y m : Z) : Z :=
  if m =? 2 then (if isLeapYear y then 29 else 28)
  else if (m =? 4) || (m =? 6) || (m =? 9) || (m =? 11) then 30
  else 31.

(** The number of days from 1 January 2000 to the given date, for a year
    from 2000 on. *)
Definition dayNumber (y m d : Z) : Z :=
  365 * (y - 2000) + (leapsBefore y - leapsBefore 2000)
  + sumZ (map (daysInMonth y) (upFrom 1 (Z.to_nat (m - 1))))
  + (d - 1).

(** The ISO weekday, 1 for Monday to 7 for Sunday; 1 January 2000 was a
    Saturday. *)
Definition isoWeekday (y m d : Z) : Z := (dayNumber y m d + 5) mod 7 + 1.

(** Is the date one of the calendar, in the years the DS1307 covers? *)
Definition isDate (y m d : Z) : bool :=
  (2000 <=? y) && (y <=? 2099) && (1 <=? m) && (m <=? 12) && (1 <=? d)
  && (d <=? daysInMonth y m).

(** Is the first date before the second? *)
Definition dateBefore (a b : Z * Z * Z) : bool :=
  let '(y, m, d) := a in
  let '(y', m', d') := b in
  (y <? y') || ((y =? y') && ((m <? m') || ((m =? m') && (d <? d')))).

(** The fields of a date-time are those of a time of day on a day of a
    month of a year from 2000 to 2099. *)
Definition calendarFields (t : RTCDateTime) : Prop :=
  0 <= seconds t <= 59 /\ 0 <= minutes t <= 59 /\ 0 <= hours t <= 23 /\
  1 <= date t <= 31 /\ 1 <= month t <= 12 /\ 0 <= year t <= 99.

(** The fields of a date-time are what the clock registers can hold in
    BCD: two decimal digits, with the top bit of the seconds and the top
    two bits of the hours left clear. *)
Definition storable (t : RTCDateTime) : Prop :=
  0 <= seconds t < 80 /\ 0 <= minutes t < 100 /\ 0 <= hours t < 40 /\
  0 <= dayOfWeek t < 100 /\ 0 <= date t < 100 /\ 0 <= month t < 100 /\
  0 <= year t < 100.

(** The registers a trace touches: for each transfer, the first register
    and the one after the last. *)
Definition span (e : event) : Z * Z :=
  match e with
  | I2CRead startReg count => (startReg, startReg + count)
  | I2CWrite startReg data => (startReg, startReg + Z.of_nat (List.length data))
  end.

End RTCTimeManager.

(** ** Concrete states *)

Module Fixtures.

(** A steady clock that advances by a millisecond between readings. *)
Definition tickClock (n : nat) : Z := Z.of_nat n * 1000.

(** The power manager after construction and [initialize()]. *)
Definition booted : PowerManager.World :=
  PowerManager.world
    (PowerManager.initialize 1700000000
       (PowerManager.constructor tickClock 15)).

(** The same, with both radios and the SD card marked as powered. *)
Definition radiosOn : PowerManager.World :=
  PowerManager.mkWorld
    (PowerManager.set_peripheralConfig
       (PowerManager.with_sdcard true
          (PowerManager.with_bluetooth true
             (PowerManager.with_wifi true
                (PowerManager.peripheralConfig_ (PowerManager.this booted)))))
       (PowerManager.this booted))
    (PowerManager.clockReads booted).

(** The same, configured not to shut down on a critical battery. *)
Definition lenient : PowerManager.World :=
  PowerManager.mkWorld
    (PowerManager.set_powerConfig
       (PowerManager.mkPowerConfig 3600000000 1000000
          (Float32.of_Z 15) (Float32.of_Z 5) false 300000 (-1) false)
       (PowerManager.this radiosOn))
    (PowerManager.clockReads radiosOn).

(** The literal [5.01f]: the binary32 number nearest to 5.01. *)
Definition fivePointOhOne : float := S754_finite false 10506732 (-21).

(** A time manager that is initialised and has synchronised once. *)
Definition synced : RTCTimeManager.RTCTimeManager :=
  RTCTimeManager.mkRTCTimeManager true true true 1753790000 1 1 0
    (RTCTimeManager.mkSleepSchedule 22 6 30 5 true) "".

(** A time manager that is initialised and has never synchronised. *)
Definition unsynced : RTCTimeManager.RTCTimeManager :=
  RTCTimeManager.mkRTCTimeManager true true true 0 0 0 0
    (RTCTimeManager.mkSleepSchedule 22 6 30 5 true) "".

(** The clock registers reading 2025-07-29 12:34:50, in BCD. *)
Definition registers : list Z := [80; 52; 18; 3; 41; 7; 37].

(** A healthy bus answering with [registers] at wall-clock time [t]. *)
Definition healthy (t : Z) : RTCTimeManager.SyncEnv :=
  RTCTimeManager.mkSyncEnv (Some registers) true true t.

(** The time string of the cellular module, as
    [CellularManager::getNetworkTime] extracts it from [+CCLK]. *)
Definition cellularTime : string := "25/07/29,12:34:56+04".

(** A schedule whose night starts and ends at the same hour. *)
Definition sameHour : RTCTimeManager.RTCTimeManager :=
  RTCTimeManager.setSleepSchedule
    (RTCTimeManager.mkSleepSchedule 22 22 30 5 true) synced.

(** A cold start: the power manager has the 5V supply off, the device
    answers, its oscillator is halted, and its RAM holds no record. *)
Definition coldStart : RTCTimeManager.InitEnv :=
  RTCTimeManager.mkInitEnv (Some false) true true (Some 128) true true
    (Some registers) (Some [0; 0; 0; 0; 0; 0; 0; 0; 0; 0; 0; 0]).

(** A restart: the supply is on, the clock runs, and the RAM holds the
    record that [synced] saves. *)
Definition warmStart : RTCTimeManager.InitEnv :=
  RTCTimeManager.mkInitEnv (Some true) true true (Some 80) true true
    (Some registers) (Some (RTCTimeManager.persistedRecord synced)).

End Fixtures.

(** * Properties *)

(** ** Comparison of binary32 numbers *)

Section Float32Facts.

Import Float32.

Lemma SFcompare_rank (a b : float) :
  SFcompare a b =
  match rank a, rank b with
  | Some x, Some y => Some (lex x y)
  | _, _ => None
  end.
Proof.
  destruct a as [sa | sa | | sa ma ea], b as [sb | sb | | sb mb eb];
    try destruct sa; try destruct sb; try reflexivity.
  cbn [SFcompare rank lex].
  change (Pos.compare_cont Eq ma mb) with (Pos.compare ma mb).
  rewrite Z.compare_refl.
  rewrite (Z.compare_opp ea eb), (Z.compare_antisym ea eb).
  destruct (ea ?= eb); reflexivity.
Qed.

Lemma lex_lt_trans (x y z : Z * Z * Z) :
  lex x y = Lt -> lex y z = Lt -> lex x z = Lt.
Proof.
  destruct x as [[x1 x2] x3], y as [[y1 y2] y3], z as [[z1 z2] z3].
  unfold lex.
  destruct (Z.compare_spec x1 y1), (Z.compare_spec y1 z1),
    (Z.compare_spec x1 z1); try discriminate; try lia; try reflexivity.
  destruct (Z.compare_spec x2 y2), (Z.compare_spec y2 z2),
    (Z.compare_spec x2 z2); try discriminate; try lia; try reflexivity.
  rewrite !Z.compare_lt_iff. lia.
Qed.

Lemma lex_eq_lt (x y z : Z * Z * Z) :
  lex x y = Eq -> lex z y = Lt -> lex z x = Lt.
Proof.
  destruct x as [[x1 x2] x3], y as [[y1 y2] y3], z as [[z1 z2] z3].
  unfold lex.
  destruct (Z.compare_spec x1 y1); try discriminate.
  destruct (Z.compare_spec x2 y2); try discriminate.
  rewrite Z.compare_eq_iff. intros ->. subst. trivial.
Qed.

Lemma lex_antisym (x y : Z * Z * Z) : lex y x = CompOpp (lex x y).
Proof.
  destruct x as [[x1 x2] x3], y as [[y1 y2] y3].
  unfold lex.
  rewrite (Z.compare_antisym x1 y1), (Z.compare_antisym x2 y2),
    (Z.compare_antisym x3 y3).
  destruct (x1 ?= y1), (x2 ?= y2), (x3 ?= y3); reflexivity.
Qed.

(** [a < b] excludes [b <= a]. *)
Lemma ltb_not_leb (a b : float) : ltb a b = true -> leb b a = false.
Proof.
  unfold ltb, leb, SFltb, SFleb.
  rewrite (SFcompare_rank a b), (SFcompare_rank b a).
  destruct (rank a) as [x |], (rank b) as [y |]; try discriminate.
  rewrite (lex_antisym x y).
  destruct (lex x y); cbn; congruence.
Qed.

Lemma ltb_trans (a b c : float) :
  ltb a b = true -> ltb b c = true -> ltb a c = true.
Proof.
  unfold ltb, SFltb.
  rewrite (SFcompare_rank a b), (SFcompare_rank b c), (SFcompare_rank a c).
  destruct (rank a) as [x |], (rank b) as [y |], (rank c) as [z |];
    try discriminate.
  destruct (lex x y) eqn:Hxy; try discriminate.
  destruct (lex y z) eqn:Hyz; try discriminate.
  rewrite (lex_lt_trans x y z Hxy Hyz). reflexivity.
Qed.

Lemma eqb_leb (a b : float) : eqb a b = true -> leb a b = true.
Proof.
  unfold eqb, leb, SFeqb, SFleb.
  destruct (SFcompare a b) as [[| |] |]; congruence.
Qed.

(** A number equal to [b] is above whatever [b] is above. *)
Lemma ltb_eqb (a b c : float) :
  ltb c b = true -> eqb a b = true -> ltb c a = true.
Proof.
  unfold ltb, eqb, SFltb, SFeqb.
  rewrite (SFcompare_rank c b), (SFcompare_rank a b), (SFcompare_rank c a).
  destruct (rank a) as [x |], (rank b) as [y |], (rank c) as [z |];
    try discriminate.
  destruct (lex z y) eqn:Hzy; try discriminate.
  destruct (lex x y) eqn:Hxy; try discriminate.
  rewrite (lex_eq_lt x y z Hxy Hzy). reflexivity.
Qed.

End Float32Facts.

(** ** The monad of PowerManager *)

Section PowerManagerMonad.

Import PowerManager.

Variable steady_clock_now : nat -> Z.

Lemma bind_run {A B} (m : M A) (k : A -> M B) (w : World) :
  bind m k w =
  (result (k (result (m w)) (world (m w))),
   world (k (result (m w)) (world (m w))),
   events (m w) ++ events (k (result (m w)) (world (m w)))).
Proof.
  unfold bind, result, world, events.
  destruct (m w) as [[a w1] t1]. cbn.
  destruct (k a w1) as [[b w2] t2]. reflexivity.
Qed.

Lemma bind_silent {A B} (m : M A) (k : A -> M B) (w : World) :
  events (m w) = [] -> bind m k w = k (result (m w)) (world (m w)).
Proof.
  intros H. rewrite bind_run, H.
  destruct (k (result (m w)) (world (m w))) as [[b w2] t2]. reflexivity.
Qed.

Lemma bind_get {A B} (f : PowerManager -> A) (k : A -> M B) (w : World) :
  bind (get f) k w = k (f (this w)) w.
Proof. apply (bind_silent (get f)). reflexivity. Qed.

Lemma bind_modify {B} (f : PowerManager -> PowerManager) (k : unit -> M B)
  (w : World) :
  bind (modify f) k w = k tt (mkWorld (f (this w)) (clockReads w)).
Proof. apply (bind_silent (modify f)). reflexivity. Qed.

Lemma bind_now {B} (k : Z -> M B) (w : World) :
  bind (now steady_clock_now) k w =
  k (steady_clock_now (clockReads w)) (mkWorld (this w) (S (clockReads w))).
Proof. apply (bind_silent (now steady_clock_now)). reflexivity. Qed.

Lemma events_bind {A B} (m : M A) (k : A -> M B) (w : World) :
  events (bind m k w) =
  events (m w) ++ events (k (result (m w)) (world (m w))).
Proof. rewrite bind_run. reflexivity. Qed.

Lemma world_bind {A B} (m : M A) (k : A -> M B) (w : World) :
  world (bind m k w) = world (k (result (m w)) (world (m w))).
Proof. rewrite bind_run. reflexivity. Qed.

Lemma deepSleeps_app (t1 t2 : list event) :
  deepSleeps (t1 ++ t2) = deepSleeps t1 ++ deepSleeps t2.
Proof. unfold deepSleeps. apply flat_map_app. Qed.

(** *** Frame rules for [preserves] *)

Lemma preserves_ret {A B} (f : PowerManager -> B) (a : A) :
  preserves f (ret a).
Proof. intros w. reflexivity. Qed.

Lemma preserves_get {A B} (f : PowerManager -> B) (g : PowerManager -> A) :
  preserves f (get g).
Proof. intros w. reflexivity. Qed.

Lemma preserves_emit {B} (f : PowerManager -> B) (e : event) :
  preserves f (emit e).
Proof. intros w. reflexivity. Qed.

Lemma preserves_now {B} (f : PowerManager -> B) :
  preserves f (now steady_clock_now).
Proof. intros w. reflexivity. Qed.

Lemma preserves_modify {B} (f : PowerManager -> B)
  (g : PowerManager -> PowerManager) :
  (forall s, f (g s) = f s) -> preserves f (modify g).
Proof. intros H w. apply H. Qed.

Lemma preserves_bind {A B C} (f : PowerManager -> C) (m : M A)
  (k : A -> M B) :
  preserves f m -> (forall a, preserves f (k a)) -> preserves f (bind m k).
Proof.
  intros Hm Hk w. rewrite world_bind, Hk. apply Hm.
Qed.

Lemma preserves_when {B} (f : PowerManager -> B) (b : bool) (m : M unit) :
  preserves f m -> preserves f (when b m).
Proof. intros H. destruct b; [exact H | apply preserves_ret]. Qed.

(** *** Frame rules for [noDeepSleep] *)

Lemma noDeepSleep_ret {A} (a : A) : noDeepSleep (ret a).
Proof. intros w. reflexivity. Qed.

Lemma noDeepSleep_get {A} (g : PowerManager -> A) : noDeepSleep (get g).
Proof. intros w. reflexivity. Qed.

Lemma noDeepSleep_modify (g : PowerManager -> PowerManager) :
  noDeepSleep (modify g).
Proof. intros w. reflexivity. Qed.

Lemma noDeepSleep_now : noDeepSleep (now steady_clock_now).
Proof. intros w. reflexivity. Qed.

Lemma noDeepSleep_emit (e : event) :
  deepSleeps [e] = [] -> noDeepSleep (emit e).
Proof. intros H w. exact H. Qed.

Lemma noDeepSleep_bind {A B} (m : M A) (k : A -> M B) :
  noDeepSleep m -> (forall a, noDeepSleep (k a)) -> noDeepSleep (bind m k).
Proof.
  intros Hm Hk w. rewrite events_bind, deepSleeps_app, Hm, Hk. reflexivity.
Qed.

Lemma noDeepSleep_when (b : bool) (m : M unit) :
  noDeepSleep m -> noDeepSleep (when b m).
Proof. intros H. destruct b; [exact H | apply noDeepSleep_ret]. Qed.

Lemma deepSleeps_bind_quiet {A B} (m : M A) (k : A -> M B) (w : World) :
  noDeepSleep m ->
  deepSleeps (events (bind m k w)) =
  deepSleeps (events (k (result (m w)) (world (m w)))).
Proof.
  intros H. rewrite events_bind, deepSleeps_app, H. reflexivity.
Qed.

End PowerManagerMonad.

(** ** PowerManager: sleep durations, battery policy, rail order *)

Section PowerManagerFacts.

Import PowerManager.

Variable steady_clock_now : nat -> Z.

Ltac unfold_members :=
  unfold enterSleep, enterDeepSleep, enterLightSleep, enterEmergencyMode,
    prepareSleep, restoreFromSleep, updatePowerStats, updateDutyCycle,
    resetWatchdog, configureWakeup, platformEnterLightSleep,
    platformEnterDeepSleep, validateSleepDuration,
    getWakeupCause, logCriticalPowerEvent, configurePeripherals,
    controlPeripheralPower, set5VSupply, call.

(** Walks through a computation, applying the frame rules. *)
Ltac frame :=
  repeat
    (cbv zeta; intros;
     first
       [ apply preserves_ret | apply preserves_get | apply preserves_emit
       | apply preserves_now
       | apply preserves_modify; intros ?; reflexivity
       | apply preserves_when
       | apply preserves_bind
       | apply noDeepSleep_ret | apply noDeepSleep_get
       | apply noDeepSleep_modify | apply noDeepSleep_now
       | apply noDeepSleep_emit; reflexivity
       | apply noDeepSleep_when
       | apply noDeepSleep_bind
       | match goal with
         | |- preserves _ (if ?b then _ else _) => destruct b
         | |- preserves _ (match ?x with Some _ => _ | None => _ end) =>
             destruct x
         | |- preserves _ (match ?x with DEEP_SLEEP => _ | _ => _ end) =>
             destruct x
         | |- noDeepSleep (if ?b then _ else _) => destruct b
         end ]).

Lemma validateSleepDuration_run (d : Z) (w : World) :
  validateSleepDuration d w =
  (let cfg := powerConfig_ (this w) in
   if d <? minSleepDuration cfg then minSleepDuration cfg
   else if d >? maxSleepDuration cfg then maxSleepDuration cfg
   else d, w, []).
Proof.
  unfold validateSleepDuration. rewrite bind_get. cbv zeta.
  destruct (d <? _); [reflexivity |]. destruct (d >? _); reflexivity.
Qed.

Lemma prepareSleep_quiet (deep : bool) : noDeepSleep (prepareSleep deep).
Proof. unfold_members. frame. Qed.

Lemma restoreFromSleep_quiet (deep : bool) :
  noDeepSleep (restoreFromSleep deep).
Proof. unfold_members. frame. Qed.

Lemma updateDutyCycle_quiet : noDeepSleep updateDutyCycle.
Proof. unfold_members. frame. Qed.

Lemma configurePeripherals_quiet (c : PeripheralConfig) :
  noDeepSleep (configurePeripherals c).
Proof. unfold_members. frame. Qed.

(** The one deep sleep of [enterDeepSleep] lasts what
    [validateSleepDuration] returns. *)
Lemma enterDeepSleep_sleeps (d sources : Z) (w : World) :
  initialized_ (this w) = true ->
  deepSleeps (events (enterDeepSleep steady_clock_now d sources w)) =
  [result (validateSleepDuration d w)].
Proof.
  intros Hinit. unfold enterDeepSleep.
  rewrite bind_get, Hinit. cbn [negb].
  rewrite (bind_silent (validateSleepDuration d))
    by (rewrite validateSleepDuration_run; reflexivity).
  rewrite validateSleepDuration_run. cbv zeta. cbn [result world fst snd].
  set (v := if d <? _ then _ else _).
  rewrite bind_now, bind_modify, bind_get, !bind_modify.
  rewrite deepSleeps_bind_quiet by apply prepareSleep_quiet.
  rewrite deepSleeps_bind_quiet by (unfold_members; frame).
  unfold platformEnterDeepSleep at 1.
  rewrite events_bind, deepSleeps_app.
  cbn [emit events snd deepSleeps flat_map app].
  f_equal.
  match goal with
  | |- deepSleeps (events (?m ?w)) = [] =>
      assert (H : noDeepSleep m) by (unfold_members; frame); apply H
  end.
Qed.

Lemma configurePeripherals_config (c : PeripheralConfig) (w : World) :
  peripheralConfig_ (object (configurePeripherals c w)) = c.
Proof.
  unfold configurePeripherals, object.
  repeat (rewrite world_bind; cbv beta).
  reflexivity.
Qed.

Lemma configurePeripherals_emergencyMode (c : PeripheralConfig) :
  preserves emergencyMode_ (configurePeripherals c).
Proof. unfold_members. frame. Qed.

Lemma enterDeepSleep_emergencyMode (d sources : Z) :
  preserves emergencyMode_ (enterDeepSleep steady_clock_now d sources).
Proof. unfold_members. frame. Qed.

(** Whatever the state, the object is in emergency mode after
    [enterEmergencyMode]. *)
Lemma enterEmergencyMode_sets (reason : string) (w : World) :
  emergencyMode_ (object (enterEmergencyMode steady_clock_now reason w))
  = true.
Proof.
  unfold enterEmergencyMode, object. rewrite bind_get.
  destruct (emergencyMode_ (this w)) eqn:E; [exact E |].
  rewrite bind_modify.
  match goal with
  | |- emergencyMode_ (this (world (?m ?w'))) = true =>
      assert (H : preserves emergencyMode_ m)
  end.
  { cbv zeta. apply preserves_bind; [unfold_members; frame | intros _].
    apply preserves_bind; intros;
      [apply configurePeripherals_emergencyMode
      | apply enterDeepSleep_emergencyMode]. }
  rewrite H. reflexivity.
Qed.

(** Shedding WiFi and Bluetooth switches off exactly those of the two
    that are on. *)
Lemma shed_events (w : World) :
  let cur := peripheralConfig_ (this w) in
  events (configurePeripherals (with_bluetooth false (with_wifi false cur)) w)
  = (if wifi cur then [EvPeripheralPower "wifi" false] else [])
    ++ (if bluetooth cur then [EvPeripheralPower "bluetooth" false] else []).
Proof.
  destruct w as [s n]. destruct s as [? ? c ? ? ? ? ? ? ? ? ? ? ?].
  destruct c as [[] [] [] [] [] [] ? ?]; reflexivity.
Qed.

Lemma checkBatteryLevel_critical_shutdown (p : float) (w : World) :
  Float32.leb p (criticalBatteryThreshold (powerConfig_ (this w))) = true ->
  emergencyShutdownEnabled (powerConfig_ (this w)) = true ->
  checkBatteryLevel steady_clock_now p w =
  (false,
   world (enterEmergencyMode steady_clock_now "Critical battery level" w),
   events (enterEmergencyMode steady_clock_now "Critical battery level" w)).
Proof.
  intros Hp He. unfold checkBatteryLevel.
  rewrite bind_get, Hp, He, !bind_run. cbn [ret result world events fst snd].
  rewrite !app_nil_r. reflexivity.
Qed.

Lemma checkBatteryLevel_critical_continue (p : float) (w : World) :
  Float32.leb p (criticalBatteryThreshold (powerConfig_ (this w))) = true ->
  emergencyShutdownEnabled (powerConfig_ (this w)) = false ->
  checkBatteryLevel steady_clock_now p w = (true, w, []).
Proof.
  intros Hp He. unfold checkBatteryLevel.
  rewrite bind_get, Hp, He. reflexivity.
Qed.

Lemma checkBatteryLevel_low (p : float) (w : World) :
  Float32.leb p (criticalBatteryThreshold (powerConfig_ (this w))) = false ->
  Float32.leb p (lowBatteryThreshold (powerConfig_ (this w))) = true ->
  let shed :=
    with_bluetooth false (with_wifi false (peripheralConfig_ (this w))) in
  checkBatteryLevel steady_clock_now p w =
  (true, world (configurePeripherals shed w),
   events (configurePeripherals shed w)).
Proof.
  intros Hc Hl shed. unfold checkBatteryLevel.
  rewrite bind_get, Hc, Hl, !bind_run.
  cbn [ret get result world events fst snd].
  rewrite !app_nil_r. reflexivity.
Qed.

Lemma checkBatteryLevel_normal (p : float) (w : World) :
  Float32.leb p (criticalBatteryThreshold (powerConfig_ (this w))) = false ->
  Float32.leb p (lowBatteryThreshold (powerConfig_ (this w))) = false ->
  checkBatteryLevel steady_clock_now p w = (true, w, []).
Proof.
  intros Hc Hl. unfold checkBatteryLevel.
  rewrite bind_get, Hc, Hl. reflexivity.
Qed.

(** A percentage that is not a number compares with no threshold: the
    call returns [true] and changes nothing. *)
Lemma checkBatteryLevel_nan (w : World) :
  checkBatteryLevel steady_clock_now S754_nan w = (true, w, []).
Proof. apply checkBatteryLevel_normal; reflexivity. Qed.

Lemma shedsRadios_intro (p : float) (w : World) :
  Float32.leb p (criticalBatteryThreshold (powerConfig_ (this w))) = false ->
  Float32.leb p (lowBatteryThreshold (powerConfig_ (this w))) = true ->
  shedsRadios steady_clock_now p w.
Proof.
  intros Hc Hl. unfold shedsRadios. cbv zeta.
  rewrite (checkBatteryLevel_low p w Hc Hl). cbv zeta.
  unfold result, world, object, events. cbn [fst snd].
  repeat split.
  - apply configurePeripherals_config.
  - apply shed_events.
  - apply configurePeripherals_emergencyMode.
Qed.

Lemma entersEmergency_intro (p : float) (w : World) :
  Float32.leb p (criticalBatteryThreshold (powerConfig_ (this w))) = true ->
  emergencyShutdownEnabled (powerConfig_ (this w)) = true ->
  entersEmergency steady_clock_now p w.
Proof.
  intros Hp He. unfold entersEmergency. cbv zeta.
  rewrite (checkBatteryLevel_critical_shutdown p w Hp He).
  unfold result, object. cbn [fst snd world].
  repeat split. apply enterEmergencyMode_sets.
Qed.

(** C1.  For every battery percentage [p]: at or below the critical
    threshold, [checkBatteryLevel] enters emergency mode and returns
    [false] when emergency shutdown is enabled, and returns [true] when it
    is disabled; above the critical and at or below the low threshold it
    disables WiFi and Bluetooth through [configurePeripherals] and returns
    [true]; above the low threshold it returns [true] and changes nothing.
    Both thresholds are inclusive.  The thresholds are ordered as the
    constructor sets them, critical below low. *)
Theorem checkBatteryLevel_policy (w : World) (p : float) :
  let cfg := powerConfig_ (this w) in
  let critical := criticalBatteryThreshold cfg in
  let low := lowBatteryThreshold cfg in
  (Float32.leb p critical = true -> emergencyShutdownEnabled cfg = true ->
   entersEmergency steady_clock_now p w) /\
  (Float32.leb p critical = true -> emergencyShutdownEnabled cfg = false ->
   result (checkBatteryLevel steady_clock_now p w) = true) /\
  (Float32.ltb critical p = true -> Float32.leb p low = true ->
   shedsRadios steady_clock_now p w) /\
  (thresholdsOrdered cfg -> Float32.ltb low p = true ->
   continues steady_clock_now p w) /\
  (Float32.eqb p critical = true -> emergencyShutdownEnabled cfg = true ->
   entersEmergency steady_clock_now p w) /\
  (thresholdsOrdered cfg -> Float32.eqb p low = true ->
   shedsRadios steady_clock_now p w).
Proof.
  cbv zeta. unfold thresholdsOrdered.
  refine (conj _ (conj _ (conj _ (conj _ (conj _ _))))).
  - apply entersEmergency_intro.
  - intros Hp He.
    rewrite (checkBatteryLevel_critical_continue p w Hp He). reflexivity.
  - intros Hc Hl. apply shedsRadios_intro; [| exact Hl].
    apply ltb_not_leb, Hc.
  - intros Ho Hl. apply checkBatteryLevel_normal.
    + apply ltb_not_leb. exact (ltb_trans _ _ _ Ho Hl).
    + apply ltb_not_leb, Hl.
  - intros Hp. apply entersEmergency_intro. apply eqb_leb, Hp.
  - intros Ho Hp. apply shedsRadios_intro.
    + apply ltb_not_leb. exact (ltb_eqb _ _ _ Ho Hp).
    + apply eqb_leb, Hp.
Qed.

(** C10.  At or below the critical threshold with emergency shutdown
    disabled, [checkBatteryLevel] returns [true] and leaves everything as
    it was: the peripheral configuration is unchanged (the low-battery
    branch is not taken), emergency mode is not entered, and nothing
    reaches the platform. *)
Theorem checkBatteryLevel_critical_shutdown_disabled (w : World) (p : float) :
  let cfg := powerConfig_ (this w) in
  let r := checkBatteryLevel steady_clock_now p w in
  Float32.leb p (criticalBatteryThreshold cfg) = true ->
  emergencyShutdownEnabled cfg = false ->
  result r = true /\
  peripheralConfig_ (object r) = peripheralConfig_ (this w) /\
  emergencyMode_ (object r) = emergencyMode_ (this w) /\
  events r = [] /\
  world r = w.
Proof.
  cbv zeta. intros Hp He.
  rewrite (checkBatteryLevel_critical_continue p w Hp He).
  repeat split.
Qed.

(** What [enablePeripherals] and [disablePeripherals] send to the
    platform. *)
Lemma enablePeripherals_events (w : World) :
  initialized_ (this w) = true ->
  events (enablePeripherals w) =
  Ev5VSupply true :: EvDelayMs 1000
  :: map (fun p => EvPeripheralPower p true)
       (configured (peripheralConfig_ (this w))).
Proof.
  destruct w as [s n]. destruct s as [? i c ? ? ? ? ? ? ? ? ? ? ?].
  cbn [this initialized_ peripheralConfig_]. intros ->.
  destruct c as [[] [] [] [] [] ? ? ?]; reflexivity.
Qed.

Lemma disablePeripherals_events (w : World) :
  initialized_ (this w) = true ->
  events (disablePeripherals w) =
  map (fun p => EvPeripheralPower p false)
    (rev (configured (peripheralConfig_ (this w))))
  ++ [Ev5VSupply false].
Proof.
  destruct w as [s n]. destruct s as [? i c ? ? ? ? ? ? ? ? ? ? ?].
  cbn [this initialized_ peripheralConfig_]. intros ->.
  destruct c as [[] [] [] [] [] ? ? ?]; reflexivity.
Qed.

Lemma enablePeripherals_object (w : World) :
  initialized_ (this w) = true ->
  initialized_ (object (enablePeripherals w)) = true /\
  configured (peripheralConfig_ (object (enablePeripherals w))) =
  configured (peripheralConfig_ (this w)).
Proof.
  destruct w as [s n]. destruct s as [? i c ? ? ? ? ? ? ? ? ? ? ?].
  cbn [this initialized_ peripheralConfig_]. intros ->.
  destruct c as [[] [] [] [] [] ? ? ?]; split; reflexivity.
Qed.

Lemma rails_switches (b : bool) (l : list string) :
  rails (map (fun p => EvPeripheralPower p b) l) = l.
Proof.
  induction l as [| p l IH]; [reflexivity |].
  cbn [map]. change (p :: l) with ([p] ++ l). rewrite <- IH at 2.
  reflexivity.
Qed.

(** Before [initialize()], the guarded operations return at once. *)
Lemma uninitialized_noop (w : World) (d sources : Z) :
  initialized_ (this w) = false ->
  enablePeripherals w = (tt, w, []) /\
  disablePeripherals w = (tt, w, []) /\
  enterDeepSleep steady_clock_now d sources w = (tt, w, []) /\
  enterLightSleep steady_clock_now d w = (false, w, []).
Proof.
  intros H.
  unfold enablePeripherals, disablePeripherals, enterDeepSleep,
    enterLightSleep.
  rewrite !bind_get, H. repeat split.
Qed.

(** C2.  [enablePeripherals] switches the 5V rail on first, waits for it
    to settle, then switches on WiFi, Bluetooth, cellular, SD card and
    sensors in this order; [disablePeripherals] switches them off in the
    reverse order and the 5V rail last; for every subset of peripherals
    marked in the configuration. *)
Theorem peripherals_power_order (w : World) :
  initialized_ (this w) = true ->
  let on := configured (peripheralConfig_ (this w)) in
  let up := enablePeripherals w in
  let down := disablePeripherals (world up) in
  events up =
    Ev5VSupply true :: EvDelayMs 1000
    :: map (fun p => EvPeripheralPower p true) on /\
  events down =
    map (fun p => EvPeripheralPower p false) (rev on) ++ [Ev5VSupply false] /\
  events (disablePeripherals w) = events down /\
  rails (events down) = rev (rails (events up)).
Proof.
  intros Hinit on up down.
  destruct (enablePeripherals_object w Hinit) as [Hinit' Hon].
  assert (Hup : events up = Ev5VSupply true :: EvDelayMs 1000
                 :: map (fun p => EvPeripheralPower p true) on)
    by apply (enablePeripherals_events w Hinit).
  assert (Hdown : events down =
                  map (fun p => EvPeripheralPower p false) (rev on)
                  ++ [Ev5VSupply false]).
  { unfold down. rewrite (disablePeripherals_events (world up) Hinit').
    fold (object up). unfold up. rewrite Hon. reflexivity. }
  repeat split; try assumption.
  - rewrite Hdown. apply (disablePeripherals_events w Hinit).
  - rewrite Hup, Hdown. unfold rails at 1. rewrite flat_map_app.
    fold (rails (map (fun p => EvPeripheralPower p false) (rev on))).
    rewrite rails_switches.
    change (rails (Ev5VSupply true :: EvDelayMs 1000
                   :: map (fun p => EvPeripheralPower p true) on))
      with ("5V" :: rails (map (fun p => EvPeripheralPower p true) on)).
    rewrite rails_switches. reflexivity.
Qed.

(** C3.  [enterSleep] and [enterDeepSleep] never fail on a duration: the
    platform sleeps exactly once, for the minimum when the request is below
    it, for the maximum when the request is above it, and for the request
    itself when it lies between the two.  The bounds are ordered as the
    constructor sets them, which matters for a request above the
    maximum. *)
Theorem enterSleep_clamps_duration (w : World) (d sources : Z) :
  initialized_ (this w) = true ->
  let cfg := powerConfig_ (this w) in
  let slept :=
    deepSleeps (events (enterDeepSleep steady_clock_now d sources w)) in
  deepSleeps (events (enterSleep steady_clock_now d w)) = slept /\
  (d < minSleepDuration cfg -> slept = [minSleepDuration cfg]) /\
  (durationsOrdered cfg -> d > maxSleepDuration cfg ->
   slept = [maxSleepDuration cfg]) /\
  (minSleepDuration cfg <= d <= maxSleepDuration cfg -> slept = [d]).
Proof.
  unfold durationsOrdered. intros Hinit. cbv zeta.
  unfold enterSleep. rewrite !enterDeepSleep_sleeps by exact Hinit.
  rewrite validateSleepDuration_run. cbv zeta. cbn [result fst].
  split; [reflexivity |].
  destruct (Z.ltb_spec d (minSleepDuration (powerConfig_ (this w))));
    destruct (Z.gtb_spec d (maxSleepDuration (powerConfig_ (this w))));
    repeat split; intros; try reflexivity; lia.
Qed.

(** The limits assumed ordered above are set by the constructor and
    changed by none of the operations. *)
Lemma constructor_limits (powerPin : Z) :
  let cfg := powerConfig_ (this (constructor steady_clock_now powerPin)) in
  thresholdsOrdered cfg /\ durationsOrdered cfg.
Proof. split; [reflexivity | discriminate]. Qed.

Lemma limits_preserved (p : float) (d sources epoch : Z) :
  preserves limits (initialize epoch) /\
  preserves limits enablePeripherals /\
  preserves limits disablePeripherals /\
  preserves limits (enterDeepSleep steady_clock_now d sources) /\
  preserves limits (enterLightSleep steady_clock_now d) /\
  preserves limits (checkBatteryLevel steady_clock_now p).
Proof.
  repeat split;
    unfold initialize, enablePeripherals, disablePeripherals,
      checkBatteryLevel, getResetReason, configureWatchdog, disableWatchdog,
      platformInitializeWatchdog;
    unfold_members; frame.
Qed.

End PowerManagerFacts.

(** Instances on concrete states. *)

Lemma checkBatteryLevel_policy_witness :
  let w := Fixtures.radiosOn in
  let cfg := PowerManager.powerConfig_ (PowerManager.this w) in
  (Float32.leb (Float32.of_Z 5) (PowerManager.criticalBatteryThreshold cfg)
   = true /\
   PowerManager.emergencyShutdownEnabled cfg = true /\
   PowerManager.entersEmergency Fixtures.tickClock (Float32.of_Z 5) w) /\
  (Float32.ltb (PowerManager.criticalBatteryThreshold cfg) (Float32.of_Z 10)
   = true /\
   Float32.leb (Float32.of_Z 10) (PowerManager.lowBatteryThreshold cfg)
   = true /\
   PowerManager.shedsRadios Fixtures.tickClock (Float32.of_Z 10) w) /\
  (Float32.ltb (PowerManager.criticalBatteryThreshold cfg)
     Fixtures.fivePointOhOne = true /\
   Float32.leb Fixtures.fivePointOhOne (PowerManager.lowBatteryThreshold cfg)
   = true /\
   PowerManager.shedsRadios Fixtures.tickClock Fixtures.fivePointOhOne w) /\
  (PowerManager.thresholdsOrdered cfg /\
   Float32.ltb (PowerManager.lowBatteryThreshold cfg) (Float32.of_Z 16)
   = true /\
   PowerManager.continues Fixtures.tickClock (Float32.of_Z 16) w) /\
  (Float32.eqb (Float32.of_Z 15) (PowerManager.lowBatteryThreshold cfg)
   = true /\
   PowerManager.shedsRadios Fixtures.tickClock (Float32.of_Z 15) w) /\
  (Float32.eqb (Float32.of_Z 5) (PowerManager.criticalBatteryThreshold cfg)
   = true /\
   PowerManager.emergencyMode_
     (PowerManager.object
        (PowerManager.checkBatteryLevel Fixtures.tickClock (Float32.of_Z 5)
           w)) = true) /\
  (Float32.leb (Float32.of_Z 3)
     (PowerManager.criticalBatteryThreshold
        (PowerManager.powerConfig_ (PowerManager.this Fixtures.lenient)))
   = true /\
   PowerManager.emergencyShutdownEnabled
     (PowerManager.powerConfig_ (PowerManager.this Fixtures.lenient))
   = false /\
   PowerManager.result
     (PowerManager.checkBatteryLevel Fixtures.tickClock (Float32.of_Z 3)
        Fixtures.lenient) = true).
Proof.
  cbv zeta.
  refine (conj _ (conj _ (conj _ (conj _ (conj _ (conj _ _)))))).
  - split; [reflexivity | split; [reflexivity |]].
    destruct (checkBatteryLevel_policy Fixtures.tickClock Fixtures.radiosOn
                (Float32.of_Z 5)) as (H & _).
    apply H; reflexivity.
  - split; [reflexivity | split; [reflexivity |]].
    destruct (checkBatteryLevel_policy Fixtures.tickClock Fixtures.radiosOn
                (Float32.of_Z 10)) as (_ & _ & H & _).
    apply H; reflexivity.
  - split; [reflexivity | split; [reflexivity |]].
    destruct (checkBatteryLevel_policy Fixtures.tickClock Fixtures.radiosOn
                Fixtures.fivePointOhOne) as (_ & _ & H & _).
    apply H; reflexivity.
  - split; [reflexivity | split; [reflexivity |]].
    destruct (checkBatteryLevel_policy Fixtures.tickClock Fixtures.radiosOn
                (Float32.of_Z 16)) as (_ & _ & _ & H & _).
    apply H; reflexivity.
  - split; [reflexivity |].
    destruct (checkBatteryLevel_policy Fixtures.tickClock Fixtures.radiosOn
                (Float32.of_Z 15)) as (_ & _ & _ & _ & _ & H).
    apply H; reflexivity.
  - split; [reflexivity |].
    destruct (checkBatteryLevel_policy Fixtures.tickClock Fixtures.radiosOn
                (Float32.of_Z 5)) as (_ & _ & _ & _ & H & _).
    apply H; reflexivity.
  - split; [reflexivity | split; [reflexivity |]].
    destruct (checkBatteryLevel_policy Fixtures.tickClock Fixtures.lenient
                (Float32.of_Z 3)) as (_ & H & _).
    apply H; reflexivity.
Defined.

Lemma checkBatteryLevel_critical_shutdown_disabled_witness :
  let w := Fixtures.lenient in
  let cfg := PowerManager.powerConfig_ (PowerManager.this w) in
  let r :=
    PowerManager.checkBatteryLevel Fixtures.tickClock (Float32.of_Z 3) w in
  Float32.leb (Float32.of_Z 3) (PowerManager.criticalBatteryThreshold cfg)
  = true /\
  Float32.leb (Float32.of_Z 3) (PowerManager.lowBatteryThreshold cfg)
  = true /\
  PowerManager.emergencyShutdownEnabled cfg = false /\
  PowerManager.result r = true /\
  PowerManager.peripheralConfig_ (PowerManager.object r) =
  PowerManager.mkPeripheralConfig true true false true false false true true
  /\ PowerManager.events r = [].
Proof.
  cbv zeta.
  destruct (checkBatteryLevel_critical_shutdown_disabled Fixtures.tickClock
              Fixtures.lenient (Float32.of_Z 3))
    as (Hr & Hc & _ & He & _); [reflexivity | reflexivity |].
  split; [reflexivity | split; [reflexivity | split; [reflexivity |]]].
  split; [exact Hr | split; [| exact He]].
  rewrite Hc. reflexivity.
Defined.

Lemma peripherals_power_order_witness :
  let w := Fixtures.radiosOn in
  let up := PowerManager.enablePeripherals w in
  PowerManager.initialized_ (PowerManager.this w) = true /\
  PowerManager.events up =
    [PowerManager.Ev5VSupply true; PowerManager.EvDelayMs 1000;
     PowerManager.EvPeripheralPower "wifi" true;
     PowerManager.EvPeripheralPower "bluetooth" true;
     PowerManager.EvPeripheralPower "sdcard" true] /\
  PowerManager.events
    (PowerManager.disablePeripherals (PowerManager.world up)) =
    [PowerManager.EvPeripheralPower "sdcard" false;
     PowerManager.EvPeripheralPower "bluetooth" false;
     PowerManager.EvPeripheralPower "wifi" false;
     PowerManager.Ev5VSupply false].
Proof.
  cbv zeta.
  destruct (peripherals_power_order Fixtures.radiosOn)
    as (Hup & Hdown & _); [reflexivity |].
  split; [reflexivity | split].
  - rewrite Hup. reflexivity.
  - rewrite Hdown. reflexivity.
Defined.

Lemma enterSleep_clamps_duration_witness :
  let w := Fixtures.booted in
  let slept d :=
    PowerManager.deepSleeps
      (PowerManager.events
         (PowerManager.enterSleep Fixtures.tickClock d w)) in
  PowerManager.initialized_ (PowerManager.this w) = true /\
  PowerManager.durationsOrdered
    (PowerManager.powerConfig_ (PowerManager.this w)) /\
  slept 5 = [1000000] /\
  slept 7200000000 = [3600000000] /\
  slept 300000000 = [300000000].
Proof.
  cbv zeta.
  assert (Hi : PowerManager.initialized_ (PowerManager.this Fixtures.booted)
               = true) by reflexivity.
  assert (Ho : PowerManager.durationsOrdered
                 (PowerManager.powerConfig_
                    (PowerManager.this Fixtures.booted)))
    by (vm_compute; discriminate).
  split; [exact Hi | split; [exact Ho |]].
  refine (conj _ (conj _ _)).
  - destruct (enterSleep_clamps_duration Fixtures.tickClock Fixtures.booted
                5 1 Hi) as (Hs & Hlo & _ & _).
    rewrite Hs. apply Hlo. reflexivity.
  - destruct (enterSleep_clamps_duration Fixtures.tickClock Fixtures.booted
                7200000000 1 Hi) as (Hs & _ & Hhi & _).
    rewrite Hs. apply Hhi; [exact Ho | reflexivity].
  - destruct (enterSleep_clamps_duration Fixtures.tickClock Fixtures.booted
                300000000 1 Hi) as (Hs & _ & _ & Hin).
    rewrite Hs. apply Hin. vm_compute. split; discriminate.
Defined.

(** ** RTCTimeManager: the sleep schedule *)

Section SleepScheduleFacts.

Import Text RTCTimeManager.

(** The test of the source, as a boolean. *)
Lemma isNight_reflect (start stop hour : Z) :
  (if start >? stop then (hour >=? start) || (hour <? stop)
   else (hour >=? start) && (hour <? stop)) = true
  <-> isNightSpec start stop hour.
Proof.
  unfold isNightSpec.
  destruct (Z.gtb_spec start stop), (Z.geb_spec hour start),
    (Z.ltb_spec hour stop); cbn; split; intros Hyp;
    try reflexivity; try discriminate; lia.
Qed.

(** [getNightSleepDuration] on a time it can read: night or day duration
    by the membership test. *)
Lemma getNightSleepDuration_enabled (currentTime : string) (hour : Z)
  (s : RTCTimeManager) :
  enabled (sleepSchedule_ s) = true ->
  hourOf currentTime = Some hour ->
  let schedule := sleepSchedule_ s in
  (isNightSpec (nightStartHour schedule) (nightEndHour schedule) hour ->
   getNightSleepDuration currentTime s = nightDuration schedule) /\
  (~ isNightSpec (nightStartHour schedule) (nightEndHour schedule) hour ->
   getNightSleepDuration currentTime s = dayDuration schedule).
Proof.
  intros Hen Hhour. cbv zeta.
  unfold getNightSleepDuration, hourOf in *. rewrite Hen. cbn [negb].
  destruct (regex_match timeRegex currentTime) as [g |]; [| discriminate].
  cbn [option_map] in Hhour. injection Hhour as ->.
  pose proof (isNight_reflect (nightStartHour (sleepSchedule_ s))
                (nightEndHour (sleepSchedule_ s)) hour) as Hr.
  cbv zeta.
  destruct (if nightStartHour (sleepSchedule_ s) >? _ then _ else _);
    split; intros H; try reflexivity.
  - exfalso. apply H, Hr. reflexivity.
  - apply Hr in H. discriminate.
Qed.

(** Without a readable time, or with the schedule disabled, the day
    duration. *)
Lemma getNightSleepDuration_default (currentTime : string)
  (s : RTCTimeManager) :
  enabled (sleepSchedule_ s) = false \/ hourOf currentTime = None ->
  getNightSleepDuration currentTime s = dayDuration (sleepSchedule_ s).
Proof.
  unfold getNightSleepDuration, hourOf.
  intros [-> | H]; [reflexivity |].
  destruct (negb _); [reflexivity |].
  destruct (regex_match timeRegex currentTime); [discriminate | reflexivity].
Qed.

(** Every hour of the day is read from the text [getCurrentDateTime]
    prints for it. *)
Lemma hours_covered (hour : Z) :
  0 <= hour <= 23 ->
  hourOf (formatDateTime (mkRTCDateTime 56 34 hour 3 29 7 25)) = Some hour.
Proof.
  intros H.
  assert (Hn : hour = Z.of_nat (Z.to_nat hour)) by lia.
  assert (Hlt : (Z.to_nat hour < 24)%nat) by lia.
  rewrite Hn. generalize dependent (Z.to_nat hour). clear. intros n Hlt.
  do 24 (destruct n as [| n]; [reflexivity |]). lia.
Qed.

(** C4.  With the schedule enabled, the evaluator returns the night
    duration exactly when the wrap-aware membership test holds for the hour
    it reads, and the day duration otherwise; with the schedule disabled it
    returns the day duration.  For a night from 22 to 6 the hours 22, 23
    and 0 to 5 give the night duration and the hours 6 to 21 the day
    duration. *)
Theorem getNightSleepDuration_schedule (currentTime : string) (hour : Z)
  (s : RTCTimeManager) :
  let schedule := sleepSchedule_ s in
  let start := nightStartHour schedule in
  let stop := nightEndHour schedule in
  let d := getNightSleepDuration currentTime s in
  (enabled schedule = false -> d = dayDuration schedule) /\
  (enabled schedule = true -> hourOf currentTime = Some hour ->
   0 <= hour <= 23 ->
   (isNightSpec start stop hour -> d = nightDuration schedule) /\
   (~ isNightSpec start stop hour -> d = dayDuration schedule) /\
   (nightDuration schedule <> dayDuration schedule ->
    (d = nightDuration schedule <-> isNightSpec start stop hour)) /\
   (start = 22 -> stop = 6 ->
    (22 <= hour \/ hour <= 5 -> d = nightDuration schedule) /\
    (6 <= hour <= 21 -> d = dayDuration schedule))).
Proof.
  cbv zeta. split.
  - intros H. apply getNightSleepDuration_default. left. exact H.
  - intros Hen Hhour Hrange.
    destruct (getNightSleepDuration_enabled currentTime hour s Hen Hhour)
      as [Hnight Hday].
    refine (conj Hnight (conj Hday (conj _ _))).
    + intros Hne. split; [| exact Hnight].
      intros Hd.
      pose proof (isNight_reflect (nightStartHour (sleepSchedule_ s))
                    (nightEndHour (sleepSchedule_ s)) hour) as Hr.
      destruct (if nightStartHour (sleepSchedule_ s) >? _ then _ else _).
      * apply Hr. reflexivity.
      * exfalso. apply Hne. rewrite <- Hd. apply Hday.
        intros Hn. apply Hr in Hn. discriminate.
    + intros Hs He. split; intros H.
      * apply Hnight. unfold isNightSpec. lia.
      * apply Hday. unfold isNightSpec. lia.
Qed.

(** C9 as amended.  When the night starts and ends at the same hour the
    night interval is empty: the evaluator returns the day duration for
    every hour. *)
Theorem getNightSleepDuration_equal_hours (currentTime : string)
  (s : RTCTimeManager) :
  nightStartHour (sleepSchedule_ s) = nightEndHour (sleepSchedule_ s) ->
  getNightSleepDuration currentTime s = dayDuration (sleepSchedule_ s).
Proof.
  intros Heq.
  destruct (enabled (sleepSchedule_ s)) eqn:Hen;
    [| apply getNightSleepDuration_default; left; exact Hen].
  destruct (hourOf currentTime) as [hour |] eqn:Hhour;
    [| apply getNightSleepDuration_default; right; exact Hhour].
  apply (getNightSleepDuration_enabled currentTime hour s Hen Hhour).
  unfold isNightSpec. lia.
Qed.

End SleepScheduleFacts.

Lemma getNightSleepDuration_schedule_witness :
  let s := Fixtures.synced in
  let schedule := RTCTimeManager.sleepSchedule_ s in
  RTCTimeManager.enabled schedule = true /\
  RTCTimeManager.hourOf "2025-07-29T23:15:00" = Some 23 /\
  RTCTimeManager.hourOf "2025-07-29T06:00:00" = Some 6 /\
  RTCTimeManager.getNightSleepDuration "2025-07-29T23:15:00" s = 1800000000 /\
  RTCTimeManager.getNightSleepDuration "2025-07-29T06:00:00" s = 300000000.
Proof.
  cbv zeta.
  split; [reflexivity | split; [reflexivity | split; [reflexivity |]]].
  split.
  - destruct (getNightSleepDuration_schedule "2025-07-29T23:15:00" 23
                Fixtures.synced) as (_ & H).
    destruct H as (_ & _ & _ & H);
      [reflexivity | reflexivity | vm_compute; split; discriminate |].
    destruct H as [H _]; [reflexivity | reflexivity |].
    rewrite H; [reflexivity | left; vm_compute; discriminate].
  - destruct (getNightSleepDuration_schedule "2025-07-29T06:00:00" 6
                Fixtures.synced) as (_ & H).
    destruct H as (_ & _ & _ & H);
      [reflexivity | reflexivity | vm_compute; split; discriminate |].
    destruct H as [_ H]; [reflexivity | reflexivity |].
    rewrite H; [reflexivity | vm_compute; split; discriminate].
Defined.

(** C9 as stated fails: with night from 22 to 22 and the schedule enabled,
    at 22 o'clock the evaluator returns the day duration, which differs
    from the night duration. *)
Lemma getNightSleepDuration_equal_hours_counterexample :
  RTCTimeManager.enabled (RTCTimeManager.sleepSchedule_ Fixtures.sameHour)
  = true /\
  RTCTimeManager.nightStartHour
    (RTCTimeManager.sleepSchedule_ Fixtures.sameHour)
  = RTCTimeManager.nightEndHour
      (RTCTimeManager.sleepSchedule_ Fixtures.sameHour) /\
  RTCTimeManager.hourOf "2025-07-29T22:00:00" = Some 22 /\
  RTCTimeManager.getNightSleepDuration "2025-07-29T22:00:00"
    Fixtures.sameHour = 300000000 /\
  RTCTimeManager.nightDuration
    (RTCTimeManager.sleepSchedule_ Fixtures.sameHour) = 1800000000 /\
  RTCTimeManager.getNightSleepDuration "2025-07-29T22:00:00"
    Fixtures.sameHour
  <> RTCTimeManager.nightDuration
       (RTCTimeManager.sleepSchedule_ Fixtures.sameHour).
Proof.
  repeat split; try reflexivity. vm_compute. discriminate.
Qed.

Lemma getNightSleepDuration_equal_hours_witness :
  let s := Fixtures.sameHour in
  RTCTimeManager.nightStartHour (RTCTimeManager.sleepSchedule_ s)
  = RTCTimeManager.nightEndHour (RTCTimeManager.sleepSchedule_ s) /\
  RTCTimeManager.getNightSleepDuration "2025-07-29T22:00:00" s = 300000000 /\
  RTCTimeManager.getNightSleepDuration "2025-07-29T03:00:00" s = 300000000.
Proof.
  cbv zeta. split; [reflexivity |]. split.
  - rewrite (getNightSleepDuration_equal_hours "2025-07-29T22:00:00"
               Fixtures.sameHour); reflexivity.
  - rewrite (getNightSleepDuration_equal_hours "2025-07-29T03:00:00"
               Fixtures.sameHour); reflexivity.
Defined.

(** ** RTCTimeManager: synchronisation, drift and the persisted record *)

Section SyncFacts.

Import Text RTCTimeManager.

Lemma uint8_range (x : Z) : 0 <= uint8 x < 256.
Proof. unfold uint8. apply Z.mod_pos_bound. reflexivity. Qed.

Lemma int32_small (x : Z) : - 2 ^ 31 <= x < 2 ^ 31 -> int32 x = x.
Proof.
  intros H. unfold int32.
  rewrite Z.mod_small; lia.
Qed.

Lemma uint16_small (x : Z) : 0 <= x < 2 ^ 16 -> uint16 x = x.
Proof. intros H. unfold uint16. apply Z.mod_small. exact H. Qed.

(** *** A failed call changes nothing *)

(** What [setTimeFromNetwork] does when the text does not parse or the
    manager is not initialised: it returns [false], the object is as
    before and nothing goes over the bus. *)
Lemma setTimeFromNetwork_rejects (env : SyncEnv) (networkTime : string)
  (s : RTCTimeManager) :
  initialized_ s = false \/ parseTimeString networkTime = None ->
  setTimeFromNetwork env networkTime s = (false, s, []).
Proof.
  unfold setTimeFromNetwork. intros [-> | ->]; [reflexivity |].
  destruct (negb _); reflexivity.
Qed.

(** The counters after a call: both advance on success, neither moves
    otherwise. *)
Lemma setTimeFromNetwork_counters (env : SyncEnv) (networkTime : string)
  (s : RTCTimeManager) :
  let r := setTimeFromNetwork env networkTime s in
  let s' := snd (fst r) in
  (fst (fst r) = true /\
   syncAttempts_ s' = uint16 (syncAttempts_ s + 1) /\
   successfulSyncs_ s' = uint16 (successfulSyncs_ s + 1)) \/
  (fst (fst r) = false /\ s' = s).
Proof.
  cbv zeta. unfold setTimeFromNetwork.
  destruct (initialized_ s); [| right; split; reflexivity].
  destruct (parseTimeString networkTime) as [newTime |];
    [| right; split; reflexivity].
  cbn [negb].
  destruct (if hasValidTime_ s then _ else _) as [currentTime ev1].
  unfold writeDateTime, writeRegisters.
  destruct (timeWriteAck env); [| right; split; reflexivity].
  left. destruct currentTime; repeat split.
Qed.

(** The two counters stay equal along every run that starts with them
    equal. *)
Lemma run_counters_equal (calls : list (SyncEnv * string))
  (s : RTCTimeManager) :
  successfulSyncs_ s = syncAttempts_ s ->
  successfulSyncs_ (run calls s) = syncAttempts_ (run calls s).
Proof.
  revert s. induction calls as [| [env networkTime] calls IH];
    intros s Heq; [exact Heq |].
  cbn [run]. apply IH.
  destruct (setTimeFromNetwork_counters env networkTime s)
    as [(_ & Ha & Hs) | (_ & ->)]; [| exact Heq].
  rewrite Ha, Hs, Heq. reflexivity.
Qed.

(** C5.  Starting with both counters at zero, [successfulSyncs] never
    exceeds [syncAttempts] after any sequence of calls of
    [setTimeFromNetwork], whatever the texts and the bus do; and a call
    whose text fails to parse moves neither counter. *)
Theorem sync_counters_invariant (calls : list (SyncEnv * string))
  (s : RTCTimeManager) :
  syncAttempts_ s = 0 -> successfulSyncs_ s = 0 ->
  successfulSyncs_ (run calls s) <= syncAttempts_ (run calls s) /\
  (forall env networkTime s0,
     parseTimeString networkTime = None ->
     let s1 := snd (fst (setTimeFromNetwork env networkTime s0)) in
     syncAttempts_ s1 = syncAttempts_ s0 /\
     successfulSyncs_ s1 = successfulSyncs_ s0).
Proof.
  intros Ha Hs. split.
  - rewrite (run_counters_equal calls s) by congruence. lia.
  - intros env networkTime s0 Hparse. cbv zeta.
    rewrite setTimeFromNetwork_rejects by (right; exact Hparse).
    split; reflexivity.
Qed.

(** *** Drift *)

Lemma parseTimeString_range (timeStr : string) (t : RTCDateTime) :
  parseTimeString timeStr = Some t -> fieldsInRange t.
Proof.
  unfold parseTimeString. intros H.
  assert (exists g, t = dateTimeOfGroups g) as [g ->].
  { destruct (regex_match isoRegex timeStr) as [g |].
    - exists g. congruence.
    - destruct (regex_match altRegex timeStr) as [g |]; [| discriminate].
      exists g. congruence. }
  unfold fieldsInRange, dateTimeOfGroups.
  cbn [seconds minutes hours date].
  repeat split; apply uint8_range.
Qed.

Lemma readDateTime_range (response : option (list Z)) (t : RTCDateTime) :
  fst (readDateTime response) = Some t -> fieldsInRange t.
Proof.
  unfold readDateTime, readRegisters.
  destruct response as [data |]; [| discriminate].
  cbn [fst]. intros H. injection H as <-.
  unfold fieldsInRange, bcdToDec. cbn [seconds minutes hours date].
  repeat split; apply uint8_range.
Qed.

(** On readings, [calculateDrift] is the difference of the linear counts:
    no intermediate value leaves the range of [int]. *)
Lemma calculateDrift_linear (rtcTime actualTime : RTCDateTime) :
  fieldsInRange rtcTime -> fieldsInRange actualTime ->
  calculateDrift rtcTime actualTime =
  linearSeconds actualTime - linearSeconds rtcTime.
Proof.
  unfold fieldsInRange.
  intros (H1 & H2 & H3 & H4) (H5 & H6 & H7 & H8).
  change (calculateDrift rtcTime actualTime)
    with (int32 (int32 (linearSeconds actualTime)
                 - int32 (linearSeconds rtcTime))).
  assert (Hr : 0 <= linearSeconds rtcTime < 2 ^ 25)
    by (unfold linearSeconds; lia).
  assert (Ha : 0 <= linearSeconds actualTime < 2 ^ 25)
    by (unfold linearSeconds; lia).
  rewrite (int32_small (linearSeconds rtcTime)) by lia.
  rewrite (int32_small (linearSeconds actualTime)) by lia.
  apply int32_small. lia.
Qed.

(** One successful call with a reading adds the absolute drift. *)
Lemma setTimeFromNetwork_drift (call : SyncEnv * string)
  (s : RTCTimeManager) :
  initialized_ s = true -> hasValidTime_ s = true ->
  syncsWithReading call ->
  let r := setTimeFromNetwork (fst call) (snd call) s in
  let s' := snd (fst r) in
  fst (fst r) = true /\
  initialized_ s' = true /\ hasValidTime_ s' = true /\
  totalDriftSeconds_ s' = int32 (totalDriftSeconds_ s + absDrift call).
Proof.
  destruct call as [env networkTime].
  unfold syncsWithReading, absDrift. cbn [fst snd].
  intros Hi Hv (Hparse & Hread & Hack). cbv zeta.
  unfold setTimeFromNetwork. rewrite Hi, Hv. cbn [negb].
  destruct (parseTimeString networkTime) as [newTime |] eqn:Hp;
    [| congruence].
  pose proof (parseTimeString_range _ _ Hp) as Hnew.
  destruct (readDateTime (timeRegisters env)) as [currentTime ev1] eqn:Hr.
  assert (Hfst : fst (readDateTime (timeRegisters env)) = currentTime)
    by (rewrite Hr; reflexivity).
  destruct currentTime as [currentTime |].
  - pose proof (readDateTime_range _ _ Hfst) as Hcur.
    unfold writeDateTime, writeRegisters. rewrite Hack. cbn [negb].
    cbn [fst snd].
    rewrite (calculateDrift_linear _ _ Hcur Hnew).
    exact (conj eq_refl (conj Hi (conj eq_refl eq_refl))).
  - exfalso. unfold readDateTime, readRegisters in Hfst.
    destruct (timeRegisters env); [discriminate | congruence].
Qed.

Lemma absDrift_nonneg (call : SyncEnv * string) : 0 <= absDrift call.
Proof.
  unfold absDrift.
  destruct (parseTimeString (snd call)); [| lia].
  destruct (fst (readDateTime (timeRegisters (fst call)))); lia.
Qed.

Lemma sumZ_absDrift_nonneg (calls : list (SyncEnv * string)) :
  0 <= sumZ (map absDrift calls).
Proof.
  induction calls as [| call calls IH]; [cbn; lia |].
  cbn [map]. change (sumZ (absDrift call :: map absDrift calls))
    with (absDrift call + sumZ (map absDrift calls)).
  pose proof (absDrift_nonneg call). lia.
Qed.

Lemma run_drift (calls : list (SyncEnv * string)) (s : RTCTimeManager) :
  initialized_ s = true -> hasValidTime_ s = true ->
  Forall syncsWithReading calls ->
  0 <= totalDriftSeconds_ s ->
  totalDriftSeconds_ s + sumZ (map absDrift calls) < 2 ^ 31 ->
  totalDriftSeconds_ (run calls s) =
  totalDriftSeconds_ s + sumZ (map absDrift calls).
Proof.
  revert s. induction calls as [| call calls IH];
    intros s Hi Hv Hall Hpos Hsum.
  - cbn. lia.
  - cbn [map] in *.
    change (sumZ (absDrift call :: map absDrift calls))
      with (absDrift call + sumZ (map absDrift calls)) in *.
    inversion Hall as [| ? ? Hcall Hrest]; subst.
    destruct (setTimeFromNetwork_drift call s Hi Hv Hcall)
      as (_ & Hi' & Hv' & Hd).
    pose proof (absDrift_nonneg call) as H0.
    pose proof (sumZ_absDrift_nonneg calls) as Hge.
    rewrite int32_small in Hd by lia.
    destruct call as [env networkTime]. cbn [run]. cbn [fst snd] in *.
    rewrite IH; try assumption; rewrite Hd; lia.
Qed.

(** C8, at the time string of the cellular module.  [parseTimeString]
    knows the ISO-8601 form and the same with a space for the [T], and
    [setTimeFromNetwork] takes a time in either; the form
    YY/MM/DD,HH:MM:SS+ZZ that the cellular module delivers is not parsed:
    the call returns [false], leaves the object as it was and sends
    nothing over the bus. *)
Theorem setTimeFromNetwork_cellular_format (env : SyncEnv)
  (s : RTCTimeManager) :
  parseTimeString "2025-07-29T12:34:56"
  = Some (mkRTCDateTime 56 34 12 2 29 7 25) /\
  parseTimeString "2025-07-29 12:34:56"
  = Some (mkRTCDateTime 56 34 12 2 29 7 25) /\
  parseTimeString Fixtures.cellularTime = None /\
  setTimeFromNetwork env Fixtures.cellularTime s = (false, s, []).
Proof.
  repeat split; try reflexivity.
  apply setTimeFromNetwork_rejects. right. reflexivity.
Qed.

End SyncFacts.

Lemma sync_counters_invariant_witness :
  let calls :=
    [(Fixtures.healthy 100, "2025-07-29T12:34:56");
     (Fixtures.healthy 200, Fixtures.cellularTime);
     (RTCTimeManager.mkSyncEnv None false true 300, "2025-07-29 12:40:00");
     (Fixtures.healthy 400, "2025-07-29 12:45:00")] in
  let s := RTCTimeManager.run calls Fixtures.unsynced in
  RTCTimeManager.syncAttempts_ Fixtures.unsynced = 0 /\
  RTCTimeManager.successfulSyncs_ Fixtures.unsynced = 0 /\
  RTCTimeManager.syncAttempts_ s = 2 /\
  RTCTimeManager.successfulSyncs_ s <= RTCTimeManager.syncAttempts_ s.
Proof.
  cbv zeta.
  split; [reflexivity | split; [reflexivity | split; [reflexivity |]]].
  apply sync_counters_invariant; reflexivity.
Defined.

(** ** RTCTimeManager: the persisted record *)

Section PersistFacts.

Import Text RTCTimeManager.

Lemma land_255 (x : Z) : Z.land x 255 = x mod 256.
Proof.
  change 255 with (Z.ones 8). rewrite Z.land_ones by lia. reflexivity.
Qed.

Lemma byte_of_shiftr (x k : Z) :
  0 <= k -> Z.land (Z.shiftr x k) 255 = (x / 2 ^ k) mod 256.
Proof.
  intros Hk. rewrite land_255, Z.shiftr_div_pow2 by exact Hk. reflexivity.
Qed.

(** Bits that do not overlap add up. *)
Lemma lor_high_low (hi lo n : Z) :
  0 <= n -> hi mod 2 ^ n = 0 -> 0 <= lo < 2 ^ n -> Z.lor hi lo = hi + lo.
Proof.
  intros Hn Hhi Hlo.
  assert (Hland : Z.land hi lo = 0).
  { apply Z.bits_inj'. intros i Hi. rewrite Z.land_spec, Z.bits_0.
    destruct (Z.lt_ge_cases i n) as [Hlt | Hge].
    - rewrite (Z.div_mod hi (2 ^ n)) by lia. rewrite Hhi, Z.add_0_r.
      rewrite Z.mul_comm, Z.mul_pow2_bits_low by lia. reflexivity.
    - rewrite (proj2 (Z.testbit_false lo i Hi)); [apply andb_false_r |].
      rewrite Z.div_small; [reflexivity |].
      split; [lia |]. apply Z.lt_le_trans with (2 ^ n); [lia |].
      apply Z.pow_le_mono_r; lia. }
  rewrite <- (Z.add_lor_land hi lo), Hland. lia.
Qed.

(** The layout of the record: magic number, the two counters on two bytes
    each, the drift on four, two reserved bytes. *)
Lemma persistedRecord_layout (s : RTCTimeManager) :
  persistedRecord s =
  [165; 90] ++ bigEndian 2 (syncAttempts_ s)
  ++ bigEndian 2 (successfulSyncs_ s)
  ++ bigEndian 4 (totalDriftSeconds_ s) ++ [0; 0].
Proof.
  unfold persistedRecord.
  rewrite !byte_of_shiftr by lia. rewrite !land_255.
  cbn [bigEndian app Z.of_nat Pos.of_succ_nat Pos.succ Z.mul Pos.mul
         Pos.add].
  rewrite !Z.pow_0_r, !Z.div_1_r. reflexivity.
Qed.

(** Two bytes written from a 16-bit counter read back as the counter. *)
Lemma decode16 (x : Z) :
  0 <= x < 2 ^ 16 ->
  uint16 (Z.lor (Z.shiftl (uint8 (Z.land (Z.shiftr x 8) 255)) 8)
            (uint8 (Z.land x 255))) = x.
Proof.
  intros Hx. rewrite byte_of_shiftr, land_255 by lia.
  unfold uint8, uint16. rewrite Z.shiftl_mul_pow2 by lia.
  change (2 ^ 8) with 256 in *. change (2 ^ 16) with 65536 in *.
  rewrite (lor_high_low _ _ 8); change (2 ^ 8) with 256.
  - Z.div_mod_to_equations. lia.
  - lia.
  - apply Z.mod_mul. lia.
  - apply Z.mod_pos_bound. lia.
Qed.

(** Four bytes written from a 32-bit signed value read back as the
    value. *)
Lemma decode32 (x : Z) :
  - 2 ^ 31 <= x < 2 ^ 31 ->
  int32
    (Z.lor
       (Z.lor
          (Z.lor (Z.shiftl (uint8 (Z.land (Z.shiftr x 24) 255)) 24)
             (Z.shiftl (uint8 (Z.land (Z.shiftr x 16) 255)) 16))
          (Z.shiftl (uint8 (Z.land (Z.shiftr x 8) 255)) 8))
       (uint8 (Z.land x 255))) = x.
Proof.
  intros Hx. rewrite !byte_of_shiftr, land_255 by lia.
  unfold uint8, int32. rewrite !Z.shiftl_mul_pow2 by lia.
  change (2 ^ 8) with 256 in *. change (2 ^ 16) with 65536 in *.
  change (2 ^ 24) with 16777216 in *.
  change (2 ^ 31) with 2147483648 in *.
  change (2 ^ 32) with 4294967296 in *.
  set (b3 := (x / 16777216) mod 256 mod 256).
  set (b2 := (x / 65536) mod 256 mod 256).
  set (b1 := (x / 256) mod 256 mod 256).
  set (b0 := x mod 256 mod 256).
  assert (H3 : 0 <= b3 < 256) by (apply Z.mod_pos_bound; lia).
  assert (H2 : 0 <= b2 < 256) by (apply Z.mod_pos_bound; lia).
  assert (H1 : 0 <= b1 < 256) by (apply Z.mod_pos_bound; lia).
  assert (H0 : 0 <= b0 < 256) by (apply Z.mod_pos_bound; lia).
  rewrite (lor_high_low (b3 * 16777216) (b2 * 65536) 24);
    [| lia | apply Z.mod_mul; lia | change (2 ^ 24) with 16777216; lia].
  rewrite (lor_high_low (b3 * 16777216 + b2 * 65536) (b1 * 256) 16);
    [| lia
     | change (2 ^ 16) with 65536;
       replace (b3 * 16777216 + b2 * 65536) with ((b3 * 256 + b2) * 65536)
         by lia; apply Z.mod_mul; lia
     | change (2 ^ 16) with 65536; lia].
  rewrite (lor_high_low (b3 * 16777216 + b2 * 65536 + b1 * 256) b0 8);
    [| lia
     | change (2 ^ 8) with 256;
       replace (b3 * 16777216 + b2 * 65536 + b1 * 256)
         with ((b3 * 65536 + b2 * 256 + b1) * 256) by lia;
       apply Z.mod_mul; lia
     | change (2 ^ 8) with 256; lia].
  subst b3 b2 b1 b0. Z.div_mod_to_equations. lia.
Qed.

(** What [loadPersistedData] makes of a record written by
    [savePersistedData]. *)
Lemma load_saved (s s0 : RTCTimeManager) :
  inRange s ->
  fst (loadPersistedData (Some (persistedRecord s)) s0) =
  set_stats (syncAttempts_ s) (successfulSyncs_ s) (totalDriftSeconds_ s) s0.
Proof.
  intros (Ha & Hs & Hd).
  unfold loadPersistedData, readEEPROM, readRegisters.
  cbn [Z.add Z.gtb Z.compare Pos.compare Pos.compare_cont fst].
  unfold persistedRecord, byte. cbn [nth].
  change (uint8 165 =? 165) with true. change (uint8 90 =? 90) with true.
  cbn [andb fst].
  rewrite (decode16 _ Ha), (decode16 _ Hs), (decode32 _ Hd). reflexivity.
Qed.

Lemma load_wrong_magic (data : list Z) (s0 : RTCTimeManager) :
  ~ (byte data 0 = 165 /\ byte data 1 = 90) ->
  fst (loadPersistedData (Some data) s0) = s0.
Proof.
  intros Hm. unfold loadPersistedData, readEEPROM, readRegisters.
  cbn [Z.add Z.gtb Z.compare Pos.compare Pos.compare_cont fst].
  destruct (Z.eqb_spec (byte data 0) 165), (Z.eqb_spec (byte data 1) 90);
    cbn [andb fst]; try reflexivity.
  exfalso. apply Hm. split; assumption.
Qed.

(** C7.  [savePersistedData] writes, at the start of the RAM of the
    clock, the 12-byte record made of the magic number 0xA5 0x5A, the
    sync-attempt counter on two bytes, the successful-sync counter on two
    bytes, the accumulated drift on four bytes (two's complement) and two
    reserved bytes; loading the bytes it wrote restores the three values;
    loading bytes that do not start with the magic number changes nothing,
    so that a freshly constructed manager keeps its zeros. *)
Theorem persisted_state_round_trip (s : RTCTimeManager) (ack : bool) :
  inRange s ->
  savePersistedData ack s = [I2CWrite DS1307_RAM_START (persistedRecord s)] /\
  List.length (persistedRecord s) = 12%nat /\
  persistedRecord s =
    [165; 90] ++ bigEndian 2 (syncAttempts_ s)
    ++ bigEndian 2 (successfulSyncs_ s)
    ++ bigEndian 4 (totalDriftSeconds_ s) ++ [0; 0] /\
  (forall s0,
     let s1 := fst (loadPersistedData (Some (persistedRecord s)) s0) in
     syncAttempts_ s1 = syncAttempts_ s /\
     successfulSyncs_ s1 = successfulSyncs_ s /\
     totalDriftSeconds_ s1 = totalDriftSeconds_ s) /\
  (forall data,
     ~ (byte data 0 = 165 /\ byte data 1 = 90) ->
     (forall s0, fst (loadPersistedData (Some data) s0) = s0) /\
     let s1 := fst (loadPersistedData (Some data) constructor) in
     syncAttempts_ s1 = 0 /\ successfulSyncs_ s1 = 0 /\
     totalDriftSeconds_ s1 = 0).
Proof.
  intros Hr. refine (conj _ (conj _ (conj _ (conj _ _)))).
  - reflexivity.
  - reflexivity.
  - apply persistedRecord_layout.
  - intros s0. cbv zeta. rewrite (load_saved s s0 Hr).
    repeat split.
  - intros data Hm. split.
    + intros s0. apply load_wrong_magic, Hm.
    + cbv zeta. rewrite (load_wrong_magic data constructor Hm).
      repeat split.
Qed.

End PersistFacts.

Lemma persisted_state_round_trip_witness :
  let s :=
    RTCTimeManager.set_stats 258 257 70000 Fixtures.synced in
  let s1 :=
    fst (RTCTimeManager.loadPersistedData
           (Some (RTCTimeManager.persistedRecord s))
           RTCTimeManager.constructor) in
  RTCTimeManager.inRange s /\
  RTCTimeManager.savePersistedData true s
  = [RTCTimeManager.I2CWrite 8 [165; 90; 1; 2; 1; 1; 0; 1; 17; 112; 0; 0]] /\
  RTCTimeManager.syncAttempts_ s1 = 258 /\
  RTCTimeManager.successfulSyncs_ s1 = 257 /\
  RTCTimeManager.totalDriftSeconds_ s1 = 70000.
Proof.
  cbv zeta.
  assert (Hr : RTCTimeManager.inRange
                 (RTCTimeManager.set_stats 258 257 70000 Fixtures.synced))
    by (vm_compute; repeat split; discriminate).
  destruct (persisted_state_round_trip _ true Hr)
    as (Hsave & _ & _ & Hload & _).
  split; [exact Hr | split; [rewrite Hsave; reflexivity |]].
  apply (Hload RTCTimeManager.constructor).
Defined.

(** ** PowerManager: sleeping, shutting down, emergency mode *)

Section PowerManagerMore.

Import PowerManager.

Variable steady_clock_now : nat -> Z.

Ltac unfold_all :=
  unfold shutdown, executeEmergencyShutdown, configureGPIOHolds,
    performHealthCheck, getFreeHeap, is5VSupplyEnabled, enableWatchdog,
    checkBatteryLevel, enterEmergencyMode, initialize, getResetReason,
    configureWatchdog, disableWatchdog, platformInitializeWatchdog,
    enablePeripherals, disablePeripherals,
    enterSleep, enterDeepSleep, enterLightSleep,
    prepareSleep, restoreFromSleep, updatePowerStats, updateDutyCycle,
    resetWatchdog, configureWakeup, platformEnterLightSleep,
    platformEnterDeepSleep, validateSleepDuration,
    getWakeupCause, logCriticalPowerEvent, configurePeripherals,
    controlPeripheralPower, set5VSupply, call.

Ltac step :=
  repeat
    (cbv zeta; intros;
     first
       [ apply preserves_ret | apply preserves_get | apply preserves_emit
       | apply preserves_now
       | apply preserves_modify; intros ?; reflexivity
       | apply preserves_when
       | apply preserves_bind
       | match goal with
         | |- preserves _ (if ?b then _ else _) => destruct b
         | |- preserves _ (match ?x with Some _ => _ | None => _ end) =>
             destruct x
         | |- preserves _ (match ?x with DEEP_SLEEP => _ | _ => _ end) =>
             destruct x
         end ]).

(** *** What the helpers of the sleep path do *)

Lemma resetWatchdog_run (w : World) :
  resetWatchdog w =
  (tt, w, if armed (this w) then [EvWatchdogReset] else []).
Proof.
  unfold resetWatchdog, armed. rewrite !bind_get.
  destruct (_ && _); reflexivity.
Qed.

Lemma updateDutyCycle_run (w : World) :
  updateDutyCycle w = (tt, mkWorld (refreshDuty (this w)) (clockReads w), []).
Proof.
  unfold updateDutyCycle, refreshDuty. rewrite !bind_get. cbv zeta.
  destruct (_ >? 0); [reflexivity |]. destruct w; reflexivity.
Qed.

Lemma prepareSleep_run (deep : bool) (w : World) :
  prepareSleep deep w =
  (tt, w,
   (if armed (this w) then [EvWatchdogReset] else [])
   ++ (if deep then [EvGPIOForSleep] else [])).
Proof.
  unfold prepareSleep. rewrite bind_run, resetWatchdog_run.
  cbn [result world events fst snd].
  destruct deep; cbn; rewrite ?app_nil_r; reflexivity.
Qed.

Lemma armed_refreshDuty (s : PowerManager) :
  armed (refreshDuty s) = armed s.
Proof. unfold refreshDuty. cbv zeta. destruct (_ >? 0); reflexivity. Qed.

Lemma restoreFromSleep_run (deep : bool) (w : World) :
  restoreFromSleep deep w =
  (tt,
   mkWorld
     (countWakeup
        (if deep then
           set_powerStats
             (with_lastWakeupCause (wakeupCauseToString TIMER)
                (powerStats_ (this w))) (this w)
         else this w))
     (clockReads w),
   if armed (this w) then [EvWatchdogReset] else []).
Proof.
  unfold restoreFromSleep, updatePowerStats, getWakeupCause, countWakeup.
  rewrite bind_get.
  assert (Hreset :
            when (watchdogTimeoutMs (powerConfig_ (this w)) >? 0)
              resetWatchdog w =
            (tt, w, if armed (this w) then [EvWatchdogReset] else [])).
  { unfold when, armed.
    destruct (watchdogTimeoutMs (powerConfig_ (this w)) >? 0) eqn:E.
    - rewrite resetWatchdog_run. unfold armed. rewrite E. reflexivity.
    - rewrite andb_false_r. reflexivity. }
  rewrite bind_run, Hreset. cbn [result world events fst snd].
  destruct deep; cbn [String.eqb Ascii.eqb Bool.eqb].
  - rewrite (bind_silent (bind (ret TIMER) _)) by reflexivity.
    rewrite bind_modify, updateDutyCycle_run.
    cbn [result world events fst snd this clockReads bind ret modify].
    rewrite app_nil_r. destruct w; reflexivity.
  - rewrite (bind_silent (ret tt)) by reflexivity.
    rewrite bind_modify, updateDutyCycle_run.
    cbn [result world events fst snd this clockReads bind ret modify].
    rewrite app_nil_r. destruct w; reflexivity.
Qed.

Lemma bind_eq {A B} (m : M A) (k : A -> M B) (w w1 w2 : World) (a : A)
  (b : B) (t1 t2 : list event) :
  m w = (a, w1, t1) -> k a w1 = (b, w2, t2) ->
  bind m k w = (b, w2, t1 ++ t2).
Proof. intros Hm Hk. unfold bind. rewrite Hm, Hk. reflexivity. Qed.

Lemma when_configureWakeup_run (sources v : Z) (w : World) :
  when (negb (Z.land sources WAKEUP_TIMER =? 0)) (configureWakeup v) w =
  (tt, w, if Z.land sources WAKEUP_TIMER =? 0 then [] else [EvTimerWakeup v]).
Proof. destruct (Z.land sources WAKEUP_TIMER =? 0); reflexivity. Qed.

(** Runs a sequence of calls whose effects are known. *)
Ltac run :=
  repeat
    (cbv beta;
     first
       [ apply updateDutyCycle_run
       | apply restoreFromSleep_run
       | apply prepareSleep_run
       | eapply bind_eq;
         [ first
             [ apply validateSleepDuration_run
             | apply prepareSleep_run
             | apply restoreFromSleep_run
             | apply updateDutyCycle_run
             | apply when_configureWakeup_run
             | reflexivity ]
         | ]
       | match goal with |- ret _ _ = _ => reflexivity end ]).

Lemma enterDeepSleep_run (d sources : Z) (w : World) :
  initialized_ (this w) = true ->
  let v := clamped (powerConfig_ (this w)) d in
  let service := if armed (this w) then [EvWatchdogReset] else [] in
  enterDeepSleep steady_clock_now d sources w =
  (tt,
   mkWorld
     (afterDeepSleep v (steady_clock_now (clockReads w))
        (steady_clock_now (S (clockReads w))) (this w))
     (S (S (clockReads w))),
   service ++ [EvGPIOForSleep]
   ++ (if Z.land sources WAKEUP_TIMER =? 0 then [] else [EvTimerWakeup v])
   ++ [EvDeepSleep v] ++ service).
Proof.
  intros Hinit. cbv zeta. unfold enterDeepSleep.
  rewrite bind_get, Hinit. cbn [negb].
  etransitivity; [run |].
  cbv zeta. fold (clamped (powerConfig_ (this w)) d).
  unfold afterDeepSleep, armed.
  cbn [this clockReads app watchdogHandle_ powerConfig_ set_powerStats
         set_accumulatedActiveTime set_lastSleepTime set_lastWakeTime
         set_accumulatedSleepTime].
  rewrite ?app_nil_r, <- ?app_assoc. reflexivity.
Qed.

Lemma enterLightSleep_run (d : Z) (w : World) :
  initialized_ (this w) = true ->
  let v := clamped (powerConfig_ (this w)) d in
  enterLightSleep steady_clock_now d w =
  (true,
   mkWorld
     (afterLightSleep (steady_clock_now (clockReads w))
        (steady_clock_now (S (clockReads w))) (this w))
     (S (S (clockReads w))),
   (if armed (this w) then [EvWatchdogReset] else [])
   ++ [EvLightSleep v]
   ++ (if armed (this w) then [EvWatchdogReset] else [])).
Proof.
  intros Hinit. cbv zeta. unfold enterLightSleep.
  rewrite bind_get, Hinit. cbn [negb].
  etransitivity; [run |].
  cbv zeta. fold (clamped (powerConfig_ (this w)) d).
  unfold afterLightSleep, armed.
  cbn [this clockReads app watchdogHandle_ powerConfig_ set_powerStats
         set_accumulatedActiveTime set_lastSleepTime set_lastWakeTime
         set_accumulatedSleepTime].
  rewrite ?app_nil_r, <- ?app_assoc. reflexivity.
Qed.


(** *** Projections of the sleep traces *)

Lemma timerWakeups_app (t1 t2 : list event) :
  timerWakeups (t1 ++ t2) = timerWakeups t1 ++ timerWakeups t2.
Proof. unfold timerWakeups. apply flat_map_app. Qed.

Lemma lightSleeps_app (t1 t2 : list event) :
  lightSleeps (t1 ++ t2) = lightSleeps t1 ++ lightSleeps t2.
Proof. unfold lightSleeps. apply flat_map_app. Qed.

Lemma rails_app (t1 t2 : list event) :
  rails (t1 ++ t2) = rails t1 ++ rails t2.
Proof. unfold rails. apply flat_map_app. Qed.

Lemma enterDeepSleep_timerWakeups (d sources : Z) (w : World) :
  initialized_ (this w) = true ->
  timerWakeups (events (enterDeepSleep steady_clock_now d sources w)) =
  if Z.land sources WAKEUP_TIMER =? 0 then []
  else [clamped (powerConfig_ (this w)) d].
Proof.
  intros Hinit. rewrite (enterDeepSleep_run d sources w Hinit).
  cbv zeta. cbn [events snd].
  destruct (armed (this w)); destruct (Z.land sources WAKEUP_TIMER =? 0);
    reflexivity.
Qed.

Lemma enterDeepSleep_rails (d sources : Z) (w : World) :
  rails (events (enterDeepSleep steady_clock_now d sources w)) = [].
Proof.
  destruct (initialized_ (this w)) eqn:Hinit.
  - rewrite (enterDeepSleep_run d sources w Hinit).
    cbv zeta. cbn [events snd].
    destruct (armed (this w)); destruct (Z.land sources WAKEUP_TIMER =? 0);
      reflexivity.
  - destruct (uninitialized_noop steady_clock_now w d sources Hinit)
      as (_ & _ & -> & _).
    reflexivity.
Qed.

Lemma refreshDuty_frame (s : PowerManager) :
  initialized_ (refreshDuty s) = initialized_ s /\
  peripheralConfig_ (refreshDuty s) = peripheralConfig_ s /\
  powerConfig_ (refreshDuty s) = powerConfig_ s /\
  emergencyMode_ (refreshDuty s) = emergencyMode_ s /\
  watchdogHandle_ (refreshDuty s) = watchdogHandle_ s.
Proof.
  unfold refreshDuty. cbv zeta. destruct (_ >? 0); repeat split.
Qed.

Lemma afterDeepSleep_frame (v t1 t2 : Z) (s : PowerManager) :
  initialized_ (afterDeepSleep v t1 t2 s) = initialized_ s /\
  peripheralConfig_ (afterDeepSleep v t1 t2 s) = peripheralConfig_ s /\
  powerConfig_ (afterDeepSleep v t1 t2 s) = powerConfig_ s /\
  emergencyMode_ (afterDeepSleep v t1 t2 s) = emergencyMode_ s /\
  watchdogHandle_ (afterDeepSleep v t1 t2 s) = watchdogHandle_ s.
Proof.
  unfold afterDeepSleep, countWakeup. cbv zeta.
  repeat match goal with
         | |- context [refreshDuty ?x] =>
             let H := fresh in
             pose proof (refreshDuty_frame x) as H;
             destruct H as (-> & -> & -> & -> & ->)
         end.
  repeat split.
Qed.


Lemma refreshDuty_stats (s : PowerManager) :
  let p := powerStats_ s in
  let p' := powerStats_ (refreshDuty s) in
  sleepCycles p' = sleepCycles p /\ wakeupEvents p' = wakeupEvents p /\
  lastWakeupCause p' = lastWakeupCause p /\
  lastResetReason p' = lastResetReason p /\ bootTime p' = bootTime p /\
  averageSleepDuration p' = averageSleepDuration p /\
  accumulatedSleepTime_ (refreshDuty s) = accumulatedSleepTime_ s /\
  accumulatedActiveTime_ (refreshDuty s) = accumulatedActiveTime_ s /\
  lastSleepTime_ (refreshDuty s) = lastSleepTime_ s /\
  lastWakeTime_ (refreshDuty s) = lastWakeTime_ s.
Proof.
  unfold refreshDuty. cbv zeta. destruct (_ >? 0); repeat split.
Qed.

(** Reads the fields that [refreshDuty] leaves alone through it. *)
Ltac settle_duty :=
  repeat match goal with
         | |- context [refreshDuty ?x] =>
             let H := fresh in
             pose proof (refreshDuty_stats x) as H; cbv zeta in H;
             destruct H as (?H & ?H & ?H & ?H & ?H & ?H & ?H & ?H & ?H & ?H);
             progress
               (repeat match goal with
                       | E : _ (refreshDuty x) = _ |- _ => rewrite E; clear E
                       | E : _ (powerStats_ (refreshDuty x)) = _ |- _ =>
                           rewrite E; clear E
                       | E : _ (refreshDuty x) = _ |- _ => clear E
                       | E : _ (powerStats_ (refreshDuty x)) = _ |- _ =>
                           clear E
                       end)
         end.

(** X1.  On an initialised manager [enterDeepSleep] reaches the platform
    with exactly this sequence: the watchdog is fed if it is armed, the
    pins are configured for sleep, the timer wakeup is set if and only if
    the timer bit is among the wakeup sources, the deep sleep is entered,
    and after it the watchdog is fed again.  The timer and the sleep get
    the same, clamped duration. *)
Theorem enterDeepSleep_platform_calls (w : World) (d sources : Z) :
  initialized_ (this w) = true ->
  let v := clamped (powerConfig_ (this w)) d in
  let feed := if armed (this w) then [EvWatchdogReset] else [] in
  let trace := events (enterDeepSleep steady_clock_now d sources w) in
  trace =
    feed ++ [EvGPIOForSleep]
    ++ (if Z.land sources WAKEUP_TIMER =? 0 then [] else [EvTimerWakeup v])
    ++ [EvDeepSleep v] ++ feed /\
  timerWakeups trace = (if Z.land sources WAKEUP_TIMER =? 0 then [] else [v])
  /\ rails trace = [] /\ lightSleeps trace = [].
Proof.
  intros Hinit. cbv zeta.
  rewrite (enterDeepSleep_timerWakeups d sources w Hinit).
  rewrite enterDeepSleep_rails.
  rewrite (enterDeepSleep_run d sources w Hinit). cbv zeta. cbn [events snd].
  repeat split.
  destruct (armed (this w)); destruct (Z.land sources WAKEUP_TIMER =? 0);
    reflexivity.
Qed.

(** X2.  The bookkeeping of a deep sleep on an initialised manager: one
    more sleep cycle; two more wakeup events, since [enterDeepSleep] counts
    the wakeup itself and [restoreFromSleep] counts it again; the sleep
    time grows by the clamped request, not by a measured time; the active
    time grows by the time since the last wakeup; the two clock readings
    become the last sleep and wake times; the wakeup cause is recorded; the
    peripheral and power configurations and the emergency flag stay as they
    were.  The counters wrap as their types do. *)
Theorem enterDeepSleep_statistics (w : World) (d sources : Z) :
  initialized_ (this w) = true ->
  let s := this w in
  let r := enterDeepSleep steady_clock_now d sources w in
  let t1 := steady_clock_now (clockReads w) in
  let t2 := steady_clock_now (S (clockReads w)) in
  sleepCycles (powerStats_ (object r)) =
    uint32 (sleepCycles (powerStats_ s) + 1) /\
  wakeupEvents (powerStats_ (object r)) =
    uint32 (uint32 (wakeupEvents (powerStats_ s) + 1) + 1) /\
  accumulatedSleepTime_ (object r) =
    uint64 (accumulatedSleepTime_ s + clamped (powerConfig_ s) d) /\
  accumulatedActiveTime_ (object r) =
    uint64 (accumulatedActiveTime_ s + (t1 - lastWakeTime_ s)) /\
  lastSleepTime_ (object r) = t1 /\ lastWakeTime_ (object r) = t2 /\
  lastWakeupCause (powerStats_ (object r)) = "Timer wakeup" /\
  clockReads (world r) = S (S (clockReads w)) /\
  peripheralConfig_ (object r) = peripheralConfig_ s /\
  powerConfig_ (object r) = powerConfig_ s /\
  emergencyMode_ (object r) = emergencyMode_ s.
Proof.
  intros Hinit. cbv zeta.
  rewrite (enterDeepSleep_run d sources w Hinit). cbv zeta.
  unfold object. cbn [world fst snd this clockReads].
  destruct (afterDeepSleep_frame (clamped (powerConfig_ (this w)) d)
              (steady_clock_now (clockReads w))
              (steady_clock_now (S (clockReads w))) (this w))
    as (_ & Hp & Hc & He & _).
  rewrite Hp, Hc, He.
  unfold afterDeepSleep, countWakeup. cbv zeta.
  settle_duty.
  repeat split.
Qed.

(** X3.  In the build without [ESP32_PLATFORM], where the platform's light
    sleep always reports a normal wakeup, a light sleep on an initialised
    manager returns [true]; with [ESP32_PLATFORM] the result is the
    platform's.  The call reaches the platform with one light sleep of the
    clamped duration between two feedings of the armed watchdog, and never
    with a deep sleep.  It counts one wakeup event and no sleep cycle, and
    adds to the sleep time the time measured between the two clock
    readings, not the request. *)
Theorem enterLightSleep_statistics (w : World) (d : Z) :
  initialized_ (this w) = true ->
  let s := this w in
  let r := enterLightSleep steady_clock_now d w in
  let t1 := steady_clock_now (clockReads w) in
  let t2 := steady_clock_now (S (clockReads w)) in
  let feed := if armed s then [EvWatchdogReset] else [] in
  result r = true /\
  events r = feed ++ [EvLightSleep (clamped (powerConfig_ s) d)] ++ feed /\
  deepSleeps (events r) = [] /\
  sleepCycles (powerStats_ (object r)) = sleepCycles (powerStats_ s) /\
  wakeupEvents (powerStats_ (object r)) =
    uint32 (wakeupEvents (powerStats_ s) + 1) /\
  accumulatedSleepTime_ (object r) =
    uint64 (accumulatedSleepTime_ s + (t2 - t1)) /\
  accumulatedActiveTime_ (object r) =
    uint64 (accumulatedActiveTime_ s + (t1 - lastWakeTime_ s)) /\
  lastWakeupCause (powerStats_ (object r)) = lastWakeupCause (powerStats_ s)
  /\ peripheralConfig_ (object r) = peripheralConfig_ s.
Proof.
  intros Hinit. cbv zeta.
  rewrite (enterLightSleep_run d w Hinit). cbv zeta.
  unfold object. cbn [result events world fst snd this clockReads].
  refine (conj eq_refl (conj eq_refl (conj _ _))).
  { destruct (armed (this w)); reflexivity. }
  unfold afterLightSleep, countWakeup. cbv zeta.
  assert (Hp : forall x, peripheralConfig_ (refreshDuty x)
                         = peripheralConfig_ x).
  { intros x. unfold refreshDuty. cbv zeta. destruct (_ >? 0); reflexivity. }
  rewrite !Hp.
  settle_duty.
  repeat split.
Qed.


(** *** The statistics a caller reads *)

Lemma getPowerStats_silent (w : World) :
  this (world (getPowerStats steady_clock_now w)) = this w /\
  events (getPowerStats steady_clock_now w) = [].
Proof. split; reflexivity. Qed.

Lemma getPowerStats_totals (w : World) :
  let p := result (getPowerStats steady_clock_now w) in
  totalSleepTime p = accumulatedSleepTime_ (this w) /\
  totalActiveTime p = accumulatedActiveTime_ (this w) /\
  sleepCycles p = sleepCycles (powerStats_ (this w)) /\
  wakeupEvents p = wakeupEvents (powerStats_ (this w)).
Proof.
  cbv zeta.
  cbv [getPowerStats bind get now ret result world events fst snd this
         clockReads].
  cbn [totalActiveTime totalSleepTime sleepCycles with_totalActiveTime
         with_totalSleepTime].
  repeat match goal with |- context [if ?b then _ else _] => destruct b end;
    repeat split.
Qed.

Lemma getPowerStats_refreshed (s : PowerManager) (n : nat) :
  dutyCycle (result (getPowerStats steady_clock_now
                       (mkWorld (refreshDuty s) n))) =
  dutyCycle (powerStats_ (refreshDuty s)).
Proof.
  cbv [getPowerStats bind get now ret result world events fst snd this
         clockReads].
  cbn [totalActiveTime totalSleepTime sleepCycles with_totalActiveTime
         with_totalSleepTime].
  destruct (refreshDuty_stats s) as (_ & _ & _ & _ & _ & _ & Hs & Ha & _).
  rewrite Hs, Ha.
  assert (Hduty :
            forall p : PowerStats,
              totalActiveTime p = accumulatedActiveTime_ s ->
              totalSleepTime p = accumulatedSleepTime_ s ->
              dutyCycle p = dutyCycle (powerStats_ (refreshDuty s)) ->
              dutyCycle
                (if uint64 (totalActiveTime p + totalSleepTime p) >? 0 then
                   with_dutyCycle
                     (Float32.mul
                        (Float32.div (Float32.of_Z (totalActiveTime p))
                           (Float32.of_Z
                              (uint64 (totalActiveTime p + totalSleepTime p))))
                        hundred) p
                 else p) = dutyCycle (powerStats_ (refreshDuty s))).
  { intros p -> -> Hp. unfold refreshDuty in *. cbv zeta in *.
    destruct (uint64 (accumulatedActiveTime_ s + accumulatedSleepTime_ s)
              >? 0); [reflexivity | exact Hp]. }
  apply Hduty; destruct (_ >? 0); reflexivity.
Qed.

(** X4.  After a deep or a light sleep on an initialised manager, the
    duty cycle that [getPowerStats] computes is the one the sleep stored,
    its totals are the accumulated sleep and active times, and reading the
    statistics changes nothing in the object and reaches no platform
    call. *)
Theorem getPowerStats_after_sleep (w w' : World) (d sources : Z) :
  initialized_ (this w) = true ->
  w' = world (enterDeepSleep steady_clock_now d sources w) \/
  w' = world (enterLightSleep steady_clock_now d w) ->
  let r := getPowerStats steady_clock_now w' in
  dutyCycle (result r) = dutyCycle (powerStats_ (this w')) /\
  totalSleepTime (result r) = accumulatedSleepTime_ (this w') /\
  totalActiveTime (result r) = accumulatedActiveTime_ (this w') /\
  sleepCycles (result r) = sleepCycles (powerStats_ (this w')) /\
  wakeupEvents (result r) = wakeupEvents (powerStats_ (this w')) /\
  this (world r) = this w' /\ events r = [].
Proof.
  intros Hinit Hw'. cbv zeta.
  destruct (getPowerStats_totals w') as (Hs & Ha & Hc & He).
  refine (conj _ (conj Hs (conj Ha (conj Hc (conj He
            (getPowerStats_silent w')))))).
  destruct Hw' as [-> | ->].
  - rewrite (enterDeepSleep_run d sources w Hinit). cbv zeta.
    cbn [world fst snd this]. unfold afterDeepSleep. cbv zeta.
    apply getPowerStats_refreshed.
  - rewrite (enterLightSleep_run d w Hinit). cbv zeta.
    cbn [world fst snd this]. unfold afterLightSleep. cbv zeta.
    apply getPowerStats_refreshed.
Qed.


(** *** Switching the rails *)

Lemma configurePeripherals_run (c : PeripheralConfig) (w : World) :
  configurePeripherals c w =
  (tt, mkWorld (set_peripheralConfig c (this w)) (clockReads w),
   switched (peripheralConfig_ (this w)) c).
Proof.
  destruct w as [s n]. destruct s as [? i cur ? ? ? ? ? ? ? ? ? ? ?].
  cbn [this peripheralConfig_ clockReads].
  destruct c as [[] [] [] [] [] [] ? ?];
    destruct cur as [[] [] [] [] [] [] ? ?]; reflexivity.
Qed.




Lemma rails_switched_off (cur : PeripheralConfig) :
  rails (switched cur emergencyConfig) =
  configured cur ++ (if external5V cur then ["5V"] else []).
Proof. destruct cur as [[] [] [] [] [] [] ? ?]; reflexivity. Qed.

(** X6.  Entering emergency mode from normal operation sets the emergency
    flag and leaves everything off but the clock and the watchdog: the
    rails that were on are switched off in the order WiFi, Bluetooth,
    cellular, SD card, sensors, 5V supply.  An initialised manager then
    sleeps once, for the emergency duration as clamped by the configuration
    and with the timer wakeup set to the same; a manager that is not
    initialised does not sleep.  A second call does nothing at all. *)
Theorem enterEmergencyMode_effect (w : World) (reason again : string) :
  emergencyMode_ (this w) = false ->
  let s := this w in
  let r := enterEmergencyMode steady_clock_now reason w in
  emergencyMode_ (object r) = true /\
  peripheralConfig_ (object r) = emergencyConfig /\
  rails (events r) =
    configured (peripheralConfig_ s)
    ++ (if external5V (peripheralConfig_ s) then ["5V"] else []) /\
  deepSleeps (events r) =
    (if initialized_ s then
       [clamped (powerConfig_ s) EMERGENCY_SLEEP_DURATION]
     else []) /\
  timerWakeups (events r) = deepSleeps (events r) /\
  enterEmergencyMode steady_clock_now again (world r) = (tt, world r, []).
Proof.
  intros Hnormal. cbv zeta.
  assert (Hrun :
            exists w' t,
              enterEmergencyMode steady_clock_now reason w =
              (tt, w',
               [EvDelayMs 10]
               ++ switched (peripheralConfig_ (this w)) emergencyConfig ++ t)
              /\ enterDeepSleep steady_clock_now EMERGENCY_SLEEP_DURATION
                   WAKEUP_TIMER
                   (mkWorld
                      (set_peripheralConfig emergencyConfig
                         (set_emergencyMode true (this w))) (clockReads w))
                 = (tt, w', t)).
  { unfold enterEmergencyMode. rewrite bind_get, Hnormal, bind_modify.
    cbv zeta.
    destruct (enterDeepSleep steady_clock_now EMERGENCY_SLEEP_DURATION
                WAKEUP_TIMER
                (mkWorld
                   (set_peripheralConfig emergencyConfig
                      (set_emergencyMode true (this w))) (clockReads w)))
      as [[[] w'] t] eqn:Hsleep.
    exists w', t. split; [| reflexivity].
    eapply bind_eq; [reflexivity |].
    eapply bind_eq; [exact (configurePeripherals_run _ _) |].
    exact Hsleep. }
  destruct Hrun as (w' & t & -> & Hsleep).
  unfold object. cbn [events world fst snd].
  remember (mkWorld
              (set_peripheralConfig emergencyConfig
                 (set_emergencyMode true (this w))) (clockReads w))
    as w2 eqn:Ew2.
  assert (Hi2 : initialized_ (this w2) = initialized_ (this w))
    by (rewrite Ew2; reflexivity).
  assert (Hc2 : powerConfig_ (this w2) = powerConfig_ (this w))
    by (rewrite Ew2; reflexivity).
  assert (He2 : emergencyMode_ (this w2) = true)
    by (rewrite Ew2; reflexivity).
  assert (Hp2 : peripheralConfig_ (this w2) = emergencyConfig)
    by (rewrite Ew2; reflexivity).
  clear Ew2.
  assert (Hw' : emergencyMode_ (this w') = true /\
                peripheralConfig_ (this w') = emergencyConfig /\
                deepSleeps t =
                  (if initialized_ (this w) then
                     [clamped (powerConfig_ (this w))
                        EMERGENCY_SLEEP_DURATION]
                   else []) /\
                timerWakeups t = deepSleeps t /\ rails t = []).
  { pose proof (enterDeepSleep_rails EMERGENCY_SLEEP_DURATION WAKEUP_TIMER w2)
      as Hrails.
    rewrite Hsleep in Hrails. cbn [events snd] in Hrails.
    rewrite <- Hi2, <- Hc2.
    destruct (initialized_ (this w2)) eqn:Hinit2.
    - pose proof (enterDeepSleep_timerWakeups EMERGENCY_SLEEP_DURATION
                    WAKEUP_TIMER w2 Hinit2) as Htimer.
      pose proof (enterDeepSleep_run EMERGENCY_SLEEP_DURATION WAKEUP_TIMER
                    w2 Hinit2) as Hw.
      rewrite Hsleep in Htimer, Hw.
      cbn [events snd] in Htimer.
      cbv zeta in Hw.
      assert (Hdeep : deepSleeps t =
                      [clamped (powerConfig_ (this w2))
                         EMERGENCY_SLEEP_DURATION]).
      { injection Hw as _ ->.
        destruct (armed (this w2)); reflexivity. }
      injection Hw as Hw _.
      destruct (afterDeepSleep_frame
                  (clamped (powerConfig_ (this w2)) EMERGENCY_SLEEP_DURATION)
                  (steady_clock_now (clockReads w2))
                  (steady_clock_now (S (clockReads w2))) (this w2))
        as (_ & Hp & _ & He & _).
      rewrite Hw. cbn [this]. rewrite Hp, He, Htimer, Hdeep.
      repeat split; assumption.
    - destruct (uninitialized_noop steady_clock_now w2
                  EMERGENCY_SLEEP_DURATION WAKEUP_TIMER Hinit2)
        as (_ & _ & Hnoop & _).
      rewrite Hnoop in Hsleep. injection Hsleep as Hw Ht.
      rewrite <- Hw, <- Ht. repeat split; assumption. }
  destruct Hw' as (He & Hp & Hdeep & Htimer & Hrails).
  change ([EvDelayMs 10]
          ++ switched (peripheralConfig_ (this w)) emergencyConfig ++ t)
    with (EvDelayMs 10
          :: switched (peripheralConfig_ (this w)) emergencyConfig ++ t).
  refine (conj He (conj Hp (conj _ (conj _ (conj _ _))))).
  - change (rails (EvDelayMs 10 :: ?l)) with (rails l).
    rewrite rails_app, Hrails, app_nil_r. apply rails_switched_off.
  - change (deepSleeps (EvDelayMs 10 :: ?l)) with (deepSleeps l).
    rewrite deepSleeps_app, Hdeep.
    destruct (peripheralConfig_ (this w)) as [[] [] [] [] [] [] ? ?];
      reflexivity.
  - change (deepSleeps (EvDelayMs 10 :: ?l)) with (deepSleeps l).
    change (timerWakeups (EvDelayMs 10 :: ?l)) with (timerWakeups l).
    rewrite deepSleeps_app, timerWakeups_app, Htimer.
    destruct (peripheralConfig_ (this w)) as [[] [] [] [] [] [] ? ?];
      reflexivity.
  - unfold enterEmergencyMode. rewrite bind_get, He. reflexivity.
Qed.


(** *** Shutting down *)

Lemma disablePeripherals_run (w : World) :
  initialized_ (this w) = true ->
  let c := peripheralConfig_ (this w) in
  disablePeripherals w =
  (tt,
   mkWorld
     (set_peripheralConfig
        (mkPeripheralConfig false false false false false false (rtc c)
           (watchdog c)) (this w)) (clockReads w),
   map (fun p => EvPeripheralPower p false) (rev (configured c))
   ++ [Ev5VSupply false]).
Proof.
  destruct w as [s n]. destruct s as [? i c ? ? ? ? ? ? ? ? ? ? ?].
  cbn [this initialized_ peripheralConfig_ clockReads]. intros ->.
  destruct c as [[] [] [] [] [] ? ? ?]; reflexivity.
Qed.

Lemma disablePeripherals_calm (w : World) :
  deepSleeps (events (disablePeripherals w)) = [] /\
  timerWakeups (events (disablePeripherals w)) = [].
Proof.
  destruct (initialized_ (this w)) eqn:Hinit.
  - rewrite (disablePeripherals_run w Hinit). cbv zeta. cbn [events snd].
    destruct (peripheralConfig_ (this w)) as [[] [] [] [] [] ? ? ?];
      split; reflexivity.
  - destruct (uninitialized_noop steady_clock_now w 0 0 Hinit)
      as (_ & -> & _).
    split; reflexivity.
Qed.

Lemma disablePeripherals_frame (w : World) :
  let s' := this (world (disablePeripherals w)) in
  powerStats_ s' = powerStats_ (this w) /\
  accumulatedSleepTime_ s' = accumulatedSleepTime_ (this w) /\
  accumulatedActiveTime_ s' = accumulatedActiveTime_ (this w) /\
  emergencyMode_ s' = emergencyMode_ (this w) /\
  clockReads (world (disablePeripherals w)) = clockReads w.
Proof.
  destruct (initialized_ (this w)) eqn:Hinit.
  - rewrite (disablePeripherals_run w Hinit). repeat split.
  - destruct (uninitialized_noop steady_clock_now w 0 0 Hinit)
      as (_ & -> & _).
    repeat split.
Qed.

(** X7.  An emergency shutdown switches the rails off as
    [disablePeripherals] does, waits, and hands the platform one deep sleep
    of the largest 64-bit duration.  The duration is not clamped, no
    wakeup timer is set, the clock is not read and the sleep statistics
    stay as they were; on a manager that is not initialised the sleep is
    entered all the same, with no rail switched. *)
Theorem shutdown_emergency (w : World) :
  let down := disablePeripherals w in
  let r := shutdown steady_clock_now true w in
  events r =
    events down ++ [EvDelayMs 10; EvDelayMs 100; EvDeepSleep UINT64_MAX] /\
  world r = world down /\
  deepSleeps (events r) = [UINT64_MAX] /\
  timerWakeups (events r) = [] /\
  powerStats_ (object r) = powerStats_ (this w) /\
  accumulatedSleepTime_ (object r) = accumulatedSleepTime_ (this w) /\
  clockReads (world r) = clockReads w /\
  (initialized_ (this w) = false ->
   r = (tt, w, [EvDelayMs 10; EvDelayMs 100; EvDeepSleep UINT64_MAX])).
Proof.
  cbv zeta.
  assert (Hrun : shutdown steady_clock_now true w =
                 (tt, world (disablePeripherals w),
                  events (disablePeripherals w)
                  ++ [EvDelayMs 10; EvDelayMs 100; EvDeepSleep UINT64_MAX])).
  { unfold shutdown, executeEmergencyShutdown.
    eapply bind_eq; [| reflexivity].
    destruct (disablePeripherals w) as [[[] w1] t1]. reflexivity. }
  rewrite Hrun. unfold object. cbn [events world fst snd].
  destruct (disablePeripherals_calm w) as (Hdeep & Htimer).
  destruct (disablePeripherals_frame w) as (Hs & Ha & _ & _ & Hn).
  rewrite deepSleeps_app, timerWakeups_app, Hdeep, Htimer.
  refine (conj eq_refl (conj eq_refl (conj eq_refl (conj eq_refl
            (conj Hs (conj Ha (conj Hn _))))))).
  intros Hinit.
  destruct (uninitialized_noop steady_clock_now w 0 0 Hinit) as (_ & -> & _).
  reflexivity.
Qed.

(** X8.  A normal shutdown of an initialised manager switches the rails
    off as [disablePeripherals] does and then goes through
    [enterDeepSleep] with no wakeup source: no timer is set, the sleep is
    counted in the statistics, and the duration handed to the platform is
    not the requested largest 64-bit value but the configured maximum.  On
    a manager that is not initialised a normal shutdown does nothing. *)
Theorem shutdown_normal (w : World) :
  let s := this w in
  let cfg := powerConfig_ s in
  let down := disablePeripherals w in
  let r := shutdown steady_clock_now false w in
  let feed := if armed s then [EvWatchdogReset] else [] in
  (initialized_ s = true ->
   events r =
     events down
     ++ feed ++ [EvGPIOForSleep; EvDeepSleep (clamped cfg UINT64_MAX)]
     ++ feed /\
   timerWakeups (events r) = [] /\
   configured (peripheralConfig_ (object r)) = [] /\
   external5V (peripheralConfig_ (object r)) = false /\
   sleepCycles (powerStats_ (object r)) =
     uint32 (sleepCycles (powerStats_ s) + 1)) /\
  (initialized_ s = true ->
   minSleepDuration cfg <= UINT64_MAX -> maxSleepDuration cfg <= UINT64_MAX ->
   deepSleeps (events r) = [maxSleepDuration cfg]) /\
  (initialized_ s = false -> r = (tt, w, [])).
Proof.
  cbv zeta.
  assert (Hrun :
            initialized_ (this w) = true ->
            let c := peripheralConfig_ (this w) in
            let w1 :=
              mkWorld
                (set_peripheralConfig
                   (mkPeripheralConfig false false false false false false
                      (rtc c) (watchdog c)) (this w)) (clockReads w) in
            shutdown steady_clock_now false w =
            (tt,
             world (enterDeepSleep steady_clock_now UINT64_MAX 0 w1),
             events (disablePeripherals w)
             ++ events (enterDeepSleep steady_clock_now UINT64_MAX 0 w1))).
  { intros Hinit. cbv zeta. unfold shutdown, configureGPIOHolds.
    rewrite (disablePeripherals_run w Hinit). cbv zeta. cbn [events snd].
    eapply bind_eq; [apply (disablePeripherals_run w Hinit) |].
    cbv zeta. rewrite (bind_silent (ret tt)) by reflexivity.
    cbn [result world fst snd ret].
    match goal with
    | |- ?m = _ => destruct m as [[[] w2] t2]
    end.
    reflexivity. }
  refine (conj _ (conj _ _)).
  - intros Hinit. rewrite (Hrun Hinit). cbv zeta. unfold object.
    cbn [events world fst snd].
    set (w1 := mkWorld _ _).
    assert (Hinit1 : initialized_ (this w1) = true) by exact Hinit.
    destruct (disablePeripherals_calm w) as (_ & Htimer).
    rewrite timerWakeups_app, Htimer.
    rewrite (enterDeepSleep_timerWakeups UINT64_MAX 0 w1 Hinit1).
    destruct (afterDeepSleep_frame
                (clamped (powerConfig_ (this w1)) UINT64_MAX)
                (steady_clock_now (clockReads w1))
                (steady_clock_now (S (clockReads w1))) (this w1))
      as (_ & Hp & _).
    rewrite (enterDeepSleep_run UINT64_MAX 0 w1 Hinit1). cbv zeta.
    cbn [events world fst snd this]. rewrite Hp.
    refine (conj _ (conj eq_refl (conj eq_refl (conj eq_refl _)))).
    + reflexivity.
    + unfold afterDeepSleep, countWakeup. cbv zeta. settle_duty.
      reflexivity.
  - intros Hinit Hmin Hmax. rewrite (Hrun Hinit). cbv zeta.
    cbn [events snd].
    set (w1 := mkWorld _ _).
    assert (Hinit1 : initialized_ (this w1) = true) by exact Hinit.
    destruct (disablePeripherals_calm w) as (Hdeep & _).
    rewrite deepSleeps_app, Hdeep.
    rewrite (enterDeepSleep_sleeps steady_clock_now UINT64_MAX 0 w1 Hinit1).
    rewrite validateSleepDuration_run. cbv zeta. cbn [result fst app].
    change (powerConfig_ (this w1)) with (powerConfig_ (this w)).
    destruct (Z.ltb_spec UINT64_MAX (minSleepDuration (powerConfig_ (this w))));
      [lia |].
    destruct (Z.gtb_spec UINT64_MAX (maxSleepDuration (powerConfig_ (this w))));
      [reflexivity |].
    f_equal. lia.
  - intros Hinit. unfold shutdown, configureGPIOHolds.
    destruct (uninitialized_noop steady_clock_now w UINT64_MAX 0 Hinit)
      as (_ & Hdown & Hsleep & _).
    eapply (bind_eq _ _ w w w tt tt [] []); [exact Hdown |].
    eapply (bind_eq _ _ w w w tt tt [] []); [reflexivity | exact Hsleep].
Qed.

(** X9.  In the build without [ESP32_PLATFORM], where
    [controlPeripheralPower] records every switch in the configuration,
    [disablePeripherals] clears the flag of every peripheral it switches
    off, so that [enablePeripherals] afterwards switches on the 5V supply
    and nothing else: what was powered before the two calls is not powered
    again.  With [ESP32_PLATFORM] the flags of WiFi, Bluetooth and cellular
    are not touched by the switch and stay set. *)
Theorem disablePeripherals_forgets (w : World) :
  initialized_ (this w) = true ->
  let c := peripheralConfig_ (this w) in
  let down := disablePeripherals w in
  let up := enablePeripherals (world down) in
  peripheralConfig_ (object down) =
    mkPeripheralConfig false false false false false false (rtc c)
      (watchdog c) /\
  events up = [Ev5VSupply true; EvDelayMs 1000] /\
  peripheralConfig_ (object up) =
    mkPeripheralConfig false false false false false true (rtc c)
      (watchdog c).
Proof.
  intros Hinit. cbv zeta. rewrite (disablePeripherals_run w Hinit).
  cbv zeta. unfold object. cbn [world fst snd this peripheralConfig_].
  destruct w as [s n]. destruct s as [? i c ? ? ? ? ? ? ? ? ? ? ?].
  cbn [this initialized_ peripheralConfig_ clockReads] in *. subst i.
  repeat split.
Qed.


(** *** Sequences of operations *)

Lemma performAll_app (ops ops' : list operation) (w : World) :
  world (performAll steady_clock_now (ops ++ ops') w) =
  world (performAll steady_clock_now ops'
           (world (performAll steady_clock_now ops w))).
Proof.
  revert w. induction ops as [| op ops IH]; intros w; [reflexivity |].
  cbn [performAll app]. rewrite !world_bind. apply IH.
Qed.

Lemma checkBatteryLevel_cases (p : float) (w : World) :
  let r := checkBatteryLevel steady_clock_now p w in
  world r = w \/
  world r =
    world (enterEmergencyMode steady_clock_now "Critical battery level" w) \/
  world r =
    world (configurePeripherals
             (with_bluetooth false
                (with_wifi false (peripheralConfig_ (this w)))) w).
Proof.
  cbv zeta.
  destruct (Float32.leb p (criticalBatteryThreshold (powerConfig_ (this w))))
    eqn:Hc.
  - destruct (emergencyShutdownEnabled (powerConfig_ (this w))) eqn:He.
    + right; left.
      rewrite (checkBatteryLevel_critical_shutdown steady_clock_now p w Hc He).
      reflexivity.
    + left.
      rewrite (checkBatteryLevel_critical_continue steady_clock_now p w Hc He).
      reflexivity.
  - destruct (Float32.leb p (lowBatteryThreshold (powerConfig_ (this w))))
      eqn:Hl.
    + right; right.
      rewrite (checkBatteryLevel_low steady_clock_now p w Hc Hl).
      reflexivity.
    + left.
      rewrite (checkBatteryLevel_normal steady_clock_now p w Hc Hl).
      reflexivity.
Qed.

Lemma keepsEmergency_preserves {A} (m : M A) :
  preserves emergencyMode_ m -> keepsEmergency m.
Proof. intros H w Hw. rewrite H. exact Hw. Qed.

Lemma perform_keepsEmergency (op : operation) :
  keepsEmergency (perform steady_clock_now op).
Proof.
  destruct op; cbn [perform];
    try (apply keepsEmergency_preserves; unfold_all; solve [step]).
  - (* checkBatteryLevel *)
    intros w Hw. unfold call. rewrite world_bind. cbn [ret world fst snd].
    destruct (checkBatteryLevel_cases batteryPercent w) as [-> | [-> | ->]].
    + exact Hw.
    + apply (enterEmergencyMode_sets steady_clock_now).
    + rewrite configurePeripherals_run. exact Hw.
  - (* enterEmergencyMode *)
    intros w _. apply (enterEmergencyMode_sets steady_clock_now).
Qed.

Lemma performHealthCheck_run (w : World) :
  performHealthCheck w = (negb (emergencyMode_ (this w)), w, []).
Proof.
  unfold performHealthCheck, getFreeHeap, is5VSupplyEnabled.
  cbv [bind get ret platformGetMemoryInfo fst].
  destruct (external5V (peripheralConfig_ (this w)));
    destruct (emergencyMode_ (this w)); reflexivity.
Qed.

(** X10.  Emergency mode is never left: whatever operations a caller
    performs on a manager that is in emergency mode, in whatever order, it
    is in emergency mode afterwards, and the health check fails.  The
    health check reports the emergency flag and nothing else: in this build
    its memory figure is fixed and its 5V test compares the flag with
    itself. *)
Theorem emergency_mode_is_permanent (ops : list operation) (w : World) :
  emergencyMode_ (this w) = true ->
  let w' := world (performAll steady_clock_now ops w) in
  emergencyMode_ (this w') = true /\
  performHealthCheck w' = (false, w', []) /\
  (forall w0, performHealthCheck w0 = (negb (emergencyMode_ (this w0)), w0, [])).
Proof.
  intros Hw. cbv zeta.
  assert (Hkeep : emergencyMode_
                    (this (world (performAll steady_clock_now ops w)))
                  = true).
  { revert w Hw. induction ops as [| op ops IH]; intros w Hw; [exact Hw |].
    cbn [performAll]. rewrite world_bind. apply IH.
    apply perform_keepsEmergency. exact Hw. }
  refine (conj Hkeep (conj _ performHealthCheck_run)).
  rewrite performHealthCheck_run, Hkeep. reflexivity.
Qed.

Lemma within_refl (c : PeripheralConfig) : within c c = true.
Proof. destruct c as [[] [] [] [] [] ? ? ?]; reflexivity. Qed.

Lemma within_trans (a b c : PeripheralConfig) :
  within a b = true -> within b c = true -> within a c = true.
Proof.
  unfold within, downstream. cbn [forallb snd].
  rewrite !andb_true_iff.
  intros (H1 & H2 & H3 & H4 & H5 & _) (K1 & K2 & K3 & K4 & K5 & _).
  repeat split;
    match goal with
    | H : implb ?x ?y = true, K : implb ?y ?z = true |- implb ?x ?z = true =>
        destruct x; destruct y; destruct z;
        first [reflexivity | discriminate H | discriminate K]
    end.
Qed.

Lemma shrinks_preserves {A} (m : M A) :
  preserves peripheralConfig_ m -> shrinks m.
Proof. intros H w. rewrite H. apply within_refl. Qed.

Lemma shrinks_bind {A B} (m : M A) (k : A -> M B) :
  shrinks m -> (forall a, shrinks (k a)) -> shrinks (bind m k).
Proof.
  intros Hm Hk w. rewrite world_bind.
  eapply within_trans; [apply Hk | apply Hm].
Qed.

Lemma enablePeripherals_shrinks : shrinks enablePeripherals.
Proof.
  intros w. destruct w as [s n]. destruct s as [? [] c ? ? ? ? ? ? ? ? ? ? ?];
    destruct c as [[] [] [] [] [] ? ? ?]; reflexivity.
Qed.

Lemma disablePeripherals_shrinks : shrinks disablePeripherals.
Proof.
  intros w. destruct w as [s n]. destruct s as [? [] c ? ? ? ? ? ? ? ? ? ? ?];
    destruct c as [[] [] [] [] [] ? ? ?]; reflexivity.
Qed.

Lemma set5VSupply_shrinks (b : bool) : shrinks (set5VSupply b).
Proof.
  intros w. destruct w as [s n]. destruct s as [? ? c ? ? ? ? ? ? ? ? ? ? ?];
    destruct c as [[] [] [] [] [] ? ? ?]; reflexivity.
Qed.

Lemma enterDeepSleep_peripheralConfig (d sources : Z) :
  preserves peripheralConfig_ (enterDeepSleep steady_clock_now d sources).
Proof. unfold_all. step. Qed.

Lemma enterEmergencyMode_shrinks (reason : string) :
  shrinks (enterEmergencyMode steady_clock_now reason).
Proof.
  intros w. unfold enterEmergencyMode. rewrite bind_get.
  destruct (emergencyMode_ (this w)); [apply within_refl |].
  rewrite bind_modify. cbv zeta. rewrite !world_bind.
  rewrite enterDeepSleep_peripheralConfig.
  cbn [logCriticalPowerEvent emit result world fst snd].
  rewrite configurePeripherals_run. cbn [world fst snd this peripheralConfig_
                                           set_peripheralConfig].
  destruct (peripheralConfig_ (this w)) as [[] [] [] [] [] ? ? ?];
    reflexivity.
Qed.

Lemma perform_shrinks (op : operation) :
  isConfigurePeripherals op = false -> shrinks (perform steady_clock_now op).
Proof.
  destruct op; cbn [perform isConfigurePeripherals]; intros Hop;
    try discriminate Hop;
    try (apply shrinks_preserves; unfold_all; solve [step]).
  - apply enablePeripherals_shrinks.
  - apply disablePeripherals_shrinks.
  - apply set5VSupply_shrinks.
  - (* checkBatteryLevel *)
    intros w. unfold call. rewrite world_bind. cbn [ret world fst snd].
    destruct (checkBatteryLevel_cases batteryPercent w) as [-> | [-> | ->]].
    + apply within_refl.
    + apply enterEmergencyMode_shrinks.
    + rewrite configurePeripherals_run.
      cbn [world fst snd this peripheralConfig_ set_peripheralConfig].
      destruct (peripheralConfig_ (this w)) as [[] [] [] [] [] ? ? ?];
        reflexivity.
  - apply enterEmergencyMode_shrinks.
  - (* shutdown *)
    unfold shutdown, executeEmergencyShutdown. destruct emergency.
    + apply shrinks_bind; [apply disablePeripherals_shrinks | intros _].
      apply shrinks_preserves. unfold_all. step.
    + apply shrinks_bind; [apply disablePeripherals_shrinks | intros _].
      apply shrinks_preserves. unfold_all. step.
Qed.

(** X11.  Only [configurePeripherals] marks a peripheral as powered.
    After any sequence of the other operations, every one of WiFi,
    Bluetooth, cellular, SD card and sensors that is marked was marked
    before the sequence; on a manager as the constructor leaves it none is
    marked, so that [enablePeripherals] then switches the 5V supply
    only. *)
Theorem only_configurePeripherals_marks (ops : list operation) (w : World) :
  forallb (fun op => negb (isConfigurePeripherals op)) ops = true ->
  let after := world (performAll steady_clock_now ops w) in
  within (peripheralConfig_ (this after)) (peripheralConfig_ (this w)) = true
  /\
  (forall p, In p (configured (peripheralConfig_ (this after))) ->
             In p (configured (peripheralConfig_ (this w)))) /\
  (configured (peripheralConfig_ (this w)) = [] ->
   configured (peripheralConfig_ (this after)) = [] /\
   (initialized_ (this after) = true ->
    events (enablePeripherals after) = [Ev5VSupply true; EvDelayMs 1000])).
Proof.
  intros Hops. cbv zeta.
  assert (Hwithin :
            within
              (peripheralConfig_
                 (this (world (performAll steady_clock_now ops w))))
              (peripheralConfig_ (this w)) = true).
  { revert w. induction ops as [| op ops IH]; intros w;
      [apply within_refl |].
    cbn [forallb] in Hops. apply andb_true_iff in Hops.
    destruct Hops as [Hop Hops].
    cbn [performAll]. rewrite world_bind.
    eapply within_trans; [apply (IH Hops) |].
    apply perform_shrinks. destruct (isConfigurePeripherals op);
      [discriminate Hop | reflexivity]. }
  set (after := world (performAll steady_clock_now ops w)) in *.
  clearbody after. clear Hops.
  refine (conj Hwithin (conj _ _)).
  - revert Hwithin.
    destruct (peripheralConfig_ (this after)) as [[] [] [] [] [] ? ? ?];
      destruct (peripheralConfig_ (this w)) as [[] [] [] [] [] ? ? ?];
      intros Hwithin p Hp;
      first [discriminate Hwithin | cbn in Hp |- *; tauto].
  - intros Hnone.
    assert (Hafter : configured (peripheralConfig_ (this after)) = []).
    { revert Hwithin Hnone.
      destruct (peripheralConfig_ (this after)) as [[] [] [] [] [] ? ? ?];
        destruct (peripheralConfig_ (this w)) as [[] [] [] [] [] ? ? ?];
        intros Hwithin Hnone;
        first [discriminate Hwithin | discriminate Hnone | reflexivity]. }
    split; [exact Hafter |].
    intros Hinit.
    rewrite (enablePeripherals_events after Hinit), Hafter. reflexivity.
Qed.


(** *** The watchdog and initialisation *)

(** X12.  In the build without [ESP32_PLATFORM], where starting and
    stopping the watchdog cannot fail: [configureWatchdog] stores the
    timeout and succeeds.  A timeout of zero disarms the watchdog: the
    watchdog is not started, feeding it afterwards does nothing and
    [enableWatchdog] fails.  Any other timeout starts the watchdog with it,
    feeding it afterwards reaches the platform and [enableWatchdog]
    succeeds.  The sleep durations and the battery thresholds are left as
    they were.  With [ESP32_PLATFORM] the platform may refuse to start or
    stop the watchdog, and the calls then return [false]. *)
Theorem configureWatchdog_arms (w : World) (t : Z) :
  0 <= t ->
  let r := configureWatchdog t w in
  result r = true /\
  watchdogTimeoutMs (powerConfig_ (object r)) = t /\
  armed (object r) = negb (t =? 0) /\
  events r = (if t =? 0 then [] else [EvWatchdogInit t]) /\
  resetWatchdog (world r) =
    (tt, world r, if t =? 0 then [] else [EvWatchdogReset]) /\
  result (enableWatchdog (world r)) = negb (t =? 0) /\
  limits (object r) = limits (this w).
Proof.
  intros Ht. cbv zeta.
  assert (Hr : configureWatchdog t w =
               (true,
                mkWorld
                  (set_watchdogHandle (negb (t =? 0))
                     (set_powerConfig
                        (with_watchdogTimeoutMs t (powerConfig_ (this w)))
                        (this w))) (clockReads w),
                if t =? 0 then [] else [EvWatchdogInit t])).
  { unfold configureWatchdog. rewrite bind_modify.
    destruct (t =? 0); reflexivity. }
  rewrite Hr, resetWatchdog_run.
  unfold object, armed, enableWatchdog, limits.
  rewrite bind_get.
  cbn [result world events fst snd this watchdogHandle_ powerConfig_
         watchdogTimeoutMs set_watchdogHandle set_powerConfig
         with_watchdogTimeoutMs minSleepDuration maxSleepDuration
         criticalBatteryThreshold lowBatteryThreshold].
  destruct (Z.eqb_spec t 0) as [E | E];
    destruct (Z.gtb_spec t 0) as [G | G]; try lia; repeat split.
Qed.

(** X13.  In the build without [ESP32_PLATFORM], where the platform's
    initialisation cannot fail, no pin is configured and the reset reason
    is power-on: [initialize] returns [true] and leaves the manager
    initialised; on an initialised manager it does nothing at all, so a
    second call neither restarts the watchdog nor overwrites the boot
    time.  The first call records the reset reason and the boot time,
    starts the watchdog if and only if a timeout is configured, switches
    no rail and keeps the peripheral configuration and the limits.  With
    [ESP32_PLATFORM] the first call can fail and return [false]. *)
Theorem initialize_once (w : World) (epochSeconds later : Z) :
  let s := this w in
  let t := watchdogTimeoutMs (powerConfig_ s) in
  let r := initialize epochSeconds w in
  result r = true /\
  initialized_ (object r) = true /\
  initialize later (world r) = (true, world r, []) /\
  (initialized_ s = false ->
   events r = (if t >? 0 then [EvWatchdogInit t] else []) /\
   armed (object r) = (t >? 0) /\
   bootTime (powerStats_ (object r)) = epochSeconds /\
   lastResetReason (powerStats_ (object r)) = "Power-on reset" /\
   peripheralConfig_ (object r) = peripheralConfig_ s /\
   limits (object r) = limits s /\
   emergencyMode_ (object r) = emergencyMode_ s).
Proof.
  cbv zeta.
  assert (Hrun :
            initialized_ (this w) = false ->
            let t := watchdogTimeoutMs (powerConfig_ (this w)) in
            let s1 :=
              set_powerStats
                (with_lastResetReason "Power-on reset" (powerStats_ (this w)))
                (this w) in
            let s2 :=
              if t >? 0 then
                set_watchdogHandle true
                  (set_powerConfig
                     (with_watchdogTimeoutMs t (powerConfig_ s1)) s1)
              else s1 in
            initialize epochSeconds w =
            (true,
             mkWorld
               (set_initialized true
                  (set_powerStats
                     (with_bootTime epochSeconds (powerStats_ s2)) s2))
               (clockReads w),
             if t >? 0 then [EvWatchdogInit t] else [])).
  { intros Hinit. cbv zeta. unfold initialize.
    rewrite bind_get, Hinit. unfold getResetReason.
    rewrite (bind_silent (ret POWER_ON)) by reflexivity.
    cbn [result world ret fst snd resetReasonToString].
    rewrite bind_modify.
    rewrite (bind_silent (ret tt)) by reflexivity.
    cbn [result world ret fst snd].
    rewrite bind_get.
    cbn [this powerConfig_ set_powerStats].
    destruct (Z.gtb_spec (watchdogTimeoutMs (powerConfig_ (this w))) 0)
      as [Hpos | Hle].
    - unfold when, call, configureWatchdog, platformInitializeWatchdog.
      destruct (Z.eqb_spec (watchdogTimeoutMs (powerConfig_ (this w))) 0)
        as [E | _]; [lia |].
      reflexivity.
    - reflexivity. }
  destruct (initialized_ (this w)) eqn:Hinit.
  - assert (Hnoop : forall e, initialize e w = (true, w, [])).
    { intros e. unfold initialize. rewrite bind_get, Hinit. reflexivity. }
    rewrite (Hnoop epochSeconds). unfold object. cbn [result world fst snd].
    rewrite (Hnoop later).
    refine (conj eq_refl (conj Hinit (conj eq_refl _))).
    intros H. discriminate H.
  - rewrite (Hrun eq_refl). cbv zeta. unfold object, armed, limits.
    cbn [result world events fst snd this].
    refine (conj eq_refl (conj eq_refl (conj eq_refl _))).
    intros _.
    destruct (watchdogTimeoutMs (powerConfig_ (this w)) >? 0) eqn:Hpos;
      cbn [watchdogHandle_ powerConfig_ watchdogTimeoutMs set_initialized
             set_powerStats set_watchdogHandle set_powerConfig
             with_watchdogTimeoutMs andb];
      rewrite ?Hpos, ?andb_false_r; repeat split.
Qed.

End PowerManagerMore.

Lemma enterDeepSleep_platform_calls_witness :
  PowerManager.initialized_ (PowerManager.this Fixtures.booted) = true /\
  PowerManager.events
    (PowerManager.enterDeepSleep Fixtures.tickClock 5 1 Fixtures.booted) =
  [PowerManager.EvWatchdogReset; PowerManager.EvGPIOForSleep;
   PowerManager.EvTimerWakeup 1000000; PowerManager.EvDeepSleep 1000000;
   PowerManager.EvWatchdogReset] /\
  PowerManager.timerWakeups
    (PowerManager.events
       (PowerManager.enterDeepSleep Fixtures.tickClock 5 0 Fixtures.booted))
  = [].
Proof.
  assert (Hi : PowerManager.initialized_ (PowerManager.this Fixtures.booted)
               = true) by reflexivity.
  split; [exact Hi | split].
  - destruct (enterDeepSleep_platform_calls Fixtures.tickClock
                Fixtures.booted 5 1 Hi) as (H & _).
    rewrite H. reflexivity.
  - destruct (enterDeepSleep_platform_calls Fixtures.tickClock
                Fixtures.booted 5 0 Hi) as (_ & H & _).
    rewrite H. reflexivity.
Defined.

Lemma enterDeepSleep_statistics_witness :
  let r :=
    PowerManager.enterDeepSleep Fixtures.tickClock 5 1 Fixtures.booted in
  PowerManager.initialized_ (PowerManager.this Fixtures.booted) = true /\
  PowerManager.sleepCycles (PowerManager.powerStats_ (PowerManager.object r))
  = 1 /\
  PowerManager.wakeupEvents (PowerManager.powerStats_ (PowerManager.object r))
  = 2 /\
  PowerManager.accumulatedSleepTime_ (PowerManager.object r) = 1000000 /\
  PowerManager.accumulatedActiveTime_ (PowerManager.object r) = 1000.
Proof.
  cbv zeta.
  assert (Hi : PowerManager.initialized_ (PowerManager.this Fixtures.booted)
               = true) by reflexivity.
  destruct (enterDeepSleep_statistics Fixtures.tickClock Fixtures.booted 5 1
              Hi) as (Hc & He & Hs & Ha & _).
  rewrite Hc, He, Hs, Ha. repeat split.
Defined.

Lemma enterLightSleep_statistics_witness :
  let r := PowerManager.enterLightSleep Fixtures.tickClock 5 Fixtures.booted in
  PowerManager.initialized_ (PowerManager.this Fixtures.booted) = true /\
  PowerManager.result r = true /\
  PowerManager.lightSleeps (PowerManager.events r) = [1000000] /\
  PowerManager.sleepCycles (PowerManager.powerStats_ (PowerManager.object r))
  = 0 /\
  PowerManager.wakeupEvents (PowerManager.powerStats_ (PowerManager.object r))
  = 1 /\
  PowerManager.accumulatedSleepTime_ (PowerManager.object r) = 1000.
Proof.
  cbv zeta.
  assert (Hi : PowerManager.initialized_ (PowerManager.this Fixtures.booted)
               = true) by reflexivity.
  destruct (enterLightSleep_statistics Fixtures.tickClock Fixtures.booted 5
              Hi) as (Hr & Ht & _ & Hc & He & Hs & _).
  rewrite Hr, Ht, Hc, He, Hs. repeat split.
Defined.

Lemma getPowerStats_after_sleep_witness :
  let w' :=
    PowerManager.world
      (PowerManager.enterDeepSleep Fixtures.tickClock 5 1 Fixtures.booted) in
  let p := PowerManager.result (PowerManager.getPowerStats Fixtures.tickClock w') in
  PowerManager.initialized_ (PowerManager.this Fixtures.booted) = true /\
  PowerManager.dutyCycle p =
    PowerManager.dutyCycle (PowerManager.powerStats_ (PowerManager.this w')) /\
  PowerManager.totalSleepTime p = 1000000 /\
  PowerManager.totalActiveTime p = 1000.
Proof.
  cbv zeta.
  assert (Hi : PowerManager.initialized_ (PowerManager.this Fixtures.booted)
               = true) by reflexivity.
  destruct (getPowerStats_after_sleep Fixtures.tickClock Fixtures.booted
              (PowerManager.world
                 (PowerManager.enterDeepSleep Fixtures.tickClock 5 1
                    Fixtures.booted)) 5 1 Hi (or_introl eq_refl))
    as (Hd & Hs & Ha & _).
  rewrite Hd, Hs, Ha. repeat split.
Defined.

Lemma enterEmergencyMode_effect_witness :
  let r :=
    PowerManager.enterEmergencyMode Fixtures.tickClock "Critical battery level"
      Fixtures.radiosOn in
  PowerManager.emergencyMode_ (PowerManager.this Fixtures.radiosOn) = false /\
  PowerManager.emergencyMode_ (PowerManager.object r) = true /\
  PowerManager.rails (PowerManager.events r) = ["wifi"; "bluetooth"; "sdcard"]
  /\ PowerManager.deepSleeps (PowerManager.events r) = [3600000000].
Proof.
  cbv zeta.
  assert (Hn : PowerManager.emergencyMode_
                 (PowerManager.this Fixtures.radiosOn) = false)
    by reflexivity.
  destruct (enterEmergencyMode_effect Fixtures.tickClock Fixtures.radiosOn
              "Critical battery level" "again" Hn)
    as (He & _ & Hr & Hd & _).
  rewrite He, Hr, Hd. repeat split.
Defined.

Lemma shutdown_emergency_witness :
  let w := PowerManager.constructor Fixtures.tickClock 15 in
  PowerManager.initialized_ (PowerManager.this w) = false /\
  PowerManager.shutdown Fixtures.tickClock true w =
  (tt, w,
   [PowerManager.EvDelayMs 10; PowerManager.EvDelayMs 100;
    PowerManager.EvDeepSleep 18446744073709551615]).
Proof.
  cbv zeta.
  assert (Hi : PowerManager.initialized_
                 (PowerManager.this
                    (PowerManager.constructor Fixtures.tickClock 15)) = false)
    by reflexivity.
  split; [exact Hi |].
  destruct (shutdown_emergency Fixtures.tickClock
              (PowerManager.constructor Fixtures.tickClock 15))
    as (_ & _ & _ & _ & _ & _ & _ & H).
  exact (H Hi).
Defined.

Lemma shutdown_normal_witness :
  let w := Fixtures.radiosOn in
  let cfg := PowerManager.powerConfig_ (PowerManager.this w) in
  let fresh := PowerManager.constructor Fixtures.tickClock 15 in
  PowerManager.initialized_ (PowerManager.this w) = true /\
  PowerManager.minSleepDuration cfg <= PowerManager.UINT64_MAX /\
  PowerManager.maxSleepDuration cfg <= PowerManager.UINT64_MAX /\
  PowerManager.deepSleeps
    (PowerManager.events (PowerManager.shutdown Fixtures.tickClock false w))
  = [3600000000] /\
  PowerManager.timerWakeups
    (PowerManager.events (PowerManager.shutdown Fixtures.tickClock false w))
  = [] /\
  PowerManager.initialized_ (PowerManager.this fresh) = false /\
  PowerManager.shutdown Fixtures.tickClock false fresh = (tt, fresh, []).
Proof.
  cbv zeta.
  assert (Hi : PowerManager.initialized_ (PowerManager.this Fixtures.radiosOn)
               = true) by reflexivity.
  assert (Hmin : PowerManager.minSleepDuration
                   (PowerManager.powerConfig_
                      (PowerManager.this Fixtures.radiosOn))
                 <= PowerManager.UINT64_MAX) by (vm_compute; discriminate).
  assert (Hmax : PowerManager.maxSleepDuration
                   (PowerManager.powerConfig_
                      (PowerManager.this Fixtures.radiosOn))
                 <= PowerManager.UINT64_MAX) by (vm_compute; discriminate).
  assert (Hf : PowerManager.initialized_
                 (PowerManager.this
                    (PowerManager.constructor Fixtures.tickClock 15)) = false)
    by reflexivity.
  destruct (shutdown_normal Fixtures.tickClock Fixtures.radiosOn)
    as (Hon & Hdeep & _).
  destruct (Hon Hi) as (_ & Htimer & _).
  destruct (shutdown_normal Fixtures.tickClock
              (PowerManager.constructor Fixtures.tickClock 15))
    as (_ & _ & Hoff).
  rewrite (Hdeep Hi Hmin Hmax), Htimer.
  refine (conj Hi (conj Hmin (conj Hmax (conj eq_refl (conj eq_refl
            (conj Hf (Hoff Hf))))))).
Defined.

Lemma disablePeripherals_forgets_witness :
  let down := PowerManager.disablePeripherals Fixtures.radiosOn in
  PowerManager.initialized_ (PowerManager.this Fixtures.radiosOn) = true /\
  PowerManager.configured
    (PowerManager.peripheralConfig_ (PowerManager.this Fixtures.radiosOn))
  = ["wifi"; "bluetooth"; "sdcard"] /\
  PowerManager.events (PowerManager.enablePeripherals (PowerManager.world down))
  = [PowerManager.Ev5VSupply true; PowerManager.EvDelayMs 1000].
Proof.
  cbv zeta.
  assert (Hi : PowerManager.initialized_ (PowerManager.this Fixtures.radiosOn)
               = true) by reflexivity.
  destruct (disablePeripherals_forgets Fixtures.radiosOn Hi) as (_ & H & _).
  split; [exact Hi | split; [reflexivity | exact H]].
Defined.

Lemma emergency_mode_is_permanent_witness :
  let w :=
    PowerManager.world
      (PowerManager.enterEmergencyMode Fixtures.tickClock "Low voltage"
         Fixtures.radiosOn) in
  let ops :=
    [PowerManager.EnablePeripherals;
     PowerManager.ConfigurePeripherals
       (PowerManager.peripheralConfig_ (PowerManager.this Fixtures.radiosOn));
     PowerManager.EnterSleep 5;
     PowerManager.CheckBatteryLevel (Float32.of_Z 90)] in
  PowerManager.emergencyMode_ (PowerManager.this w) = true /\
  PowerManager.result
    (PowerManager.performHealthCheck
       (PowerManager.world (PowerManager.performAll Fixtures.tickClock ops w)))
  = false.
Proof.
  cbv zeta.
  match goal with
  | |- PowerManager.emergencyMode_ (PowerManager.this ?w) = true /\
       PowerManager.result
         (PowerManager.performHealthCheck
            (PowerManager.world
               (PowerManager.performAll _ ?ops _))) = false =>
      assert (Hw : PowerManager.emergencyMode_ (PowerManager.this w) = true)
        by (vm_compute; reflexivity);
      destruct (emergency_mode_is_permanent Fixtures.tickClock ops w Hw)
        as (_ & H & _)
  end.
  split; [exact Hw |]. rewrite H. reflexivity.
Defined.

Lemma only_configurePeripherals_marks_witness :
  let w := PowerManager.constructor Fixtures.tickClock 15 in
  let ops :=
    [PowerManager.Initialize 1700000000; PowerManager.EnablePeripherals;
     PowerManager.EnterSleep 5; PowerManager.DisablePeripherals;
     PowerManager.CheckBatteryLevel (Float32.of_Z 10)] in
  let after :=
    PowerManager.world (PowerManager.performAll Fixtures.tickClock ops w) in
  forallb (fun op => negb (PowerManager.isConfigurePeripherals op)) ops = true
  /\
  PowerManager.configured
    (PowerManager.peripheralConfig_ (PowerManager.this w)) = [] /\
  PowerManager.initialized_ (PowerManager.this after) = true /\
  PowerManager.events (PowerManager.enablePeripherals after) =
  [PowerManager.Ev5VSupply true; PowerManager.EvDelayMs 1000].
Proof.
  cbv zeta.
  match goal with
  | |- forallb _ ?ops = true /\
       PowerManager.configured
         (PowerManager.peripheralConfig_ (PowerManager.this ?w)) = [] /\
       PowerManager.initialized_ (PowerManager.this ?after) = true /\ _ =>
      assert (Hops : forallb
                       (fun op =>
                          negb (PowerManager.isConfigurePeripherals op)) ops
                     = true) by reflexivity;
      assert (Hnone : PowerManager.configured
                        (PowerManager.peripheralConfig_
                           (PowerManager.this w)) = []) by reflexivity;
      assert (Hinit : PowerManager.initialized_ (PowerManager.this after)
                      = true) by (vm_compute; reflexivity);
      destruct (only_configurePeripherals_marks Fixtures.tickClock ops w Hops)
        as (_ & _ & H)
  end.
  destruct (H Hnone) as (_ & Hup).
  exact (conj Hops (conj Hnone (conj Hinit (Hup Hinit)))).
Defined.

Lemma configureWatchdog_arms_witness :
  let off := PowerManager.configureWatchdog 0 Fixtures.booted in
  let on := PowerManager.configureWatchdog 5000 (PowerManager.world off) in
  0 <= 0 /\ 0 <= 5000 /\
  PowerManager.armed (PowerManager.this Fixtures.booted) = true /\
  PowerManager.armed (PowerManager.object off) = false /\
  PowerManager.result (PowerManager.enableWatchdog (PowerManager.world off))
  = false /\
  PowerManager.events (PowerManager.resetWatchdog (PowerManager.world off))
  = [] /\
  PowerManager.events on = [PowerManager.EvWatchdogInit 5000] /\
  PowerManager.armed (PowerManager.object on) = true /\
  PowerManager.result (PowerManager.enableWatchdog (PowerManager.world on))
  = true /\
  PowerManager.events (PowerManager.resetWatchdog (PowerManager.world on))
  = [PowerManager.EvWatchdogReset].
Proof.
  cbv zeta.
  assert (Ht : 0 <= 0) by lia.
  assert (Ht' : 0 <= 5000) by lia.
  destruct (configureWatchdog_arms Fixtures.booted 0 Ht)
    as (_ & _ & Ha & _ & Hr & He & _).
  destruct (configureWatchdog_arms
              (PowerManager.world
                 (PowerManager.configureWatchdog 0 Fixtures.booted)) 5000
              Ht') as (_ & _ & Ha' & Hev' & Hr' & He' & _).
  rewrite Ha, Hr, He, Ha', Hev', Hr', He'.
  refine (conj Ht (conj Ht' _)). repeat split.
Defined.

Lemma initialize_once_witness :
  let w := PowerManager.constructor Fixtures.tickClock 15 in
  let r := PowerManager.initialize 1700000000 w in
  PowerManager.initialized_ (PowerManager.this w) = false /\
  PowerManager.events r = [PowerManager.EvWatchdogInit 300000] /\
  PowerManager.bootTime (PowerManager.powerStats_ (PowerManager.object r))
  = 1700000000 /\
  PowerManager.initialize 1800000000 (PowerManager.world r)
  = (true, PowerManager.world r, []).
Proof.
  cbv zeta.
  assert (Hi : PowerManager.initialized_
                 (PowerManager.this
                    (PowerManager.constructor Fixtures.tickClock 15)) = false)
    by reflexivity.
  destruct (initialize_once
              (PowerManager.constructor Fixtures.tickClock 15) 1700000000
              1800000000) as (_ & _ & Hagain & Hfirst).
  destruct (Hfirst Hi) as (He & _ & Hb & _).
  rewrite He, Hb.
  exact (conj Hi (conj eq_refl (conj eq_refl Hagain))).
Defined.

(** ** RTCTimeManager: registers, start-up, calendar and text *)

Section ClockFacts.

Import Text RTCTimeManager.

(** *** Checking a property of small numbers by running through them *)

Lemma upFrom_In (lo x : Z) (n : nat) :
  lo <= x < lo + Z.of_nat n -> In x (upFrom lo n).
Proof.
  intros H. unfold upFrom. apply in_map_iff.
  exists (Z.to_nat (x - lo)). split; [lia |].
  apply in_seq. lia.
Qed.

Lemma checked_upFrom (P : Z -> bool) (lo : Z) (n : nat) :
  forallb P (upFrom lo n) = true ->
  forall x, lo <= x < lo + Z.of_nat n -> P x = true.
Proof.
  intros H x Hx. rewrite forallb_forall in H. apply H, upFrom_In, Hx.
Qed.

(** *** The clock registers *)

Lemma bcd_round_trip (n : Z) : 0 <= n < 100 -> bcdToDec (decToBcd n) = n.
Proof.
  intros H.
  apply Z.eqb_eq.
  apply (checked_upFrom (fun n => bcdToDec (decToBcd n) =? n) 0 100);
    [vm_compute; reflexivity | lia].
Qed.

Lemma bcd_byte (n : Z) : 0 <= n < 100 -> uint8 (decToBcd n) = decToBcd n.
Proof.
  intros H.
  apply Z.eqb_eq.
  apply (checked_upFrom (fun n => uint8 (decToBcd n) =? decToBcd n) 0 100);
    [vm_compute; reflexivity | lia].
Qed.

Lemma bcd_seconds (n : Z) :
  0 <= n < 80 -> Z.land (decToBcd n) 127 = decToBcd n.
Proof.
  intros H.
  apply Z.eqb_eq.
  apply (checked_upFrom (fun n => Z.land (decToBcd n) 127 =? decToBcd n)
           0 80);
    [vm_compute; reflexivity | lia].
Qed.

Lemma bcd_hours (n : Z) :
  0 <= n < 40 -> Z.land (decToBcd n) 63 = decToBcd n.
Proof.
  intros H.
  apply Z.eqb_eq.
  apply (checked_upFrom (fun n => Z.land (decToBcd n) 63 =? decToBcd n)
           0 40);
    [vm_compute; reflexivity | lia].
Qed.

Lemma bcd_digits (n : Z) :
  0 <= n < 100 ->
  Z.shiftr (decToBcd n) 4 = n / 10 /\ Z.land (decToBcd n) 15 = n mod 10.
Proof.
  intros H. split; apply Z.eqb_eq.
  - apply (checked_upFrom (fun n => Z.shiftr (decToBcd n) 4 =? n / 10)
             0 100);
      [vm_compute; reflexivity | lia].
  - apply (checked_upFrom (fun n => Z.land (decToBcd n) 15 =? n mod 10)
             0 100);
      [vm_compute; reflexivity | lia].
Qed.

Lemma readDateTime_written (t : RTCDateTime) :
  storable t ->
  readDateTime
    (Some
       [decToBcd (seconds t); decToBcd (minutes t); decToBcd (hours t);
        decToBcd (dayOfWeek t); decToBcd (date t); decToBcd (month t);
        decToBcd (year t)]) = (Some t, [I2CRead 0 7]).
Proof.
  intros (Hs & Hm & Hh & Hw & Hd & Hmo & Hy).
  assert (Hs' : 0 <= seconds t < 100) by lia.
  assert (Hh' : 0 <= hours t < 100) by lia.
  unfold readDateTime, readRegisters, byte. cbn [nth].
  rewrite !bcd_byte by assumption.
  rewrite bcd_seconds, bcd_hours by assumption.
  rewrite !bcd_round_trip by assumption.
  destruct t; reflexivity.
Qed.

(** X14.  What [writeDateTime] puts into the seven clock registers,
    [readDateTime] reads back as the same date and time, for every value
    the registers can hold in BCD: two decimal digits each, seconds below
    80 and hours below 40, since reading masks the clock-halt bit and the
    12-hour bits.  Each register holds the tens in its upper and the units
    in its lower four bits. *)
Theorem clock_registers_round_trip (t : RTCDateTime) (ack : bool) :
  storable t ->
  let data :=
    [decToBcd (seconds t); decToBcd (minutes t); decToBcd (hours t);
     decToBcd (dayOfWeek t); decToBcd (date t); decToBcd (month t);
     decToBcd (year t)] in
  writeDateTime ack t = (ack, [I2CWrite 0 data]) /\
  readDateTime (Some data) = (Some t, [I2CRead 0 7]) /\
  Forall (fun b => 0 <= b < 256) data /\
  Z.shiftr (decToBcd (seconds t)) 4 = seconds t / 10 /\
  Z.land (decToBcd (seconds t)) 15 = seconds t mod 10.
Proof.
  intros (Hs & Hm & Hh & Hw & Hd & Hmo & Hy). cbv zeta.
  split; [reflexivity |].
  assert (Hs' : 0 <= seconds t < 100) by lia.
  assert (Hh' : 0 <= hours t < 100) by lia.
  split; [| split].
  - apply readDateTime_written. repeat split; lia.
  - repeat constructor;
      match goal with
      | |- 0 <= decToBcd ?x =>
          rewrite <- (bcd_byte x) by assumption; apply uint8_range
      | |- decToBcd ?x < 256 =>
          rewrite <- (bcd_byte x) by assumption; apply uint8_range
      end.
  - apply bcd_digits, Hs'.
Qed.

(** X15.  The clock's RAM is reached through [readEEPROM] and
    [writeEEPROM] only within its 56 bytes: a transfer that would run past
    them is refused without touching the bus, and every transfer made lies
    within the registers 8 to 63, so that it cannot touch the seven clock
    registers or the control register. *)
Theorem eeprom_stays_in_ram (response : option (list Z)) (ack : bool)
  (address length : Z) (data : list Z) :
  0 <= address < 256 -> 0 <= length < 256 ->
  Z.of_nat (List.length data) < 256 ->
  (address + length > 56 ->
   readEEPROM response address length = (None, [])) /\
  (address + Z.of_nat (List.length data) > 56 ->
   writeEEPROM ack address data = (false, [])) /\
  (address + length <= 56 ->
   readEEPROM response address length =
   (response, [I2CRead (DS1307_RAM_START + address) length])) /\
  (address + Z.of_nat (List.length data) <= 56 ->
   writeEEPROM ack address data =
   (ack, [I2CWrite (DS1307_RAM_START + address) data])) /\
  (forall e,
     In e (snd (readEEPROM response address length)) \/
     In e (snd (writeEEPROM ack address data)) ->
     DS1307_RAM_START <= fst (span e) /\ snd (span e) <= DS1307_RAM_END + 1).
Proof.
  intros Ha Hl Hdata.
  assert (Hsmall : address + 8 < 256 -> uint8 (DS1307_RAM_START + address)
                                        = DS1307_RAM_START + address).
  { intros H. unfold uint8, DS1307_RAM_START. apply Z.mod_small. lia. }
  unfold readEEPROM, writeEEPROM, readRegisters, writeRegisters.
  refine (conj _ (conj _ (conj _ (conj _ _)))).
  - intros H. destruct (Z.gtb_spec (address + length) 56); [reflexivity | lia].
  - intros H.
    destruct (Z.gtb_spec (address + Z.of_nat (List.length data)) 56);
      [reflexivity | lia].
  - intros H. destruct (Z.gtb_spec (address + length) 56); [lia |].
    rewrite Hsmall by lia. reflexivity.
  - intros H.
    destruct (Z.gtb_spec (address + Z.of_nat (List.length data)) 56); [lia |].
    rewrite Hsmall by lia. reflexivity.
  - intros e [He | He].
    + destruct (Z.gtb_spec (address + length) 56); [destruct He |].
      rewrite Hsmall in He by lia.
      destruct He as [<- | []]. unfold DS1307_RAM_START, DS1307_RAM_END.
      cbn [span fst snd]. lia.
    + destruct (Z.gtb_spec (address + Z.of_nat (List.length data)) 56);
        [destruct He |].
      rewrite Hsmall in He by lia.
      destruct He as [<- | []]. unfold DS1307_RAM_START, DS1307_RAM_END.
      cbn [span fst snd]. lia.
Qed.


(** *** Starting up *)

(** Does [initialize] go through in the environment [env]? *)
Lemma initialize_run (env : InitEnv) (s : RTCTimeManager) :
  initialized_ s = false ->
  let power :=
    match supplyEnabled env with
    | Some false => [Supply5V true; Delay POWER_STABILIZATION_MS]
    | _ => []
    end in
  let s1 := set_i2cInitialized true s in
  initialize env s =
  if negb (i2cInstalled env) then
    (false, set_lastError "Failed to initialize I2C interface" s, power)
  else if negb (devicePresent env) then
    (false, set_lastError "DS1307 RTC not detected on I2C bus" s1,
     power ++ [Probe])
  else
    match secondsRegister env with
    | None =>
        (false, set_lastError "Failed to read RTC seconds register" s1,
         power ++ [Probe; Bus (I2CRead 0 1)])
    | Some sec =>
        let halted := negb (Z.land (uint8 sec) 128 =? 0) in
        let start :=
          if halted then [Bus (I2CWrite 0 [Z.land (uint8 sec) 127])]
          else [] in
        if halted && negb (oscillatorAck env) then
          (false, set_lastError "Failed to start RTC oscillator" s1,
           power ++ [Probe; Bus (I2CRead 0 1)] ++ start)
        else
          (true,
           set_initialized true
             (fst (loadPersistedData (ramRegisters env) s1)),
           power ++ [Probe; Bus (I2CRead 0 1)] ++ start
           ++ [Bus (I2CWrite 7 [0]); Bus (I2CRead 8 12)])
    end.
Proof.
  intros Hinit. cbv zeta. unfold initialize. rewrite Hinit.
  destruct (i2cInstalled env); [| reflexivity].
  destruct (devicePresent env); [| reflexivity].
  cbn [negb]. unfold readRegister.
  destruct (secondsRegister env) as [sec |];
    [| cbn [option_map map]; rewrite <- app_assoc; reflexivity].
  cbn [option_map map].
  destruct (Z.land (uint8 sec) 128 =? 0); cbn [negb andb].
  - unfold writeRegister, getCurrentDateTime.
    cbn [initialized_ set_i2cInitialized negb String.eqb map].
    rewrite Hinit. cbn [negb String.eqb map].
    destruct (loadPersistedData (ramRegisters env)
                (set_i2cInitialized true s)) as [s2 ev] eqn:Hload.
    assert (Hev : ev = [I2CRead 8 12]).
    { unfold loadPersistedData, readEEPROM, readRegisters in Hload.
      cbn in Hload. destruct (ramRegisters env) as [data |];
        [destruct (_ && _) |]; injection Hload as _ <-; reflexivity. }
    rewrite Hev. cbn [fst map app]. rewrite <- !app_assoc. reflexivity.
  - unfold writeRegister.
    destruct (oscillatorAck env); cbn [negb];
      [| rewrite <- !app_assoc; reflexivity].
    unfold getCurrentDateTime.
    cbn [initialized_ set_i2cInitialized negb String.eqb map].
    rewrite Hinit. cbn [negb String.eqb map].
    destruct (loadPersistedData (ramRegisters env)
                (set_i2cInitialized true s)) as [s2 ev] eqn:Hload.
    assert (Hev : ev = [I2CRead 8 12]).
    { unfold loadPersistedData, readEEPROM, readRegisters in Hload.
      cbn in Hload. destruct (ramRegisters env) as [data |];
        [destruct (_ && _) |]; injection Hload as _ <-; reflexivity. }
    rewrite Hev. cbn [fst map app]. rewrite <- !app_assoc. reflexivity.
Qed.

Lemma loadPersistedData_frame (response : option (list Z))
  (s : RTCTimeManager) :
  let s' := fst (loadPersistedData response s) in
  initialized_ s' = initialized_ s /\ hasValidTime_ s' = hasValidTime_ s /\
  i2cInitialized_ s' = i2cInitialized_ s /\
  lastSyncTime_ s' = lastSyncTime_ s /\
  sleepSchedule_ s' = sleepSchedule_ s /\ lastError_ s' = lastError_ s.
Proof.
  cbv zeta. unfold loadPersistedData, readEEPROM, readRegisters.
  cbn [Z.add Z.gtb Z.compare Pos.compare Pos.compare_cont fst].
  destruct response as [data |]; [destruct (_ && _) |]; repeat split.
Qed.


Lemma initialize_success (env : InitEnv) (s : RTCTimeManager) :
  initialized_ s = false ->
  fst (fst (initialize env s)) = true ->
  snd (fst (initialize env s)) =
  set_initialized true
    (fst (loadPersistedData (ramRegisters env) (set_i2cInitialized true s))).
Proof.
  intros Hinit. rewrite (initialize_run env s Hinit). cbv zeta.
  destruct (i2cInstalled env); [| discriminate].
  destruct (devicePresent env); [| discriminate].
  cbn [negb]. destruct (secondsRegister env) as [sec |]; [| discriminate].
  destruct (negb (Z.land (uint8 sec) 128 =? 0) && negb (oscillatorAck env));
    [discriminate | reflexivity].
Qed.

Lemma initialize_fresh (env : InitEnv) :
  fst (fst (initialize env constructor)) = true ->
  let s0 := snd (fst (initialize env constructor)) in
  initialized_ s0 = true /\ hasValidTime_ s0 = false /\
  lastSyncTime_ s0 = 0.
Proof.
  intros Hok. cbv zeta. rewrite (initialize_success env constructor eq_refl Hok).
  pose proof (loadPersistedData_frame (ramRegisters env)
                (set_i2cInitialized true constructor)) as Hframe.
  cbv zeta in Hframe. destruct Hframe as (_ & Hv & _ & Hl & _).
  cbn [initialized_ hasValidTime_ lastSyncTime_ set_initialized].
  rewrite Hv, Hl. repeat split.
Qed.

(** Settles the conjuncts of an outcome once the run is known. *)
Ltac settle :=
  repeat match goal with
         | |- _ /\ _ => split
         | |- false = true -> _ => let H := fresh in intros H; discriminate H
         | |- true = false -> _ => let H := fresh in intros H; discriminate H
         | |- true = true -> _ => intros _
         | |- false = false -> _ => intros _
         | |- _ <> _ => discriminate
         | |- _ = _ => first [reflexivity | assumption]
         | Hpower : ~ In _ ?p |- ~ In _ ?p => exact Hpower
         | Hin : forall l, _ -> ~ In _ (_ ++ l) |- ~ In _ (_ ++ _) =>
             apply Hin; cbn [In app];
             let e := fresh in
             let H := fresh in
             intros e H;
             repeat (destruct H as [H | H];
                     [first [discriminate H
                            | injection H as <-; discriminate] |]);
             destruct H
         end.

(** X16.  [initialize] on a manager that is not initialised succeeds
    exactly when the I2C driver installs, the device answers, its seconds
    register can be read and, if the clock-halt bit is set, the write that
    clears it is acknowledged; a failed write of the control register is
    ignored.  On success the bus sees, in this order: the probe, the read
    of the seconds register, the write clearing the clock-halt bit if it
    was set, the write of zero to the control register and the read of the
    twelve bytes of RAM; before them the 5V supply is switched on and given
    time to settle if a power manager is present and reports it off.  The
    clock registers are not read: the time flag is never set by
    [initialize], whatever the clock holds.  On failure the manager stays
    uninitialised and keeps its statistics. *)
Theorem initialize_outcome (env : InitEnv) (s : RTCTimeManager) :
  initialized_ s = false ->
  let r := initialize env s in
  let s' := snd (fst r) in
  let halted :=
    match secondsRegister env with
    | Some sec => negb (Z.land (uint8 sec) 128 =? 0)
    | None => false
    end in
  let ok :=
    i2cInstalled env && devicePresent env
    && match secondsRegister env with Some _ => true | None => false end
    && (negb halted || oscillatorAck env) in
  fst (fst r) = ok /\ initialized_ s' = ok /\
  hasValidTime_ s' = hasValidTime_ s /\
  lastSyncTime_ s' = lastSyncTime_ s /\
  sleepSchedule_ s' = sleepSchedule_ s /\
  ~ In (Bus (I2CRead 0 7)) (snd r) /\
  (ok = true ->
   snd r =
     match supplyEnabled env with
     | Some false => [Supply5V true; Delay 1000]
     | _ => []
     end
     ++ [Probe; Bus (I2CRead 0 1)]
     ++ match secondsRegister env with
        | Some sec =>
            if halted then [Bus (I2CWrite 0 [Z.land (uint8 sec) 127])]
            else []
        | None => []
        end
     ++ [Bus (I2CWrite 7 [0]); Bus (I2CRead 8 12)] /\
   s' =
     set_initialized true
       (fst (loadPersistedData (ramRegisters env)
               (set_i2cInitialized true s)))) /\
  (ok = false ->
   syncAttempts_ s' = syncAttempts_ s /\
   successfulSyncs_ s' = successfulSyncs_ s /\
   totalDriftSeconds_ s' = totalDriftSeconds_ s /\
   lastError_ s' <> EmptyString).
Proof.
  intros Hinit. cbv zeta. rewrite (initialize_run env s Hinit). cbv zeta.
  pose proof (loadPersistedData_frame (ramRegisters env)
                (set_i2cInitialized true s)) as Hframe.
  cbv zeta in Hframe. destruct Hframe as (_ & Hv & _ & Hl & Hsch & _).
  assert (Hpower :
            ~ In (Bus (I2CRead 0 7))
                match supplyEnabled env with
                | Some false => [Supply5V true; Delay POWER_STABILIZATION_MS]
                | _ => []
                end).
  { destruct (supplyEnabled env) as [[] |]; cbn [In]; intros H;
      repeat (destruct H as [H | H]; try discriminate H); exact H. }
  assert (Hin : forall l,
            (forall e, In (Bus e) l -> e <> I2CRead 0 7) ->
            ~ In (Bus (I2CRead 0 7))
                (match supplyEnabled env with
                 | Some false =>
                     [Supply5V true; Delay POWER_STABILIZATION_MS]
                 | _ => []
                 end ++ l)).
  { intros l Hl' H. apply in_app_iff in H. destruct H as [H | H];
      [exact (Hpower H) | exact (Hl' _ H eq_refl)]. }
  destruct (i2cInstalled env); cbn [negb andb fst snd]; [| settle].
  destruct (devicePresent env); cbn [negb andb fst snd]; [| settle].
  destruct (secondsRegister env) as [sec |]; cbn [negb andb fst snd];
    [| settle].
  destruct (Z.land (uint8 sec) 128 =? 0); cbn [negb andb orb fst snd].
  - cbn [initialized_ set_initialized hasValidTime_ lastSyncTime_
           sleepSchedule_].
    rewrite Hv, Hl, Hsch. settle.
  - destruct (oscillatorAck env); cbn [negb andb orb fst snd];
      [| settle].
    cbn [initialized_ set_initialized hasValidTime_ lastSyncTime_
           sleepSchedule_].
    rewrite Hv, Hl, Hsch. settle.
Qed.

Lemma sync_inRange (env : SyncEnv) (networkTime : string)
  (s : RTCTimeManager) :
  inRange s -> inRange (snd (fst (setTimeFromNetwork env networkTime s))).
Proof.
  intros Hrange. pose proof Hrange as (Ha & Hs & Hd).
  unfold setTimeFromNetwork.
  destruct (initialized_ s); [| exact Hrange].
  destruct (parseTimeString networkTime) as [newTime |]; [| exact Hrange].
  cbn [negb].
  destruct (if hasValidTime_ s then _ else _) as [currentTime ev1].
  unfold writeDateTime, writeRegisters.
  destruct (timeWriteAck env); [| exact Hrange].
  cbn [negb fst snd].
  assert (H16 : forall x, 0 <= uint16 x < 2 ^ 16)
    by (intros x; unfold uint16; apply Z.mod_pos_bound; lia).
  assert (H32 : forall x, - 2 ^ 31 <= int32 x < 2 ^ 31).
  { intros x. unfold int32.
    pose proof (Z.mod_pos_bound (x + 2 ^ 31) (2 ^ 32) ltac:(lia)). lia. }
  unfold inRange.
  destruct currentTime;
    cbn [syncAttempts_ successfulSyncs_ totalDriftSeconds_ set_stats
           set_hasValidTime set_lastSyncTime set_totalDriftSeconds];
    refine (conj (H16 _) (conj (H16 _) _)); first [apply H32 | exact Hd].
Qed.

(** X17.  The statistics survive a restart.  When a call of
    [setTimeFromNetwork] succeeds, the last thing on the bus is the write
    of the twelve-byte record of its statistics to the start of the RAM;
    a manager constructed afresh whose [initialize] succeeds and reads
    that record back has the same attempts, successes and accumulated
    drift.  The time of the last synchronisation and the time flag are not
    in the record: after the restart they are zero and unset. *)
Theorem sync_survives_restart (env : SyncEnv) (networkTime : string)
  (s : RTCTimeManager) (boot : InitEnv) :
  inRange s ->
  fst (fst (setTimeFromNetwork env networkTime s)) = true ->
  let r := setTimeFromNetwork env networkTime s in
  let s1 := snd (fst r) in
  ramRegisters boot = Some (persistedRecord s1) ->
  fst (fst (initialize boot constructor)) = true ->
  let s2 := snd (fst (initialize boot constructor)) in
  (exists before, snd r = before ++ [I2CWrite 8 (persistedRecord s1)]) /\
  syncAttempts_ s2 = syncAttempts_ s1 /\
  successfulSyncs_ s2 = successfulSyncs_ s1 /\
  totalDriftSeconds_ s2 = totalDriftSeconds_ s1 /\
  lastSyncTime_ s2 = 0 /\ hasValidTime_ s2 = false /\
  initialized_ s2 = true.
Proof.
  intros Hrange Hok. cbv zeta. intros Hram Hboot.
  pose proof (sync_inRange env networkTime s Hrange) as Hrange1.
  split.
  - revert Hok. unfold setTimeFromNetwork.
    destruct (initialized_ s); [| discriminate].
    destruct (parseTimeString networkTime) as [newTime |]; [| discriminate].
    cbn [negb].
    destruct (if hasValidTime_ s then _ else _) as [currentTime ev1].
    unfold writeDateTime, writeRegisters.
    destruct (timeWriteAck env); [| discriminate].
    cbn [negb fst snd]. intros _.
    eexists (ev1 ++ [_]). rewrite <- app_assoc. reflexivity.
  - rewrite (initialize_success boot constructor eq_refl Hboot).
    rewrite Hram, (load_saved _ _ Hrange1). repeat split.
Qed.

(** X18.  The first synchronisation after a start never accounts a drift.
    A manager that is constructed and initialised has its time flag unset
    whatever the clock holds, so the first [setTimeFromNetwork] does not
    read the clock: if it succeeds, the bus sees the write of the clock
    registers and the write of the record and nothing else, the
    accumulated drift is what [initialize] loaded, and the time flag is
    set, so that the next call does read the clock first. *)
Theorem first_sync_counts_no_drift (boot : InitEnv) (env next : SyncEnv)
  (networkTime again : string) :
  fst (fst (initialize boot constructor)) = true ->
  let s0 := snd (fst (initialize boot constructor)) in
  let r := setTimeFromNetwork env networkTime s0 in
  hasValidTime_ s0 = false /\
  totalDriftSeconds_ (snd (fst r)) = totalDriftSeconds_ s0 /\
  (forall reg count, ~ In (I2CRead reg count) (snd r)) /\
  (fst (fst r) = true ->
   (exists newTime,
      parseTimeString networkTime = Some newTime /\
      snd r =
        snd (writeDateTime true newTime)
        ++ [I2CWrite 8 (persistedRecord (snd (fst r)))]) /\
   hasValidTime_ (snd (fst r)) = true /\
   (parseTimeString again <> None ->
    exists rest,
      snd (setTimeFromNetwork next again (snd (fst r))) =
      I2CRead 0 7 :: rest)).
Proof.
  intros Hboot. cbv zeta.
  destruct (initialize_fresh boot Hboot) as (Hinit & Hvalid & _).
  set (s0 := snd (fst (initialize boot constructor))) in *.
  clearbody s0.
  split; [exact Hvalid |].
  assert (Hr :
            setTimeFromNetwork env networkTime s0 =
            match parseTimeString networkTime with
            | None => (false, s0, [])
            | Some newTime =>
                if timeWriteAck env then
                  let s4 :=
                    set_hasValidTime true
                      (set_stats (uint16 (syncAttempts_ s0 + 1))
                         (uint16 (successfulSyncs_ s0 + 1))
                         (totalDriftSeconds_ s0)
                         (set_lastSyncTime (systemTime env) s0)) in
                  (true, s4,
                   snd (writeDateTime true newTime)
                   ++ [I2CWrite 8 (persistedRecord s4)])
                else (false, s0, snd (writeDateTime false newTime))
            end).
  { unfold setTimeFromNetwork. rewrite Hinit, Hvalid. cbn [negb].
    destruct (parseTimeString networkTime) as [newTime |]; [| reflexivity].
    unfold writeDateTime, writeRegisters.
    destruct (timeWriteAck env); reflexivity. }
  rewrite Hr. clear Hr.
  destruct (parseTimeString networkTime) as [newTime |];
    [| refine (conj eq_refl (conj _ _));
       [intros reg count H; destruct H | discriminate]].
  destruct (timeWriteAck env); cbv zeta; cbn [fst snd].
  - refine (conj eq_refl (conj _ _)).
    + intros reg count H. unfold writeDateTime, writeRegisters in H.
      cbn [In snd app] in H.
      destruct H as [H | [H | H]]; try discriminate H. exact H.
    + intros _. refine (conj _ (conj eq_refl _)).
      * exists newTime. split; reflexivity.
      * intros Hparse. unfold setTimeFromNetwork.
        cbn [initialized_ hasValidTime_ set_hasValidTime set_stats
               set_lastSyncTime].
        rewrite Hinit. cbn [negb].
        destruct (parseTimeString again) as [t2 |]; [| contradiction].
        unfold readDateTime, readRegisters.
        destruct (timeRegisters next) as [data |];
          unfold writeDateTime, writeRegisters;
          destruct (timeWriteAck next); cbn [negb fst snd app];
          eexists; reflexivity.
  - refine (conj eq_refl (conj _ _)); [| discriminate].
    intros reg count H. unfold writeDateTime, writeRegisters in H.
    cbn [In snd] in H.
    destruct H as [H | H]; try discriminate H. exact H.
Qed.

(** X19.  [cleanup] writes the record of the statistics to the RAM and
    leaves the manager uninitialised with its time flag and its I2C flag
    unset; everything else in the object stays.  An [initialize] that
    succeeds afterwards and reads that record back makes the manager
    initialised again with the same statistics, sleep schedule and time of
    the last synchronisation, but with the time flag still unset. *)
Theorem cleanup_then_initialize (ack : bool) (boot : InitEnv)
  (s : RTCTimeManager) :
  inRange s ->
  let down := cleanup ack s in
  let s1 := fst down in
  let up := initialize boot s1 in
  let s2 := snd (fst up) in
  snd down = [I2CWrite 8 (persistedRecord s)] /\
  initialized_ s1 = false /\ hasValidTime_ s1 = false /\
  i2cInitialized_ s1 = false /\
  getCurrentDateTime (clockRegisters boot) s1 = (EmptyString, []) /\
  (ramRegisters boot = Some (persistedRecord s) ->
   fst (fst up) = true ->
   s2 =
   set_i2cInitialized true
     (set_initialized true (set_hasValidTime false s))).
Proof.
  intros Hrange. cbv zeta.
  refine (conj eq_refl (conj eq_refl (conj eq_refl (conj eq_refl
            (conj eq_refl _))))).
  intros Hram Hboot.
  rewrite (initialize_success boot (fst (cleanup ack s)) eq_refl Hboot).
  rewrite Hram, (load_saved _ _ Hrange).
  destruct s; reflexivity.
Qed.

End ClockFacts.

Section CalendarFacts.

Import Text RTCTimeManager.

(** *** The day of the week *)

Lemma calculateDayOfWeek_range (y m d : Z) :
  0 <= calculateDayOfWeek y m d <= 7.
Proof.
  unfold calculateDayOfWeek.
  destruct (if m <? 3 then (m + 12, y - 1) else (m, y)) as [m' y'].
  cbv zeta.
  match goal with
  | |- context [Z.rem (Z.rem ?x 7 + 5) 7] => generalize x
  end.
  intros x. unfold uint8.
  Z.to_euclidean_division_equations. lia.
Qed.

Lemma daysInMonth_bound (y m : Z) : 28 <= daysInMonth y m <= 31.
Proof.
  unfold daysInMonth.
  destruct (m =? 2); [destruct (isLeapYear y); lia |].
  destruct (_ || _); lia.
Qed.

Lemma weekday_checked :
  forallb (fun y =>
    forallb (fun m =>
      forallb (fun d =>
        implb (isDate y m d)
          (let c := calculateDayOfWeek y m d in
           let iso := isoWeekday y m d in
           implb (dateBefore (2015, 3, 1) (y, m, d)) (c =? iso)
           && ((c =? iso) || ((c =? 0) && (iso =? 7)))))
        (upFrom 1 31)) (upFrom 1 12)) (upFrom 2000 100) = true.
Proof. vm_compute. reflexivity. Qed.


(** X20.  On every date of the calendar from 2 March 2015 to the end of
    2099, [calculateDayOfWeek] returns the ISO day of the week: 1 for
    Monday up to 7 for Sunday.  From 2000 on it does so on every date that
    is not a Sunday; on the Sundays for which it differs it returns 0, as
    on 5 March 2000.  Whatever the arguments, the result lies between 0
    and 7. *)
Theorem calculateDayOfWeek_iso (y m d : Z) :
  isDate y m d = true ->
  (dateBefore (2015, 3, 1) (y, m, d) = true ->
   calculateDayOfWeek y m d = isoWeekday y m d) /\
  (calculateDayOfWeek y m d = isoWeekday y m d \/
   calculateDayOfWeek y m d = 0 /\ isoWeekday y m d = 7) /\
  0 <= calculateDayOfWeek y m d <= 7 /\
  calculateDayOfWeek 2000 3 5 = 0 /\ isoWeekday 2000 3 5 = 7.
Proof.
  intros Hdate.
  assert (Hrange : 2000 <= y < 2000 + Z.of_nat 100 /\
                   1 <= m < 1 + Z.of_nat 12 /\ 1 <= d < 1 + Z.of_nat 31).
  { unfold isDate in Hdate. rewrite !andb_true_iff in Hdate.
    pose proof (daysInMonth_bound y m). lia. }
  destruct Hrange as (Hy & Hm & Hd).
  pose proof weekday_checked as H.
  rewrite forallb_forall in H. specialize (H y (upFrom_In _ _ _ Hy)).
  rewrite forallb_forall in H. specialize (H m (upFrom_In _ _ _ Hm)).
  rewrite forallb_forall in H. specialize (H d (upFrom_In _ _ _ Hd)).
  rewrite Hdate in H. cbv zeta in H. cbn [implb] in H.
  apply andb_true_iff in H. destruct H as [Hlate Hall].
  refine (conj _ (conj _ (conj (calculateDayOfWeek_range y m d)
            (conj eq_refl eq_refl)))).
  - intros Hafter. rewrite Hafter in Hlate. apply Z.eqb_eq, Hlate.
  - apply orb_true_iff in Hall. destruct Hall as [Hall | Hall].
    + left. apply Z.eqb_eq, Hall.
    + right. apply andb_true_iff in Hall. destruct Hall as [H0 H7].
      split; apply Z.eqb_eq; assumption.
Qed.

End CalendarFacts.

Section TextFacts.

Import Text RTCTimeManager.

(** *** Digits *)

Lemma isDigit_inv (c : ascii) :
  isDigit c = true ->
  0 <= digitValue c <= 9 /\ digitChar (digitValue c) = c.
Proof.
  unfold isDigit, digitValue, digitChar. cbv zeta. intros H.
  apply andb_true_iff in H. destruct H as [Hlo Hhi].
  apply Z.leb_le in Hlo, Hhi. split; [lia |].
  replace (Z.to_N (48 + (Z.of_N (N_of_ascii c) - 48))) with (N_of_ascii c)
    by lia.
  apply ascii_N_embedding.
Qed.

Lemma two_digits (a b : ascii) :
  isDigit a = true -> isDigit b = true ->
  stoi (String a (String b EmptyString)) = digitValue a * 10 + digitValue b.
Proof.
  intros Ha Hb. unfold stoi. cbn [stoi_from]. rewrite Ha, Hb. lia.
Qed.

Lemma four_digits (a b c d : ascii) :
  isDigit a = true -> isDigit b = true -> isDigit c = true ->
  isDigit d = true ->
  stoi (String a (String b (String c (String d EmptyString)))) =
  digitValue a * 1000 + digitValue b * 100 + digitValue c * 10
  + digitValue d.
Proof.
  intros Ha Hb Hc Hd. unfold stoi. cbn [stoi_from].
  rewrite Ha, Hb, Hc, Hd. lia.
Qed.

Lemma setw0_two (n : Z) :
  0 <= n < 100 ->
  setw0 2 n =
  String (digitChar (n / 10)) (String (digitChar (n mod 10)) EmptyString).
Proof.
  intros H. apply String.eqb_eq.
  apply (checked_upFrom
           (fun n =>
              String.eqb (setw0 2 n)
                (String (digitChar (n / 10))
                   (String (digitChar (n mod 10)) EmptyString))) 0 100);
    [vm_compute; reflexivity | lia].
Qed.

Lemma setw0_year (n : Z) :
  0 <= n < 100 ->
  setw0 4 (2000 + n) =
  String "2" (String "0"
    (String (digitChar (n / 10))
       (String (digitChar (n mod 10)) EmptyString))).
Proof.
  intros H. apply String.eqb_eq.
  apply (checked_upFrom
           (fun n =>
              String.eqb (setw0 4 (2000 + n))
                (String "2" (String "0"
                   (String (digitChar (n / 10))
                      (String (digitChar (n mod 10)) EmptyString))))) 0 100);
    [vm_compute; reflexivity | lia].
Qed.

(** *** What a match of a regular expression tells about the text *)

Lemma takeDigits_S (n : nat) (s d rest : string) :
  takeDigits (S n) s = Some (d, rest) ->
  exists c s' d',
    s = String c s' /\ isDigit c = true /\
    takeDigits n s' = Some (d', rest) /\ d = String c d'.
Proof.
  cbn [takeDigits]. destruct s as [| c s']; [discriminate |].
  destruct (isDigit c) eqn:Hc; [| discriminate].
  destruct (takeDigits n s') as [[d' rest'] |] eqn:Hrest; [| discriminate].
  intros H. injection H as <- <-. exists c, s', d'.
  exact (conj eq_refl (conj Hc (conj Hrest eq_refl))).
Qed.

Lemma takeDigits_two (s d rest : string) :
  takeDigits 2 s = Some (d, rest) ->
  exists a b,
    isDigit a = true /\ isDigit b = true /\
    d = String a (String b EmptyString) /\ s = String a (String b rest).
Proof.
  intros H.
  apply takeDigits_S in H. destruct H as (a & s1 & d1 & -> & Ha & H & ->).
  apply takeDigits_S in H. destruct H as (b & s2 & d2 & -> & Hb & H & ->).
  cbn [takeDigits] in H. injection H as <- <-.
  exists a, b. repeat split; assumption.
Qed.

Lemma takeDigits_four (s d rest : string) :
  takeDigits 4 s = Some (d, rest) ->
  exists a b c e,
    isDigit a = true /\ isDigit b = true /\ isDigit c = true /\
    isDigit e = true /\
    d = String a (String b (String c (String e EmptyString))) /\
    s = String a (String b (String c (String e rest))).
Proof.
  intros H.
  apply takeDigits_S in H. destruct H as (a & s1 & d1 & -> & Ha & H & ->).
  apply takeDigits_S in H. destruct H as (b & s2 & d2 & -> & Hb & H & ->).
  apply takeDigits_S in H. destruct H as (c & s3 & d3 & -> & Hc & H & ->).
  apply takeDigits_S in H. destruct H as (e & s4 & d4 & -> & He & H & ->).
  cbn [takeDigits] in H. injection H as <- <-.
  exists a, b, c, e. repeat split; assumption.
Qed.

Lemma capture_inv (n : nat) (r : list token) (s : string)
  (g : list string) :
  regex_match (Capture n :: r) s = Some g ->
  exists d rest g',
    takeDigits n s = Some (d, rest) /\ regex_match r rest = Some g' /\
    g = d :: g'.
Proof.
  cbn [regex_match].
  destruct (takeDigits n s) as [[d rest] |]; [| discriminate].
  destruct (regex_match r rest) as [g' |] eqn:Hrest; [| discriminate].
  cbn [option_map]. intros H. injection H as <-.
  exists d, rest, g'. exact (conj eq_refl (conj Hrest eq_refl)).
Qed.

Lemma lit_inv (c : ascii) (r : list token) (s : string) (g : list string) :
  regex_match (Lit c :: r) s = Some g ->
  exists s', s = String c s' /\ regex_match r s' = Some g.
Proof.
  cbn [regex_match]. destruct s as [| c' s']; [discriminate |].
  destruct (Ascii.eqb_spec c c') as [<- | _]; [| discriminate].
  intros H. exists s'. split; [reflexivity | exact H].
Qed.

Lemma end_inv (s : string) (g : list string) :
  regex_match [] s = Some g -> s = EmptyString /\ g = [].
Proof.
  cbn [regex_match]. destruct s; [| discriminate].
  intros H. injection H as <-. split; reflexivity.
Qed.

(** A text that matches [(\d{4})-(\d{2})-(\d{2})] followed by the
    separator [sep] and [(\d{2}):(\d{2}):(\d{2})]. *)
Lemma stamp_inv (sep : ascii) (t : string) (g : list string) :
  regex_match
    [Capture 4; Lit "-"; Capture 2; Lit "-"; Capture 2; Lit sep;
     Capture 2; Lit ":"; Capture 2; Lit ":"; Capture 2] t = Some g ->
  exists y1 y2 y3 y4 m1 m2 d1 d2 h1 h2 n1 n2 s1 s2 : ascii,
    (isDigit y1 = true /\ isDigit y2 = true /\ isDigit y3 = true /\
     isDigit y4 = true) /\
    (isDigit m1 = true /\ isDigit m2 = true) /\
    (isDigit d1 = true /\ isDigit d2 = true) /\
    (isDigit h1 = true /\ isDigit h2 = true) /\
    (isDigit n1 = true /\ isDigit n2 = true) /\
    (isDigit s1 = true /\ isDigit s2 = true) /\
    t =
      String y1 (String y2 (String y3 (String y4 (String "-"
        (String m1 (String m2 (String "-"
          (String d1 (String d2 (String sep
            (String h1 (String h2 (String ":"
              (String n1 (String n2 (String ":"
                (String s1 (String s2 EmptyString))))))))))))))))))
    /\
    g =
      [String y1 (String y2 (String y3 (String y4 EmptyString)));
       String m1 (String m2 EmptyString);
       String d1 (String d2 EmptyString);
       String h1 (String h2 EmptyString);
       String n1 (String n2 EmptyString);
       String s1 (String s2 EmptyString)].
Proof.
  intros H.
  apply capture_inv in H. destruct H as (gy & r1 & g1 & Hy & H & ->).
  apply takeDigits_four in Hy.
  destruct Hy as (y1 & y2 & y3 & y4 & Hy1 & Hy2 & Hy3 & Hy4 & -> & ->).
  apply lit_inv in H. destruct H as (r2 & -> & H).
  apply capture_inv in H. destruct H as (gm & r3 & g2 & Hm & H & ->).
  apply takeDigits_two in Hm. destruct Hm as (m1 & m2 & Hm1 & Hm2 & -> & ->).
  apply lit_inv in H. destruct H as (r4 & -> & H).
  apply capture_inv in H. destruct H as (gd & r5 & g3 & Hd & H & ->).
  apply takeDigits_two in Hd. destruct Hd as (d1 & d2 & Hd1 & Hd2 & -> & ->).
  apply lit_inv in H. destruct H as (r6 & -> & H).
  apply capture_inv in H. destruct H as (gh & r7 & g4 & Hh & H & ->).
  apply takeDigits_two in Hh. destruct Hh as (h1 & h2 & Hh1 & Hh2 & -> & ->).
  apply lit_inv in H. destruct H as (r8 & -> & H).
  apply capture_inv in H. destruct H as (gn & r9 & g5 & Hn & H & ->).
  apply takeDigits_two in Hn. destruct Hn as (n1 & n2 & Hn1 & Hn2 & -> & ->).
  apply lit_inv in H. destruct H as (r10 & -> & H).
  apply capture_inv in H. destruct H as (gs & r11 & g6 & Hs & H & ->).
  apply takeDigits_two in Hs. destruct Hs as (s1 & s2 & Hs1 & Hs2 & -> & ->).
  apply end_inv in H. destruct H as (-> & ->).
  exists y1, y2, y3, y4, m1, m2, d1, d2, h1, h2, n1, n2, s1, s2.
  repeat split; assumption.
Qed.


Lemma digits_split (a b : Z) :
  0 <= a <= 9 -> 0 <= b <= 9 ->
  (a * 10 + b) / 10 = a /\ (a * 10 + b) mod 10 = b.
Proof. intros Ha Hb. split; Z.to_euclidean_division_equations; lia. Qed.

Lemma setw0_digits (a b : ascii) :
  isDigit a = true -> isDigit b = true ->
  setw0 2 (digitValue a * 10 + digitValue b) =
  String a (String b EmptyString).
Proof.
  intros Ha Hb.
  destruct (isDigit_inv a Ha) as (Ra & Ea).
  destruct (isDigit_inv b Hb) as (Rb & Eb).
  destruct (digits_split _ _ Ra Rb) as (Hdiv & Hmod).
  rewrite setw0_two by lia. rewrite Hdiv, Hmod, Ea, Eb. reflexivity.
Qed.

Lemma valid_time_fields (timeStr : string) :
  isValidTime timeStr = true ->
  exists t,
    parseTimeString timeStr = Some t /\
    calendarFields t /\ storable t /\
    formatDateTime t = timeStr /\
    dayOfWeek t = calculateDayOfWeek (2000 + year t) (month t) (date t).
Proof.
  unfold isValidTime. intros H.
  destruct (regex_match isoRegex timeStr) as [g |] eqn:E; [| discriminate].
  pose proof E as E'. unfold isoRegex in E'. apply stamp_inv in E'.
  destruct E' as (y1 & y2 & y3 & y4 & m1 & m2 & d1 & d2 & h1 & h2 & n1 & n2
                  & s1 & s2 & (Hy1 & Hy2 & Hy3 & Hy4) & (Hm1 & Hm2)
                  & (Hd1 & Hd2) & (Hh1 & Hh2) & (Hn1 & Hn2) & (Hs1 & Hs2)
                  & Ht & Hg).
  exists (dateTimeOfGroups g).
  unfold parseTimeString. rewrite E. split; [reflexivity |].
  subst g. cbv zeta in H. cbn [nth] in H.
  unfold dateTimeOfGroups. cbv zeta. cbn [nth].
  rewrite four_digits in * by assumption.
  rewrite !two_digits in * by assumption.
  destruct (isDigit_inv y1 Hy1) as (Ry1 & Ey1).
  destruct (isDigit_inv y2 Hy2) as (Ry2 & Ey2).
  destruct (isDigit_inv y3 Hy3) as (Ry3 & Ey3).
  destruct (isDigit_inv y4 Hy4) as (Ry4 & Ey4).
  destruct (isDigit_inv m1 Hm1) as (Rm1 & _).
  destruct (isDigit_inv m2 Hm2) as (Rm2 & _).
  destruct (isDigit_inv d1 Hd1) as (Rd1 & _).
  destruct (isDigit_inv d2 Hd2) as (Rd2 & _).
  destruct (isDigit_inv h1 Hh1) as (Rh1 & _).
  destruct (isDigit_inv h2 Hh2) as (Rh2 & _).
  destruct (isDigit_inv n1 Hn1) as (Rn1 & _).
  destruct (isDigit_inv n2 Hn2) as (Rn2 & _).
  destruct (isDigit_inv s1 Hs1) as (Rs1 & _).
  destruct (isDigit_inv s2 Hs2) as (Rs2 & _).
  set (Y := digitValue y1 * 1000 + digitValue y2 * 100 + digitValue y3 * 10
            + digitValue y4) in *.
  set (Mo := digitValue m1 * 10 + digitValue m2) in *.
  set (D := digitValue d1 * 10 + digitValue d2) in *.
  set (Ho := digitValue h1 * 10 + digitValue h2) in *.
  set (Mi := digitValue n1 * 10 + digitValue n2) in *.
  set (Se := digitValue s1 * 10 + digitValue s2) in *.
  assert (Hranges : 2000 <= Y <= 2099 /\ 1 <= Mo <= 12 /\ 1 <= D <= 31 /\
                    0 <= Ho <= 23 /\ 0 <= Mi <= 59 /\ 0 <= Se <= 59).
  { revert H.
    destruct (Z.ltb_spec Y 2000); [discriminate |].
    destruct (Z.gtb_spec Y 2099); [discriminate |].
    destruct (Z.ltb_spec Mo 1); [discriminate |].
    destruct (Z.gtb_spec Mo 12); [discriminate |].
    destruct (Z.ltb_spec D 1); [discriminate |].
    destruct (Z.gtb_spec D 31); [discriminate |].
    destruct (Z.ltb_spec Ho 0); [discriminate |].
    destruct (Z.gtb_spec Ho 23); [discriminate |].
    destruct (Z.ltb_spec Mi 0); [discriminate |].
    destruct (Z.gtb_spec Mi 59); [discriminate |].
    destruct (Z.ltb_spec Se 0); [discriminate |].
    destruct (Z.gtb_spec Se 59); [discriminate |].
    intros _. lia. }
  destruct Hranges as (HY & HMo & HD & HHo & HMi & HSe).
  assert (Hsmall : forall x, 0 <= x < 256 -> uint8 x = x)
    by (intros x Hx; unfold uint8; apply Z.mod_small; lia).
  rewrite (Hsmall Mo), (Hsmall D), (Hsmall Ho), (Hsmall Mi), (Hsmall Se),
    (Hsmall (Y - 2000)) by lia.
  assert (Hy12 : digitValue y1 = 2 /\ digitValue y2 = 0) by (subst Y; lia).
  destruct Hy12 as (Hv1 & Hv2).
  assert (HYear : Y - 2000 = digitValue y3 * 10 + digitValue y4)
    by (subst Y; lia).
  pose proof (calculateDayOfWeek_range Y Mo D) as Hdow.
  unfold calendarFields, storable.
  cbn [seconds minutes hours dayOfWeek date month year].
  replace (2000 + (Y - 2000)) with Y by lia.
  refine (conj _ (conj _ (conj _ eq_refl))); [lia | lia |].
  unfold formatDateTime.
  cbn [seconds minutes hours dayOfWeek date month year].
  rewrite HYear. rewrite setw0_year by lia.
  destruct (digits_split _ _ Ry3 Ry4) as (-> & ->).
  subst Mo D Ho Mi Se. rewrite !setw0_digits by assumption.
  rewrite Ey3, Ey4, Ht.
  rewrite <- Ey1, <- Ey2, Hv1, Hv2. reflexivity.
Qed.


Lemma iso_rejects_space (timeStr : string) :
  regex_match altRegex timeStr <> None ->
  regex_match isoRegex timeStr = None.
Proof.
  intros H.
  destruct (regex_match altRegex timeStr) as [g |] eqn:E; [| contradiction].
  unfold altRegex in E. apply stamp_inv in E.
  destruct E as (y1 & y2 & y3 & y4 & m1 & m2 & d1 & d2 & h1 & h2 & n1 & n2
                 & s1 & s2 & (Hy1 & Hy2 & Hy3 & Hy4) & (Hm1 & Hm2)
                 & (Hd1 & Hd2) & _ & _ & _ & -> & _).
  unfold isoRegex. cbn [regex_match takeDigits].
  rewrite Hy1, Hy2, Hy3, Hy4. cbn [Ascii.eqb Bool.eqb regex_match takeDigits].
  rewrite Hm1, Hm2. cbn [Ascii.eqb Bool.eqb regex_match takeDigits].
  rewrite Hd1, Hd2. reflexivity.
Qed.

(** X21.  A text that [isValidTime] accepts is one that [parseTimeString]
    reads, into a date and time whose fields lie in the ranges of the
    calendar and fit the clock registers, and from which
    [getCurrentDateTime]'s formatting gives the very same text back.
    [parseTimeString] also reads the form with a space in place of the
    [T]; such a text [isValidTime] never accepts. *)
Theorem valid_time_round_trip (timeStr : string) :
  (isValidTime timeStr = true ->
   exists t,
     parseTimeString timeStr = Some t /\
     calendarFields t /\ storable t /\
     formatDateTime t = timeStr /\
     isValidTime (formatDateTime t) = true) /\
  (regex_match altRegex timeStr <> None ->
   parseTimeString timeStr <> None /\ isValidTime timeStr = false).
Proof.
  split.
  - intros Hvalid.
    destruct (valid_time_fields timeStr Hvalid)
      as (t & Hparse & Hcal & Hst & Hfmt & _).
    exists t. rewrite Hfmt.
    exact (conj Hparse (conj Hcal (conj Hst (conj eq_refl Hvalid)))).
  - intros Halt. split.
    + unfold parseTimeString. rewrite (iso_rejects_space timeStr Halt).
      destruct (regex_match altRegex timeStr); [discriminate | contradiction].
    + unfold isValidTime. rewrite (iso_rejects_space timeStr Halt).
      reflexivity.
Qed.

(** X22.  Synchronising and reading back.  When [setTimeFromNetwork] is
    given a text that [isValidTime] accepts and the clock acknowledges the
    write, the call succeeds, and [getCurrentDateTime], answered with the
    seven registers written, returns the very text that was given, after
    one read of the clock registers. *)
Theorem sync_then_read (env : SyncEnv) (networkTime : string)
  (s : RTCTimeManager) :
  initialized_ s = true ->
  isValidTime networkTime = true ->
  timeWriteAck env = true ->
  let r := setTimeFromNetwork env networkTime s in
  fst (fst r) = true /\
  hasValidTime_ (snd (fst r)) = true /\
  (exists data, In (I2CWrite 0 data) (snd r)) /\
  (forall data,
     In (I2CWrite 0 data) (snd r) ->
     List.length data = 7%nat /\
     getCurrentDateTime (Some data) (snd (fst r)) =
     (networkTime, [I2CRead 0 7])).
Proof.
  intros Hinit Hvalid Hack. cbv zeta.
  destruct (valid_time_fields networkTime Hvalid)
    as (t & Hparse & _ & Hst & Hfmt & _).
  unfold setTimeFromNetwork. rewrite Hinit, Hparse. cbn [negb].
  destruct (if hasValidTime_ s then readDateTime (timeRegisters env)
            else (None, [])) as [currentTime ev1] eqn:Hread.
  assert (Hev1 : forall data, ~ In (I2CWrite 0 data) ev1).
  { intros data Hin. destruct (hasValidTime_ s).
    - unfold readDateTime, readRegisters in Hread.
      destruct (timeRegisters env); injection Hread as _ <-;
        destruct Hin as [Hin | []]; discriminate Hin.
    - injection Hread as _ <-. destruct Hin. }
  unfold writeDateTime, writeRegisters. rewrite Hack.
  cbn [negb fst snd].
  unfold savePersistedData, writeEEPROM, writeRegisters.
  cbn [fst snd Z.add Z.gtb Z.compare Pos.compare Pos.compare_cont
         List.length Z.of_nat Pos.of_succ_nat Pos.succ].
  refine (conj eq_refl (conj _ (conj _ _))).
  - destruct currentTime; reflexivity.
  - eexists. apply in_app_iff. right. left. reflexivity.
  - intros data Hin. apply in_app_iff in Hin.
    destruct Hin as [Hin | Hin]; [destruct (Hev1 _ Hin) |].
    destruct Hin as [Hin | Hin].
    + injection Hin as <-. split; [reflexivity |].
      unfold getCurrentDateTime.
      replace (initialized_ _) with true
        by (destruct currentTime; symmetry; exact Hinit).
      cbn [negb]. rewrite (readDateTime_written t Hst), Hfmt. reflexivity.
    + cbn [app In] in Hin. destruct Hin as [Hin | []].
      discriminate Hin.
Qed.

End TextFacts.

Section ScheduleFromClock.

Import Text RTCTimeManager.

Lemma digitChar_digit (d : Z) :
  0 <= d <= 9 -> isDigit (digitChar d) = true /\ digitValue (digitChar d) = d.
Proof.
  intros H.
  assert (Hb : (isDigit (digitChar d) && (digitValue (digitChar d) =? d))
               = true).
  { apply (checked_upFrom
             (fun d => isDigit (digitChar d) && (digitValue (digitChar d) =? d))
             0 10); [vm_compute; reflexivity | lia]. }
  apply andb_true_iff in Hb. destruct Hb as [H1 H2].
  split; [exact H1 | apply Z.eqb_eq, H2].
Qed.

Lemma tens_units (n : Z) :
  0 <= n < 100 -> 0 <= n / 10 <= 9 /\ 0 <= n mod 10 <= 9 /\
                  n / 10 * 10 + n mod 10 = n.
Proof. intros H. Z.to_euclidean_division_equations. lia. Qed.

(** The hour in the text that [getCurrentDateTime] builds. *)
Lemma hourOf_formatDateTime (t : RTCDateTime) :
  calendarFields t -> hourOf (formatDateTime t) = Some (hours t).
Proof.
  intros (Hs & Hm & Hh & Hd & Hmo & Hy).
  unfold formatDateTime.
  rewrite setw0_year by lia. rewrite !setw0_two by lia.
  destruct (tens_units (year t) ltac:(lia)) as (Ry1 & Ry2 & _).
  destruct (tens_units (month t) ltac:(lia)) as (Rm1 & Rm2 & _).
  destruct (tens_units (date t) ltac:(lia)) as (Rd1 & Rd2 & _).
  destruct (tens_units (hours t) ltac:(lia)) as (Rh1 & Rh2 & Eh).
  destruct (tens_units (minutes t) ltac:(lia)) as (Rn1 & Rn2 & _).
  destruct (tens_units (seconds t) ltac:(lia)) as (Rs1 & Rs2 & _).
  destruct (digitChar_digit _ Ry1) as (Dy1 & _).
  destruct (digitChar_digit _ Ry2) as (Dy2 & _).
  destruct (digitChar_digit _ Rm1) as (Dm1 & _).
  destruct (digitChar_digit _ Rm2) as (Dm2 & _).
  destruct (digitChar_digit _ Rd1) as (Dd1 & _).
  destruct (digitChar_digit _ Rd2) as (Dd2 & _).
  destruct (digitChar_digit _ Rh1) as (Dh1 & Vh1).
  destruct (digitChar_digit _ Rh2) as (Dh2 & Vh2).
  destruct (digitChar_digit _ Rn1) as (Dn1 & _).
  destruct (digitChar_digit _ Rn2) as (Dn2 & _).
  destruct (digitChar_digit _ Rs1) as (Ds1 & _).
  destruct (digitChar_digit _ Rs2) as (Ds2 & _).
  assert (D2 : isDigit "2" = true) by reflexivity.
  assert (D0 : isDigit "0" = true) by reflexivity.
  unfold hourOf, timeRegex.
  cbn [String.concat String.append regex_match takeDigits].
  rewrite D2, D0, Dy1, Dy2.
  cbn [Ascii.eqb Bool.eqb regex_match takeDigits].
  rewrite Dm1, Dm2. cbn [Ascii.eqb Bool.eqb regex_match takeDigits].
  rewrite Dd1, Dd2. cbn [Ascii.eqb Bool.eqb regex_match takeDigits].
  rewrite Dh1, Dh2. cbn [Ascii.eqb Bool.eqb regex_match takeDigits].
  rewrite Dn1, Dn2. cbn [Ascii.eqb Bool.eqb regex_match takeDigits].
  rewrite Ds1, Ds2. cbn [option_map nth].
  rewrite two_digits by assumption. rewrite Vh1, Vh2, Eh. reflexivity.
Qed.

(** X23.  From the clock to the sleep duration.  When the manager is not
    initialised or the clock cannot be read, [getCurrentDateTime] returns
    the empty text, for which [getNightSleepDuration] gives the day
    duration.  When the clock is read and holds a time of the calendar,
    [getNightSleepDuration] applied to the text [getCurrentDateTime]
    returns sees the hour the clock holds: with the schedule enabled it
    gives the night duration if that hour is in the night interval and
    the day duration if not. *)
Theorem sleep_duration_from_clock (response : option (list Z))
  (s : RTCTimeManager) :
  let now := fst (getCurrentDateTime response s) in
  let schedule := sleepSchedule_ s in
  (initialized_ s = false \/ response = None ->
   now = EmptyString /\
   getNightSleepDuration now s = dayDuration schedule) /\
  (forall t,
     initialized_ s = true ->
     fst (readDateTime response) = Some t ->
     calendarFields t ->
     hourOf now = Some (hours t) /\
     (enabled schedule = true ->
      (isNightSpec (nightStartHour schedule) (nightEndHour schedule)
         (hours t) ->
       getNightSleepDuration now s = nightDuration schedule) /\
      (~ isNightSpec (nightStartHour schedule) (nightEndHour schedule)
           (hours t) ->
       getNightSleepDuration now s = dayDuration schedule))).
Proof.
  cbv zeta. split.
  - intros Hno.
    assert (Hnow : fst (getCurrentDateTime response s) = EmptyString).
    { unfold getCurrentDateTime.
      destruct Hno as [-> | ->]; [reflexivity |].
      destruct (negb (initialized_ s)); reflexivity. }
    rewrite Hnow. split; [reflexivity |].
    apply getNightSleepDuration_default. right. reflexivity.
  - intros t Hinit Hread Hcal.
    assert (Hnow : fst (getCurrentDateTime response s) = formatDateTime t).
    { unfold getCurrentDateTime. rewrite Hinit. cbn [negb].
      destruct (readDateTime response) as [[t' |] ev]; [| discriminate].
      cbn [fst] in Hread. injection Hread as ->. reflexivity. }
    rewrite Hnow.
    pose proof (hourOf_formatDateTime t Hcal) as Hhour.
    split; [exact Hhour |].
    intros Hen.
    apply (getNightSleepDuration_enabled (formatDateTime t) (hours t) s Hen
             Hhour).
Qed.

End ScheduleFromClock.

Lemma clock_registers_round_trip_witness :
  let t := RTCTimeManager.mkRTCDateTime 56 34 12 2 29 7 25 in
  RTCTimeManager.storable t /\
  RTCTimeManager.writeDateTime true t =
    (true, [RTCTimeManager.I2CWrite 0 [86; 52; 18; 2; 41; 7; 37]]) /\
  RTCTimeManager.readDateTime (Some [86; 52; 18; 2; 41; 7; 37]) =
    (Some t, [RTCTimeManager.I2CRead 0 7]).
Proof.
  cbv zeta.
  assert (Hst : RTCTimeManager.storable
                  (RTCTimeManager.mkRTCDateTime 56 34 12 2 29 7 25))
    by (vm_compute; repeat split; discriminate).
  destruct (clock_registers_round_trip _ true Hst) as (Hw & Hr & _).
  exact (conj Hst (conj Hw Hr)).
Defined.

Lemma eeprom_stays_in_ram_witness :
  0 <= 50 < 256 /\ 0 <= 12 < 256 /\
  RTCTimeManager.readEEPROM (Some [1; 2]) 50 12 = (None, []) /\
  RTCTimeManager.writeEEPROM true 50 [1; 2; 3; 4; 5; 6] =
    (true, [RTCTimeManager.I2CWrite 58 [1; 2; 3; 4; 5; 6]]).
Proof.
  assert (Ha : 0 <= 50 < 256) by lia.
  assert (Hl : 0 <= 12 < 256) by lia.
  assert (Hd : Z.of_nat (List.length [1; 2; 3; 4; 5; 6]) < 256)
    by (vm_compute; reflexivity).
  destruct (eeprom_stays_in_ram (Some [1; 2]) true 50 12 [1; 2; 3; 4; 5; 6]
              Ha Hl Hd) as (Hover & _ & _ & Hfits & _).
  refine (conj Ha (conj Hl (conj (Hover _) (Hfits _))));
    vm_compute; [reflexivity | discriminate].
Defined.

Lemma initialize_outcome_witness :
  let r := RTCTimeManager.initialize Fixtures.coldStart
             RTCTimeManager.constructor in
  RTCTimeManager.initialized_ RTCTimeManager.constructor = false /\
  fst (fst r) = true /\
  RTCTimeManager.hasValidTime_ (snd (fst r)) = false /\
  snd r =
    [RTCTimeManager.Supply5V true; RTCTimeManager.Delay 1000;
     RTCTimeManager.Probe;
     RTCTimeManager.Bus (RTCTimeManager.I2CRead 0 1);
     RTCTimeManager.Bus (RTCTimeManager.I2CWrite 0 [0]);
     RTCTimeManager.Bus (RTCTimeManager.I2CWrite 7 [0]);
     RTCTimeManager.Bus (RTCTimeManager.I2CRead 8 12)].
Proof.
  cbv zeta.
  assert (Hi : RTCTimeManager.initialized_ RTCTimeManager.constructor = false)
    by reflexivity.
  destruct (initialize_outcome Fixtures.coldStart RTCTimeManager.constructor
              Hi) as (Hres & _ & Hvalid & _ & _ & _ & Hyes & _).
  destruct (Hyes eq_refl) as (Hev & _).
  rewrite Hres, Hvalid, Hev. repeat split.
Defined.

Lemma sync_survives_restart_witness :
  let env := Fixtures.healthy 1753792496 in
  let s1 :=
    snd (fst (RTCTimeManager.setTimeFromNetwork env "2025-07-29T12:34:56"
                Fixtures.synced)) in
  let boot :=
    RTCTimeManager.mkInitEnv (Some true) true true (Some 86) true true
      (Some Fixtures.registers)
      (Some (RTCTimeManager.persistedRecord s1)) in
  let s2 := snd (fst (RTCTimeManager.initialize boot
                        RTCTimeManager.constructor)) in
  RTCTimeManager.inRange Fixtures.synced /\
  fst (fst (RTCTimeManager.setTimeFromNetwork env "2025-07-29T12:34:56"
              Fixtures.synced)) = true /\
  fst (fst (RTCTimeManager.initialize boot RTCTimeManager.constructor))
  = true /\
  RTCTimeManager.syncAttempts_ s2 = 2 /\
  RTCTimeManager.successfulSyncs_ s2 = 2 /\
  RTCTimeManager.totalDriftSeconds_ s2 = 6 /\
  RTCTimeManager.hasValidTime_ s2 = false.
Proof.
  cbv zeta.
  assert (Hr : RTCTimeManager.inRange Fixtures.synced)
    by (vm_compute; repeat split; discriminate).
  assert (Hok : fst (fst (RTCTimeManager.setTimeFromNetwork
                            (Fixtures.healthy 1753792496)
                            "2025-07-29T12:34:56" Fixtures.synced)) = true)
    by (vm_compute; reflexivity).
  match goal with
  | |- _ /\ _ /\ fst (fst (RTCTimeManager.initialize ?boot _)) = true /\ _ =>
      assert (Hboot : fst (fst (RTCTimeManager.initialize boot
                                  RTCTimeManager.constructor)) = true)
        by (vm_compute; reflexivity);
      destruct (sync_survives_restart (Fixtures.healthy 1753792496)
                  "2025-07-29T12:34:56" Fixtures.synced boot Hr Hok eq_refl
                  Hboot) as (_ & Ha & Hs & Hd & _ & Hv & _)
  end.
  rewrite Ha, Hs, Hd, Hv.
  refine (conj Hr (conj Hok (conj Hboot _))).
  vm_compute. repeat split.
Defined.

Lemma first_sync_counts_no_drift_witness :
  let s0 :=
    snd (fst (RTCTimeManager.initialize Fixtures.warmStart
                RTCTimeManager.constructor)) in
  let r :=
    RTCTimeManager.setTimeFromNetwork (Fixtures.healthy 1753792496)
      "2025-07-29T12:34:56" s0 in
  fst (fst (RTCTimeManager.initialize Fixtures.warmStart
              RTCTimeManager.constructor)) = true /\
  RTCTimeManager.totalDriftSeconds_ s0 = 0 /\
  fst (fst r) = true /\
  RTCTimeManager.totalDriftSeconds_ (snd (fst r)) = 0.
Proof.
  cbv zeta.
  assert (Hboot : fst (fst (RTCTimeManager.initialize Fixtures.warmStart
                              RTCTimeManager.constructor)) = true)
    by (vm_compute; reflexivity).
  destruct (first_sync_counts_no_drift Fixtures.warmStart
              (Fixtures.healthy 1753792496) (Fixtures.healthy 1753792500)
              "2025-07-29T12:34:56" "2025-07-29T12:35:00" Hboot)
    as (_ & Hd & _).
  rewrite Hd.
  refine (conj Hboot (conj _ (conj _ _))); vm_compute; reflexivity.
Defined.

Lemma cleanup_then_initialize_witness :
  let s1 := fst (RTCTimeManager.cleanup true Fixtures.synced) in
  let up := RTCTimeManager.initialize Fixtures.warmStart s1 in
  RTCTimeManager.inRange Fixtures.synced /\
  RTCTimeManager.ramRegisters Fixtures.warmStart =
    Some (RTCTimeManager.persistedRecord Fixtures.synced) /\
  fst (fst up) = true /\
  RTCTimeManager.successfulSyncs_ (snd (fst up)) = 1 /\
  RTCTimeManager.lastSyncTime_ (snd (fst up)) = 1753790000 /\
  RTCTimeManager.hasValidTime_ (snd (fst up)) = false.
Proof.
  cbv zeta.
  assert (Hr : RTCTimeManager.inRange Fixtures.synced)
    by (vm_compute; repeat split; discriminate).
  assert (Hram : RTCTimeManager.ramRegisters Fixtures.warmStart =
                 Some (RTCTimeManager.persistedRecord Fixtures.synced))
    by reflexivity.
  assert (Hboot : fst (fst (RTCTimeManager.initialize Fixtures.warmStart
                              (fst (RTCTimeManager.cleanup true
                                      Fixtures.synced)))) = true)
    by (vm_compute; reflexivity).
  destruct (cleanup_then_initialize true Fixtures.warmStart Fixtures.synced
              Hr) as (_ & _ & _ & _ & _ & Hup).
  rewrite (Hup Hram Hboot).
  exact (conj Hr (conj Hram (conj Hboot (conj eq_refl
           (conj eq_refl eq_refl))))).
Defined.

Lemma calculateDayOfWeek_iso_witness :
  RTCTimeManager.isDate 2025 7 29 = true /\
  RTCTimeManager.dateBefore (2015, 3, 1) (2025, 7, 29) = true /\
  RTCTimeManager.isoWeekday 2025 7 29 = 2 /\
  RTCTimeManager.calculateDayOfWeek 2025 7 29 = 2.
Proof.
  assert (Hd : RTCTimeManager.isDate 2025 7 29 = true)
    by (vm_compute; reflexivity).
  assert (Hb : RTCTimeManager.dateBefore (2015, 3, 1) (2025, 7, 29) = true)
    by (vm_compute; reflexivity).
  destruct (calculateDayOfWeek_iso 2025 7 29 Hd) as (Hlate & _).
  rewrite (Hlate Hb).
  refine (conj Hd (conj Hb (conj _ _))); vm_compute; reflexivity.
Defined.

Lemma valid_time_round_trip_witness :
  RTCTimeManager.isValidTime "2025-07-29T12:34:56" = true /\
  RTCTimeManager.parseTimeString "2025-07-29T12:34:56" =
    Some (RTCTimeManager.mkRTCDateTime 56 34 12 2 29 7 25) /\
  RTCTimeManager.formatDateTime
    (RTCTimeManager.mkRTCDateTime 56 34 12 2 29 7 25) = "2025-07-29T12:34:56"
  /\
  Text.regex_match RTCTimeManager.altRegex "2025-07-29 12:34:56" <> None /\
  RTCTimeManager.isValidTime "2025-07-29 12:34:56" = false.
Proof.
  assert (Hv : RTCTimeManager.isValidTime "2025-07-29T12:34:56" = true)
    by (vm_compute; reflexivity).
  assert (Ha : Text.regex_match RTCTimeManager.altRegex "2025-07-29 12:34:56"
               <> None) by (vm_compute; discriminate).
  destruct (valid_time_round_trip "2025-07-29T12:34:56") as (Hiso & _).
  destruct (Hiso Hv) as (t & Hparse & _ & _ & Hfmt & _).
  destruct (valid_time_round_trip "2025-07-29 12:34:56") as (_ & Halt).
  destruct (Halt Ha) as (_ & Hno).
  assert (Ht : t = RTCTimeManager.mkRTCDateTime 56 34 12 2 29 7 25).
  { assert (Hp : RTCTimeManager.parseTimeString "2025-07-29T12:34:56" =
                 Some (RTCTimeManager.mkRTCDateTime 56 34 12 2 29 7 25))
      by (vm_compute; reflexivity).
    rewrite Hp in Hparse. injection Hparse as <-. reflexivity. }
  subst t.
  exact (conj Hv (conj Hparse (conj Hfmt (conj Ha Hno)))).
Defined.

Lemma sync_then_read_witness :
  let r :=
    RTCTimeManager.setTimeFromNetwork (Fixtures.healthy 1753792496)
      "2025-07-29T12:34:56" Fixtures.synced in
  RTCTimeManager.initialized_ Fixtures.synced = true /\
  RTCTimeManager.isValidTime "2025-07-29T12:34:56" = true /\
  RTCTimeManager.timeWriteAck (Fixtures.healthy 1753792496) = true /\
  In (RTCTimeManager.I2CWrite 0 [86; 52; 18; 2; 41; 7; 37]) (snd r) /\
  RTCTimeManager.getCurrentDateTime (Some [86; 52; 18; 2; 41; 7; 37])
    (snd (fst r)) = ("2025-07-29T12:34:56", [RTCTimeManager.I2CRead 0 7]).
Proof.
  cbv zeta.
  assert (Hi : RTCTimeManager.initialized_ Fixtures.synced = true)
    by reflexivity.
  assert (Hv : RTCTimeManager.isValidTime "2025-07-29T12:34:56" = true)
    by (vm_compute; reflexivity).
  assert (Ha : RTCTimeManager.timeWriteAck (Fixtures.healthy 1753792496)
               = true) by reflexivity.
  assert (Hin : In (RTCTimeManager.I2CWrite 0 [86; 52; 18; 2; 41; 7; 37])
                  (snd (RTCTimeManager.setTimeFromNetwork
                          (Fixtures.healthy 1753792496)
                          "2025-07-29T12:34:56" Fixtures.synced)))
    by (vm_compute; right; left; reflexivity).
  destruct (sync_then_read (Fixtures.healthy 1753792496)
              "2025-07-29T12:34:56" Fixtures.synced Hi Hv Ha)
    as (_ & _ & _ & Hback).
  destruct (Hback _ Hin) as (_ & Hread).
  exact (conj Hi (conj Hv (conj Ha (conj Hin Hread)))).
Defined.

Lemma sleep_duration_from_clock_witness :
  let now :=
    fst (RTCTimeManager.getCurrentDateTime (Some Fixtures.registers)
           Fixtures.synced) in
  RTCTimeManager.initialized_ Fixtures.synced = true /\
  now = "2025-07-29T12:34:50" /\
  RTCTimeManager.getNightSleepDuration now Fixtures.synced = 300000000 /\
  RTCTimeManager.getNightSleepDuration
    (fst (RTCTimeManager.getCurrentDateTime None Fixtures.synced))
    Fixtures.synced = 300000000.
Proof.
  cbv zeta.
  assert (Hi : RTCTimeManager.initialized_ Fixtures.synced = true)
    by reflexivity.
  destruct (sleep_duration_from_clock (Some Fixtures.registers)
              Fixtures.synced) as (_ & Hread).
  destruct (sleep_duration_from_clock None Fixtures.synced) as (Hnone & _).
  destruct (Hnone (or_intror eq_refl)) as (_ & Hday).
  assert (Hcal : RTCTimeManager.calendarFields
                   (RTCTimeManager.mkRTCDateTime 50 34 12 3 29 7 25))
    by (vm_compute; repeat split; discriminate).
  assert (Hregs : fst (RTCTimeManager.readDateTime (Some Fixtures.registers))
                  = Some (RTCTimeManager.mkRTCDateTime 50 34 12 3 29 7 25))
    by (vm_compute; reflexivity).
  destruct (Hread (RTCTimeManager.mkRTCDateTime 50 34 12 3 29 7 25) Hi
              Hregs Hcal) as (_ & Hsched).
  destruct (Hsched eq_refl) as (_ & Hnotnight).
  rewrite Hday, Hnotnight.
  - refine (conj Hi (conj _ (conj _ _))); vm_compute; reflexivity.
  - unfold RTCTimeManager.isNightSpec. vm_compute. intros (H & _).
    destruct (H eq_refl) as [H' | H'];
      [apply H'; reflexivity | discriminate H'].
Defined.

(** ** RTCTimeManager: the drift from start-up *)

Section DriftFromStartup.

Import Text RTCTimeManager.

(** A successful call on a manager whose time flag is not set: the clock
    is not read and nothing is added to the accumulated drift. *)
Lemma setTimeFromNetwork_unflagged (call : SyncEnv * string)
  (s : RTCTimeManager) :
  initialized_ s = true -> hasValidTime_ s = false ->
  syncsWithReading call ->
  let r := setTimeFromNetwork (fst call) (snd call) s in
  let s' := snd (fst r) in
  fst (fst r) = true /\
  initialized_ s' = true /\ hasValidTime_ s' = true /\
  totalDriftSeconds_ s' = totalDriftSeconds_ s /\
  (forall reg count, ~ In (I2CRead reg count) (snd r)).
Proof.
  intros Hi Hv (Hparse & _ & Hack). cbv zeta.
  unfold setTimeFromNetwork. rewrite Hi, Hv. cbn [negb].
  destruct (parseTimeString (snd call)) as [newTime |]; [| contradiction].
  unfold writeDateTime, writeRegisters. rewrite Hack. cbn [negb fst snd].
  refine (conj eq_refl (conj Hi (conj eq_refl (conj eq_refl _)))).
  intros reg count H.
  unfold savePersistedData, writeEEPROM, writeRegisters in H.
  cbn [app In] in H. destruct H as [H | H]; [discriminate H |].
  destruct (_ >? 56); cbn [snd In] in H; [exact H |].
  destruct H as [H | H]; [discriminate H | exact H].
Qed.

(** C6, from start-up.  [initialize] asks [getCurrentDateTime] for the
    time before it marks the manager as initialised, gets the empty text
    and so never sets the time flag.  The first successful call of
    [setTimeFromNetwork] on a manager that was constructed and initialised
    therefore accounts no drift, although the hardware time can be read
    and differs from the new time: after the calls, each of which
    succeeds with a hardware time that can be read, the accumulated drift
    is what [initialize] loaded plus the absolute drifts of all the calls
    but the first, and it is not the sum over all the calls when the
    first call has a drift.  From the second call on the drifts are
    accumulated. *)
Theorem drift_misses_first_sync (boot : InitEnv) (call : SyncEnv * string)
  (calls : list (SyncEnv * string)) :
  fst (fst (initialize boot constructor)) = true ->
  Forall syncsWithReading (call :: calls) ->
  let s0 := snd (fst (initialize boot constructor)) in
  0 <= totalDriftSeconds_ s0 ->
  totalDriftSeconds_ s0 + sumZ (map absDrift calls) < 2 ^ 31 ->
  hasValidTime_ s0 = false /\
  (forall reg count,
     ~ In (I2CRead reg count)
         (snd (setTimeFromNetwork (fst call) (snd call) s0))) /\
  totalDriftSeconds_ (run (call :: calls) s0) =
    totalDriftSeconds_ s0 + sumZ (map absDrift calls) /\
  (absDrift call <> 0 ->
   totalDriftSeconds_ (run (call :: calls) s0) <>
   totalDriftSeconds_ s0 + sumZ (map absDrift (call :: calls))).
Proof.
  intros Hboot Hall. cbv zeta. intros Hpos Hsum.
  destruct (initialize_fresh boot Hboot) as (Hinit & Hvalid & _).
  set (s0 := snd (fst (initialize boot constructor))) in *.
  clearbody s0.
  inversion Hall as [| ? ? Hcall Hrest]; subst.
  destruct (setTimeFromNetwork_unflagged call s0 Hinit Hvalid Hcall)
    as (_ & Hinit1 & Hvalid1 & Hdrift1 & Hnoread).
  assert (Hrun : totalDriftSeconds_ (run (call :: calls) s0) =
                 totalDriftSeconds_ s0 + sumZ (map absDrift calls)).
  { destruct call as [env networkTime]. cbn [run]. cbn [fst snd] in *.
    rewrite (run_drift calls _ Hinit1 Hvalid1 Hrest);
      rewrite Hdrift1; [reflexivity | exact Hpos | exact Hsum]. }
  refine (conj Hvalid (conj Hnoread (conj Hrun _))).
  intros Hdrift. rewrite Hrun. cbn [map].
  change (sumZ (absDrift call :: map absDrift calls))
    with (absDrift call + sumZ (map absDrift calls)).
  lia.
Qed.

End DriftFromStartup.

Lemma drift_misses_first_sync_witness :
  let first := (Fixtures.healthy 100, "2025-07-29T12:34:56") in
  let calls := [(Fixtures.healthy 200, "2025-07-29 12:34:40")] in
  let s0 :=
    snd (fst (RTCTimeManager.initialize Fixtures.coldStart
                RTCTimeManager.constructor)) in
  fst (fst (RTCTimeManager.initialize Fixtures.coldStart
              RTCTimeManager.constructor)) = true /\
  Forall RTCTimeManager.syncsWithReading (first :: calls) /\
  RTCTimeManager.totalDriftSeconds_ s0 = 0 /\
  map RTCTimeManager.absDrift (first :: calls) = [6; 10] /\
  RTCTimeManager.totalDriftSeconds_
    (RTCTimeManager.run [first] s0) = 0 /\
  RTCTimeManager.totalDriftSeconds_
    (RTCTimeManager.run (first :: calls) s0) = 10.
Proof.
  cbv zeta.
  assert (Hboot : fst (fst (RTCTimeManager.initialize Fixtures.coldStart
                              RTCTimeManager.constructor)) = true)
    by (vm_compute; reflexivity).
  assert (Hall : Forall RTCTimeManager.syncsWithReading
                   [(Fixtures.healthy 100, "2025-07-29T12:34:56");
                    (Fixtures.healthy 200, "2025-07-29 12:34:40")]).
  { repeat constructor; cbn; discriminate. }
  assert (Hone : Forall RTCTimeManager.syncsWithReading
                   [(Fixtures.healthy 100, "2025-07-29T12:34:56")]).
  { repeat constructor; cbn; discriminate. }
  assert (Hzero : RTCTimeManager.totalDriftSeconds_
                    (snd (fst (RTCTimeManager.initialize Fixtures.coldStart
                                 RTCTimeManager.constructor))) = 0)
    by (vm_compute; reflexivity).
  destruct (drift_misses_first_sync Fixtures.coldStart
              (Fixtures.healthy 100, "2025-07-29T12:34:56")
              [(Fixtures.healthy 200, "2025-07-29 12:34:40")] Hboot Hall)
    as (_ & _ & Htwo & _);
    [rewrite Hzero; lia | rewrite Hzero; vm_compute; reflexivity |].
  destruct (drift_misses_first_sync Fixtures.coldStart
              (Fixtures.healthy 100, "2025-07-29T12:34:56") [] Hboot Hone)
    as (_ & _ & Hfirst & _);
    [rewrite Hzero; lia | rewrite Hzero; vm_compute; reflexivity |].
  rewrite Hfirst, Htwo, Hzero.
  refine (conj Hboot (conj Hall (conj eq_refl (conj _ (conj _ _)))));
    vm_compute; reflexivity.
Defined.
